(** * Social-listening pipeline: aggregation, adapters, parser, orchestrator

    A shallow embedding of the JavaScript sources
    - [data-aggregator.js]  (class [DataAggregator], exported [aggregateResults]),
    - [reddit-service.js]   (class [RedditService], exported [searchReddit]),
    - [search-service.js]   (class [SerperSearchService], exported [searchSerper]),
    - [claude-service.js]   (class [SocialListeningService], exported
                             [analyzeSocialListening]),
    - [app.js]              (the two handlers of the workflow step),
    followed by the properties proved about them.

    Conventions.
    - A JavaScript string is the list of its UTF-16 code units.
    - A [Set] of strings is a [gset]; the closure that filters against it is
      written with the set passed in and out.
    - A function that can throw returns [Exception + A]; a [try]/[catch] is a
      [match] on that sum.
    - Scores and counts are integers.  Where the code adds them up with
      [reduce] the additions are those of doubles: [Number], [plus].
    - Everything outside the process (environment variables, the clock, the
      three HTTP clients) is a field of the record [World]; the Slack client
      of a handler is the record [Slack], and a handler is modelled by the
      list of the calls it makes to it. *)

From Stdlib Require Import ZArith NArith String Ascii List Lia Permutation Sorted.
From stdpp Require Import base decidable countable gmap list.

Set Warnings "-clear-no-such-hyp,-tactics".

Open Scope N_scope.
Open Scope nat_scope.

(* ===================================================================== *)
(** ** JavaScript strings                                                  *)
(* ===================================================================== *)

(** A string is its sequence of UTF-16 code units. *)
Abbreviation jsstring := (list N).

(** Decoding of a UTF-8 byte sequence into UTF-16 code units, used only to
    write the string literals of the sources (which are UTF-8 files). *)
Fixpoint utf16_of_utf8 (bs : list N) : jsstring :=
  match bs with
  | [] => []
  | b1 :: t1 =>
    if (b1 <? 128)%N then b1 :: utf16_of_utf8 t1 else
    match t1 with
    | [] => []
    | b2 :: t2 =>
      if (b1 <? 224)%N then
        ((b1 mod 32) * 64 + b2 mod 64)%N :: utf16_of_utf8 t2
      else
      match t2 with
      | [] => []
      | b3 :: t3 =>
        if (b1 <? 240)%N then
          ((b1 mod 16) * 4096 + (b2 mod 64) * 64 + b3 mod 64)%N
            :: utf16_of_utf8 t3
        else
        match t3 with
        | [] => []
        | b4 :: t4 =>
          let cp := ((b1 mod 8) * 262144 + (b2 mod 64) * 4096
                     + (b3 mod 64) * 64 + b4 mod 64)%N in
          let v := (cp - 65536)%N in
          (55296 + v / 1024)%N :: (56320 + v mod 1024)%N :: utf16_of_utf8 t4
        end
      end
    end
  end.

Fixpoint bytes_of_string (s : string) : list N :=
  match s with
  | EmptyString => []
  | String a s' => N_of_ascii a :: bytes_of_string s'
  end.

(** [js "..."] is the JavaScript string written ["..."] in a source file. *)
Definition js (s : string) : jsstring := utf16_of_utf8 (bytes_of_string s).

(** [a + b] on strings. *)
Notation "a +++ b" := (@app N a b) (at level 60, right associativity).

(** Truthiness of a string: [''] is falsy. *)
Definition truthy (s : jsstring) : bool :=
  match s with [] => false | _ :: _ => true end.

(** The decimal text of an integer inside a template literal. *)
Fixpoint digits (u : Decimal.uint) : jsstring :=
  match u with
  | Decimal.Nil => []
  | Decimal.D0 u => 48%N :: digits u
  | Decimal.D1 u => 49%N :: digits u
  | Decimal.D2 u => 50%N :: digits u
  | Decimal.D3 u => 51%N :: digits u
  | Decimal.D4 u => 52%N :: digits u
  | Decimal.D5 u => 53%N :: digits u
  | Decimal.D6 u => 54%N :: digits u
  | Decimal.D7 u => 55%N :: digits u
  | Decimal.D8 u => 56%N :: digits u
  | Decimal.D9 u => 57%N :: digits u
  end.

Definition showNat (n : nat) : jsstring := digits (Nat.to_uint n).

Definition showZ (z : Z) : jsstring :=
  match z with
  | Z0 => [48%N]
  | Zpos p => digits (Pos.to_uint p)
  | Zneg p => 45%N :: digits (Pos.to_uint p)
  end.

(** [Array.prototype.join]. *)
Fixpoint join (sep : jsstring) (l : list jsstring) : jsstring :=
  match l with
  | [] => []
  | [x] => x
  | x :: rest => x +++ sep +++ join sep rest
  end.

(** [s.startsWith(p)], and the rest of [s] after the prefix [p]. *)
Fixpoint startsWith (p s : jsstring) : bool :=
  match p, s with
  | [], _ => true
  | _ :: _, [] => false
  | a :: p', b :: s' => (a =? b)%N && startsWith p' s'
  end.

Fixpoint dropPrefix (p s : jsstring) : option jsstring :=
  match p, s with
  | [], _ => Some s
  | _ :: _, [] => None
  | a :: p', b :: s' => if (a =? b)%N then dropPrefix p' s' else None
  end.

(** [s.includes(p)]. *)
Fixpoint includes (s p : jsstring) : bool :=
  startsWith p s ||
  match s with
  | [] => false
  | _ :: s' => includes s' p
  end.

(** [String.prototype.toLowerCase] of a text that is then only searched,
    with [includes], for a fixed pattern of ASCII letters, digits and
    blanks: the time range, the platform filter and the concerns section.
    The code units whose lower-case form holds an ASCII unit are mapped as
    JavaScript maps them: A-Z, U+212A (to [k]) and U+0130 (to [i] followed
    by U+0307).  Every other unit is lowered by JavaScript to non-ASCII
    units and is kept as it is here, which no search for an ASCII pattern
    can tell apart.  Where the pattern is a text of the user (the brand, in
    [filterByRelevance]) the case mapping of the runtime is used instead:
    field [lowerCase] of [World]. *)
Definition lowerUnit (c : N) : jsstring :=
  if ((65 <=? c) && (c <=? 90))%N then [(c + 32)%N]
  else if (c =? 8490)%N then [107%N]
  else if (c =? 304)%N then [105%N; 775%N]
  else [c].

Definition toLowerCase (s : jsstring) : jsstring := flat_map lowerUnit s.

(** White space and line terminators: what [\s] matches and what [trim]
    removes. *)
Definition isSpace (c : N) : bool :=
  ((9 <=? c) && (c <=? 13) || (c =? 32) || (c =? 160) || (c =? 5760)
   || (8192 <=? c) && (c <=? 8202) || (c =? 8232) || (c =? 8233)
   || (c =? 8239) || (c =? 8287) || (c =? 12288) || (c =? 65279))%N.

Fixpoint trimStart (s : jsstring) : jsstring :=
  match s with
  | [] => []
  | c :: s' => if isSpace c then trimStart s' else s
  end.

Definition trimEnd (s : jsstring) : jsstring := rev (trimStart (rev s)).

Definition trim (s : jsstring) : jsstring := trimEnd (trimStart s).

(* ===================================================================== *)
(** ** Exceptions                                                          *)
(* ===================================================================== *)

(** An [Error] object; only its [message] is ever read. *)
Record Exception := Error { message : jsstring }.

(** The outcome of an expression that may throw. *)
Definition outcome (A : Type) : Type := Exception + A.

Definition returned {A} (a : A) : outcome A := inr a.
Definition thrown {A} (e : Exception) : outcome A := inl e.

Definition bind {A B} (c : outcome A) (k : A -> outcome B) : outcome B :=
  match c with
  | inl e => inl e
  | inr a => k a
  end.

Notation "x <- c ;; k" := (bind c (fun x => k))
  (at level 100, c at next level, right associativity).

(** [try { c } catch (error) { h error }]. *)
Definition tryCatch {A} (c : outcome A) (h : Exception -> outcome A)
  : outcome A :=
  match c with
  | inl e => h e
  | inr a => inr a
  end.

(** Whether an evaluation ended in a [throw]. *)
Definition raises {A} (c : outcome A) : bool :=
  match c with inl _ => true | inr _ => false end.

(* ===================================================================== *)
(** ** Records exchanged between the services                              *)
(* ===================================================================== *)

(** One web-search hit, as built by [executeSerperSearch]. *)
Record SearchResult := {
  name : jsstring;
  url : jsstring;
  snippet : jsstring;
  datePublished : option jsstring;
  displayUrl : jsstring
}.

(** One forum post, as built by [extractPostData].  The field [url] of the
    source is [post_url] here. *)
Record RedditPost := {
  id : jsstring;
  title : jsstring;
  body : jsstring;
  subreddit : jsstring;
  upvotes : Z;
  downvotes : Z;
  score : Z;
  numComments : Z;
  permalink : jsstring;
  created : jsstring;
  author : jsstring;
  post_url : jsstring
}.

(** A number that a sum of integers can be: an integer that is a double,
    an infinity, or NaN. *)
Inductive Number :=
  | Finite (z : Z)
  | Infinite (negative : bool)
  | NaN.

(** The double nearest to the integer [z], ties going to the even
    significand: [z] itself below 2^53 in magnitude, a multiple of the unit
    in the last place [2^e] above, and an infinity from 2^1024 on. *)
Definition roundDouble (z : Z) : Number :=
  let a := Z.abs z in
  if (a <? 2 ^ 53)%Z then Finite z
  else
    let e := (Z.log2 a - 52)%Z in
    let q := (a / 2 ^ e)%Z in
    let r := (a mod 2 ^ e)%Z in
    let half := (2 ^ (e - 1))%Z in
    let q' :=
      if (r <? half)%Z then q
      else if (half <? r)%Z then (q + 1)%Z
      else if Z.even q then q else (q + 1)%Z in
    if (2 ^ 1024 <=? q' * 2 ^ e)%Z then Infinite (z <? 0)%Z
    else Finite (Z.sgn z * (q' * 2 ^ e))%Z.

(** [a + b] on such numbers: the exact sum, rounded. *)
Definition plus (a b : Number) : Number :=
  match a, b with
  | Finite x, Finite y => roundDouble (x + y)
  | NaN, _ | _, NaN => NaN
  | Infinite s, Infinite t => if Bool.eqb s t then Infinite s else NaN
  | Infinite s, Finite _ | Finite _, Infinite s => Infinite s
  end.

(** [avgScore] is a double: [0] for no post, else
    [Math.round((totalScore / posts.length) * 10) / 10].  It is kept as the
    total and the count it is computed from; its text is produced by the
    runtime (field [showAverage] of [World]). *)
Inductive Average :=
  | AverageZero
  | AverageOf (totalScore : Number) (count : nat).

(** The object returned by [extractSentiment]; the field [sentiment] of the
    source is [label] here. *)
Record Sentiment := {
  avgScore : Average;
  totalEngagement : Number;
  label : jsstring
}.

(** Result of the exported [searchReddit]. *)
Record RedditData := {
  rd_posts : list RedditPost;
  rd_formattedText : jsstring;
  rd_sentiment : Sentiment
}.

(** Result of the exported [searchSerper] (alias [searchBing]). *)
Record BingData := {
  bd_linkedin : list SearchResult;
  bd_twitter : list SearchResult;
  bd_reviews : list SearchResult;
  bd_blogs : list SearchResult;
  bd_formattedText : jsstring;
  bd_totalResults : nat
}.

(** [array.filter(result => { if (seen.has(result.url)) return false;
    seen.add(result.url); return true; })], with the [Set] that the callback
    closes over passed in and out: the kept results, in order, and the set
    after the last call.  Both [deduplicateResults] and [deduplicateEntries]
    use this callback. *)
Fixpoint filterUnseen (seen : gset jsstring) (rs : list SearchResult)
  : list SearchResult * gset jsstring :=
  match rs with
  | [] => ([], seen)
  | result :: rest =>
    if decide (url result ∈ seen) then filterUnseen seen rest
    else
      let '(kept, seen') := filterUnseen ({[ url result ]} ∪ seen) rest in
      (result :: kept, seen')
  end.

(* ===================================================================== *)
(** ** data-aggregator.js                                                  *)
(* ===================================================================== *)

(** The object [reddit] of [aggregateResults]. *)
Record RedditBucket := {
  posts : list RedditPost;
  totalMentions : nat;
  sentiment : Sentiment;
  formattedText : jsstring
}.

(** The objects [linkedin], [twitter], [reviews] and [blogs]. *)
Record WebBucket := {
  results : list SearchResult;
  totalResults : nat
}.

Record PlatformBreakdown := {
  n_reddit : nat;
  n_linkedin : nat;
  n_twitter : nat;
  n_reviews : nat;
  n_blogs : nat
}.

Record AggregateStats := {
  totalSources : nat;
  dateRange : jsstring;
  platforms : list jsstring;
  platformBreakdown : PlatformBreakdown;
  redditSentiment : jsstring;
  redditAvgScore : Average
}.

Record AggregatedData := {
  reddit : RedditBucket;
  linkedin : WebBucket;
  twitter : WebBucket;
  reviews : WebBucket;
  blogs : WebBucket;
  aggregateStats : AggregateStats;
  dataSource : jsstring;
  formattedForClaude : jsstring
}.

(** [aggregatedData.aggregateStats.platforms]. *)
Definition activePlatforms (d : AggregatedData) : list jsstring :=
  platforms (aggregateStats d).

(** The property names the deduplication pass walks over. *)
Inductive Platform := Linkedin | Twitter | Reviews | Blogs.

(** [aggregatedData[platform]]. *)
Definition getBucket (d : AggregatedData) (p : Platform) : WebBucket :=
  match p with
  | Linkedin => linkedin d
  | Twitter => twitter d
  | Reviews => reviews d
  | Blogs => blogs d
  end.

(** [aggregatedData[platform].results = rs;
     aggregatedData[platform].totalResults = n]. *)
Definition setBucket (d : AggregatedData) (p : Platform) (b : WebBucket)
  : AggregatedData :=
  {| reddit := reddit d;
     linkedin := match p with Linkedin => b | _ => linkedin d end;
     twitter := match p with Twitter => b | _ => twitter d end;
     reviews := match p with Reviews => b | _ => reviews d end;
     blogs := match p with Blogs => b | _ => blogs d end;
     aggregateStats := aggregateStats d;
     dataSource := dataSource d;
     formattedForClaude := formattedForClaude d |}.

(** [aggregatedData.aggregateStats.totalSources = n]. *)
Definition setTotalSources (d : AggregatedData) (n : nat) : AggregatedData :=
  {| reddit := reddit d;
     linkedin := linkedin d;
     twitter := twitter d;
     reviews := reviews d;
     blogs := blogs d;
     aggregateStats :=
       {| totalSources := n;
          dateRange := dateRange (aggregateStats d);
          platforms := platforms (aggregateStats d);
          platformBreakdown := platformBreakdown (aggregateStats d);
          redditSentiment := redditSentiment (aggregateStats d);
          redditAvgScore := redditAvgScore (aggregateStats d) |};
     dataSource := dataSource d;
     formattedForClaude := formattedForClaude d |}.

Module DataAggregator.

(** [platformsWithData]: one [push] per platform with a positive count. *)
Definition pushIf (c : bool) (x : jsstring) (l : list jsstring)
  : list jsstring := if c then l ++ [x] else l.

Definition calculateMetrics (reddit : RedditBucket)
    (linkedin twitter reviews blogs : WebBucket) (timeRange : jsstring)
  : AggregateStats :=
  let totalSources :=
    totalMentions reddit + totalResults linkedin + totalResults twitter
    + totalResults reviews + totalResults blogs in
  let platformsWithData :=
    pushIf (0 <? totalResults blogs) (js "Blogs")
      (pushIf (0 <? totalResults reviews) (js "Review Sites")
        (pushIf (0 <? totalResults twitter) (js "Twitter/X")
          (pushIf (0 <? totalResults linkedin) (js "LinkedIn")
            (pushIf (0 <? totalMentions reddit) (js "Reddit") [])))) in
  {| totalSources := totalSources;
     dateRange := timeRange;
     platforms := platformsWithData;
     platformBreakdown :=
       {| n_reddit := totalMentions reddit;
          n_linkedin := totalResults linkedin;
          n_twitter := totalResults twitter;
          n_reviews := totalResults reviews;
          n_blogs := totalResults blogs |};
     redditSentiment := label (sentiment reddit);
     redditAvgScore := avgScore (sentiment reddit) |}.

Definition determineDataSource (reddit : RedditBucket) (bingData : BingData)
  : jsstring :=
  let hasReddit := 0 <? totalMentions reddit in
  let hasBing := 0 <? bd_totalResults bingData in
  if hasReddit && hasBing then js "real-time"
  else if hasReddit || hasBing then js "partial"
  else js "fallback".

(** The body of the four [forEach] loops that list a web bucket. *)
Fixpoint listResults (index : nat) (rs : list SearchResult) : jsstring :=
  match rs with
  | [] => []
  | result :: rest =>
    showNat (index + 1) +++ js ". " +++ name result +++ [10%N]
    +++ js "   URL: " +++ url result +++ [10%N]
    +++ js "   Snippet: " +++ [34%N] +++ snippet result +++ [34%N]
    +++ [10%N; 10%N]
    +++ listResults (S index) rest
  end.

Definition webSection (heading tail : jsstring) (b : WebBucket) : jsstring :=
  if 0 <? totalResults b then
    heading +++ js " (" +++ showNat (totalResults b) +++ tail
    +++ [10%N; 10%N] +++ listResults 0 (results b)
  else [].

Definition rule : jsstring := js "====================================".

Definition formatForClaudeAnalysis (reddit : RedditBucket)
    (linkedin twitter reviews blogs : WebBucket)
    (brand timeRange : jsstring) (stats : AggregateStats) : jsstring :=
  js "You are analyzing REAL social listening data collected from APIs for the brand: "
    +++ brand +++ [10%N; 10%N]
  +++ js "TIME RANGE: Last " +++ timeRange +++ [10%N]
  +++ js "TOTAL SOURCES: " +++ showNat (totalSources stats)
    +++ js " mentions across " +++ showNat (length (platforms stats))
    +++ js " platforms" +++ [10%N]
  +++ js "PLATFORMS: " +++ join (js ", ") (platforms stats) +++ [10%N; 10%N]
  +++ rule +++ [10%N]
  +++ js "PLATFORM BREAKDOWN:" +++ [10%N]
  +++ js "- Reddit: " +++ showNat (n_reddit (platformBreakdown stats))
    +++ js " posts (avg sentiment: " +++ redditSentiment stats +++ js ")"
    +++ [10%N]
  +++ js "- LinkedIn: " +++ showNat (n_linkedin (platformBreakdown stats))
    +++ js " results" +++ [10%N]
  +++ js "- Twitter/X: " +++ showNat (n_twitter (platformBreakdown stats))
    +++ js " results" +++ [10%N]
  +++ js "- Review Sites: " +++ showNat (n_reviews (platformBreakdown stats))
    +++ js " results" +++ [10%N]
  +++ js "- Blogs: " +++ showNat (n_blogs (platformBreakdown stats))
    +++ js " results" +++ [10%N]
  +++ rule +++ [10%N; 10%N]
  +++ (if truthy (formattedText reddit) && (0 <? length (formattedText reddit))
       then formattedText reddit +++ [10%N; 10%N] else [])
  +++ webSection (js "LINKEDIN DATA") (js " results):") linkedin
  +++ webSection (js "TWITTER/X DATA") (js " results):") twitter
  +++ webSection (js "REVIEW SITES DATA")
        (js " results from G2, Capterra, TrustRadius):") reviews
  +++ webSection (js "BLOGS & FORUMS DATA") (js " results):") blogs
  +++ rule +++ [10%N; 10%N]
  +++ js "ANALYSIS INSTRUCTIONS:" +++ [10%N]
  +++ js "Based on the REAL data above (" +++ showNat (totalSources stats)
    +++ js " total sources), provide a comprehensive social listening analysis."
    +++ [10%N]
  +++ js "All source citations MUST reference the actual URLs provided above."
    +++ [10%N]
  +++ js "Focus on actual sentiment, trends, and insights found in the real data."
    +++ [10%N; 10%N].

(** [aggregateResults].  The adapters always return their arrays, their
    text and their sentiment object, so the [||] defaults and the
    [? :] tests on [redditData.posts] and [bingData.linkedin] (an array is
    truthy, also when empty) select the adapter's value. *)
Definition aggregateResults (redditData : RedditData) (bingData : BingData)
    (brand timeRange : jsstring) : AggregatedData :=
  let reddit :=
    {| posts := rd_posts redditData;
       totalMentions := length (rd_posts redditData);
       sentiment := rd_sentiment redditData;
       formattedText := rd_formattedText redditData |} in
  let linkedin :=
    {| results := bd_linkedin bingData;
       totalResults := length (bd_linkedin bingData) |} in
  let twitter :=
    {| results := bd_twitter bingData;
       totalResults := length (bd_twitter bingData) |} in
  let reviews :=
    {| results := bd_reviews bingData;
       totalResults := length (bd_reviews bingData) |} in
  let blogs :=
    {| results := bd_blogs bingData;
       totalResults := length (bd_blogs bingData) |} in
  let aggregateStats :=
    calculateMetrics reddit linkedin twitter reviews blogs timeRange in
  let dataSource := determineDataSource reddit bingData in
  let formattedForClaude :=
    formatForClaudeAnalysis reddit linkedin twitter reviews blogs
      brand timeRange aggregateStats in
  {| reddit := reddit;
     linkedin := linkedin;
     twitter := twitter;
     reviews := reviews;
     blogs := blogs;
     aggregateStats := aggregateStats;
     dataSource := dataSource;
     formattedForClaude := formattedForClaude |}.

(** One turn of the [forEach] over the platform names.  Every bucket of an
    aggregated corpus is an object with a [results] array, so the guard
    [aggregatedData[platform] && aggregatedData[platform].results] holds. *)
Definition dedupPlatform (st : AggregatedData * gset jsstring) (p : Platform)
  : AggregatedData * gset jsstring :=
  let '(aggregatedData, seenUrls) := st in
  let '(kept, seen) := filterUnseen seenUrls (results (getBucket aggregatedData p)) in
  (setBucket aggregatedData p {| results := kept; totalResults := length kept |},
   seen).

Definition deduplicateEntries (aggregatedData : AggregatedData)
  : AggregatedData :=
  let '(aggregatedData, _) :=
    foldl dedupPlatform (aggregatedData, ∅)
      [Linkedin; Twitter; Reviews; Blogs] in
  let totalSources :=
    totalMentions (reddit aggregatedData)
    + totalResults (linkedin aggregatedData)
    + totalResults (twitter aggregatedData)
    + totalResults (reviews aggregatedData)
    + totalResults (blogs aggregatedData) in
  setTotalSources aggregatedData totalSources.

End DataAggregator.

(** The exported [aggregateResults] (the two [console.log] lines print and
    change nothing). *)
Definition aggregateResults (redditData : RedditData) (bingData : BingData)
    (brand timeRange : jsstring) : AggregatedData :=
  let aggregated :=
    DataAggregator.aggregateResults redditData bingData brand timeRange in
  let deduplicated := DataAggregator.deduplicateEntries aggregated in
  deduplicated.

(* ===================================================================== *)
(** ** The world outside the process                                       *)
(* ===================================================================== *)

(** A post of a snoowrap listing, before [extractPostData]; a field that may
    be missing or falsy is an [option]. *)
Record Submission := {
  s_id : jsstring;
  s_title : jsstring;
  selftext : option jsstring;
  ups : option Z;
  downs : option Z;
  s_score : option Z;
  num_comments : option Z;
  s_permalink : jsstring;
  created_utc : Z;
  s_author : option jsstring;
  s_url : option jsstring
}.

(** An entry of [response.data.organic]. *)
Record Organic := {
  o_title : option jsstring;
  link : option jsstring;
  o_snippet : option jsstring;
  date : option jsstring
}.

(** An element of [message.content]. *)
Record ContentBlock := {
  type : jsstring;
  text : jsstring
}.

(** What is sent to the text-generation service.  [buildEnhancedPrompt] and
    [buildSocialListeningPrompt] are template literals over these arguments
    and the current date; the reply of the service is a function of the
    prompt, hence of these arguments. *)
Inductive Prompt :=
  | EnhancedPrompt (brand competitors timeRange platforms : jsstring)
                   (aggregatedData : AggregatedData)
  | SocialListeningPrompt (brand competitors timeRange platforms : jsstring).

Record World := {
  (** [process.env[name]]: [None] for an unset variable. *)
  env : jsstring -> option jsstring;
  (** [new Date().toISOString()]. *)
  now : jsstring;
  (** [new Date(ms).toISOString()], which throws on an invalid date. *)
  toISOString : Z -> outcome jsstring;
  (** [new URL(link).hostname], which throws on an invalid URL. *)
  hostname : jsstring -> outcome jsstring;
  (** [s.toLowerCase()] of any string [s]: the case mapping of the runtime
      (its Unicode tables, with the rules for the final sigma). *)
  lowerCase : jsstring -> jsstring;
  (** The text of an [avgScore] inside a template literal. *)
  showAverage : Average -> jsstring;
  (** [new snoowrap({userAgent, clientId, clientSecret, grantType})], which
      throws when the package rejects the credentials it is given. *)
  snoowrap : jsstring -> jsstring -> jsstring -> outcome unit;
  (** [reddit.getSubreddit(subreddit).search({query, time, sort, limit})]. *)
  subredditSearch : jsstring -> jsstring -> jsstring -> outcome (list Submission);
  (** [axios(config)] for the query [q] and the count [num], then
      [response.data.organic]: [None] when [data] or [organic] is missing. *)
  axios : jsstring -> nat -> outcome (option (list Organic));
  (** [new Anthropic({apiKey})]. *)
  anthropic : jsstring -> outcome unit;
  (** [client.messages.create({model, max_tokens, messages})]. *)
  messagesCreate : Prompt -> outcome (list ContentBlock)
}.

(** [!v] for a value that is [undefined] or a string. *)
Definition falsy (v : option jsstring) : bool :=
  match v with
  | None => true
  | Some s => negb (truthy s)
  end.

(** [v || d] for such a value. *)
Definition orElse (v : option jsstring) (d : jsstring) : jsstring :=
  match v with
  | Some (c :: s) => c :: s
  | _ => d
  end.

(** [n || 0] for a number that may be missing. *)
Definition orZero (v : option Z) : Z :=
  match v with
  | Some n => n
  | None => 0%Z
  end.

(** [array.map(f)] for a callback that may throw. *)
Fixpoint mapM {A B} (f : A -> outcome B) (l : list A) : outcome (list B) :=
  match l with
  | [] => returned []
  | a :: rest =>
    b <- f a ;;
    bs <- mapM f rest ;;
    returned (b :: bs)
  end.

(** [Array.prototype.sort(compare)]: for a consistent comparator the
    specified result is the stable arrangement in which [compare a b <= 0]
    for each element [a] placed before [b]; insertion from the right
    computes it. *)
Fixpoint insertSorted {A} (compare : A -> A -> Z) (x : A) (l : list A)
  : list A :=
  match l with
  | [] => [x]
  | y :: l' =>
    if (compare x y <=? 0)%Z then x :: y :: l'
    else y :: insertSorted compare x l'
  end.

Definition arraySort {A} (compare : A -> A -> Z) (l : list A) : list A :=
  foldr (insertSorted compare) [] l.

(* ===================================================================== *)
(** ** reddit-service.js                                                   *)
(* ===================================================================== *)

Definition neutralSentiment : Sentiment :=
  {| avgScore := AverageZero; totalEngagement := Finite 0;
     label := js "neutral" |}.

Module RedditService.

(** The instance: the snoowrap client lives in the world. *)
Record t := { targetSubreddits : list jsstring }.

Definition constructor (w : World)
    (clientId clientSecret userAgent : option jsstring) : outcome t :=
  if falsy clientId || falsy clientSecret then
    thrown (Error (js "Reddit API credentials are required"))
  else
    _ <- snoowrap w (orElse userAgent (js "social-listening-bot/1.0"))
           (orElse clientId []) (orElse clientSecret []) ;;
    returned {| targetSubreddits :=
      [js "SaaS"; js "technology"; js "startups"; js "entrepreneur";
       js "smallbusiness"; js "Entrepreneur"; js "webdev"; js "programming";
       js "software"; js "business"] |}.

Definition parseTimeRange (timeRange : jsstring) : jsstring :=
  let rangeLower := toLowerCase timeRange in
  if includes rangeLower (js "24") || includes rangeLower (js "hour")
  then js "day"
  else if includes rangeLower (js "7") || includes rangeLower (js "week")
  then js "week"
  else if includes rangeLower (js "30") || includes rangeLower (js "month")
  then js "month"
  else if includes rangeLower (js "year") then js "year"
  else js "week".

Definition extractPostData (w : World) (post : Submission)
    (subreddit : jsstring) : outcome RedditPost :=
  created <- toISOString w (created_utc post * 1000)%Z ;;
  returned
    {| id := s_id post;
       title := s_title post;
       body := orElse (selftext post) [];
       subreddit := subreddit;
       upvotes := orZero (ups post);
       downvotes := orZero (downs post);
       score := orZero (s_score post);
       numComments := orZero (num_comments post);
       permalink := js "https://reddit.com" +++ s_permalink post;
       created := created;
       author := match s_author post with
                 | Some name => name
                 | None => js "[deleted]"
                 end;
       post_url := orElse (s_url post) [] |}.

(** The whole body is guarded: a fault of the search, or of the mapping of
    its listing, gives the empty array. *)
Definition searchSubreddit (w : World) (brand subreddit timeFilter : jsstring)
  : list RedditPost :=
  match
    (results <- subredditSearch w subreddit brand timeFilter ;;
     mapM (fun post => extractPostData w post subreddit) results)
  with
  | inr posts => posts
  | inl error => []
  end.

Definition filterByRelevance (w : World) (posts : list RedditPost)
    (brand : jsstring) : list RedditPost :=
  let brandLower := lowerCase w brand in
  List.filter (fun post =>
    if bool_decide (author post = js "[deleted]")
       || includes (title post) (js "[removed]") then false
    else
      let titleLower := lowerCase w (title post) in
      let bodyLower := lowerCase w (body post) in
      let containsBrand :=
        includes titleLower brandLower || includes bodyLower brandLower in
      if negb containsBrand then false
      else if (score post <? 1)%Z && (numComments post =? 0)%Z then false
      else true) posts.

Definition engagement (a : RedditPost) : Z :=
  (score a + numComments a * 2)%Z.

Definition sortByEngagement (posts : list RedditPost) : list RedditPost :=
  arraySort (fun a b =>
    let engagementA := engagement a in
    let engagementB := engagement b in
    (engagementB - engagementA)%Z) posts.

(** [searchReddit]: the searches of the ten subreddits are joined by
    [Promise.all]; [flat] concatenates them and no element is [null].
    Nothing in the guarded body throws once [searchSubreddit] has absorbed
    the faults of the searches. *)
Definition searchReddit (w : World) (self : t) (brand timeRange : jsstring)
  : outcome (list RedditPost) :=
  tryCatch
    (let timeFilter := parseTimeRange timeRange in
     let results :=
       map (fun subreddit => searchSubreddit w brand subreddit timeFilter)
         (targetSubreddits self) in
     let allPosts := concat results in
     let relevantPosts := filterByRelevance w allPosts brand in
     let sortedPosts := sortByEngagement relevantPosts in
     returned (take 20 sortedPosts))
    (fun error =>
       thrown (Error (js "Reddit search failed: " +++ message error))).

(** [posts.reduce((sum, post) => sum + key(post), 0)]: the additions are
    those of doubles, from left to right. *)
Definition reduceSum (key : RedditPost -> Z) (posts : list RedditPost)
  : Number :=
  foldl (fun sum post => plus sum (Finite (key post))) (Finite 0) posts.

(** [totalScore / posts.length > 10] for [n] posts.  The quotient of an
    integer total is rounded to a double above 10 exactly when the total is
    above [10 * n], for any number of posts an array can hold. *)
Definition averageAboveTen (totalScore : Number) (n : nat) : bool :=
  match totalScore with
  | Finite z => (10 * Z.of_nat n <? z)%Z
  | Infinite negative => negb negative
  | NaN => false
  end.

(** [totalScore / posts.length < 0]. *)
Definition averageBelowZero (totalScore : Number) (n : nat) : bool :=
  match totalScore with
  | Finite z => (z <? 0)%Z
  | Infinite negative => negative
  | NaN => false
  end.

Definition extractSentiment (posts : list RedditPost) : Sentiment :=
  if length posts =? 0 then neutralSentiment
  else
    let totalScore := reduceSum score posts in
    let totalEngagement := reduceSum numComments posts in
    let sentiment :=
      if averageAboveTen totalScore (length posts) then js "positive"
      else if averageBelowZero totalScore (length posts) then js "negative"
      else js "neutral" in
    {| avgScore := AverageOf totalScore (length posts);
       totalEngagement := totalEngagement;
       label := sentiment |}.

(** [s.replace(/\n/g, ' ')]. *)
Definition unbreak (s : jsstring) : jsstring :=
  map (fun c => if (c =? 10)%N then 32%N else c) s.

Fixpoint listPosts (index : nat) (posts : list RedditPost) : jsstring :=
  match posts with
  | [] => []
  | post :: rest =>
    showNat (index + 1) +++ js ". [r/" +++ subreddit post +++ js "] "
      +++ title post +++ [10%N]
    +++ js "   Score: " +++ showZ (score post) +++ js " | Comments: "
      +++ showZ (numComments post) +++ js " | " +++ permalink post +++ [10%N]
    +++ (if truthy (body post) && (0 <? length (body post)) then
           let snippet := unbreak (take 200 (body post)) in
           js "   Snippet: " +++ [34%N] +++ snippet
           +++ (if 200 <? length (body post) then js "..." else [])
           +++ [34%N] +++ [10%N]
         else [])
    +++ [10%N]
    +++ listPosts (S index) rest
  end.

Definition formatForClaude (w : World) (posts : list RedditPost) : jsstring :=
  if length posts =? 0 then js "No Reddit posts found for this brand."
  else
    let sentiment := extractSentiment posts in
    js "REDDIT DATA (" +++ showNat (length posts) +++ js " posts, avg score: "
      +++ showAverage w (avgScore sentiment) +++ js ", sentiment: "
      +++ label sentiment +++ js "):" +++ [10%N; 10%N]
    +++ listPosts 0 posts.

End RedditService.

(** The exported [searchReddit]. *)
Definition searchReddit (w : World) (brand timeRange : jsstring)
  : outcome RedditData :=
  let clientId := env w (js "REDDIT_CLIENT_ID") in
  let clientSecret := env w (js "REDDIT_CLIENT_SECRET") in
  let userAgent := env w (js "REDDIT_USER_AGENT") in
  if falsy clientId || falsy clientSecret then
    returned
      {| rd_posts := [];
         rd_formattedText :=
           js "Reddit data unavailable (API credentials not configured)";
         rd_sentiment := neutralSentiment |}
  else
    tryCatch
      (service <- RedditService.constructor w clientId clientSecret userAgent ;;
       posts <- RedditService.searchReddit w service brand timeRange ;;
       let sentiment := RedditService.extractSentiment posts in
       let formattedText := RedditService.formatForClaude w posts in
       returned
         {| rd_posts := posts;
            rd_formattedText := formattedText;
            rd_sentiment := sentiment |})
      (fun error =>
         returned
           {| rd_posts := [];
              rd_formattedText := js "Reddit search error: " +++ message error;
              rd_sentiment := neutralSentiment |}).

(* ===================================================================== *)
(** ** search-service.js                                                   *)
(* ===================================================================== *)

Module SerperSearchService.

Record t := { apiKey : jsstring; endpoint : jsstring }.

Definition constructor (apiKey : option jsstring) : outcome t :=
  if falsy apiKey then thrown (Error (js "Serper API key is required"))
  else returned {| apiKey := orElse apiKey [];
                   endpoint := js "https://google.serper.dev/search" |}.

(** The callback of [response.data.organic.map]. *)
Definition toResult (w : World) (item : Organic) : outcome SearchResult :=
  displayUrl <-
    match link item with
    | Some (c :: l) => hostname w (c :: l)
    | _ => returned []
    end ;;
  returned
    {| name := orElse (o_title item) [];
       url := orElse (link item) [];
       snippet := orElse (o_snippet item) [];
       datePublished := match date item with
                        | Some (c :: s) => Some (c :: s)
                        | _ => None
                        end;
       displayUrl := displayUrl |}.

(** Every fault of the request, and of the mapping of its answer, is
    logged and gives the empty array. *)
Definition executeSerperSearch (w : World) (self : t) (query : jsstring)
    (num : nat) : list SearchResult :=
  match
    (organic <- axios w query (Nat.min num 10) ;;
     match organic with
     | None => returned []
     | Some items => mapM (toResult w) items
     end)
  with
  | inr results => results
  | inl error => []
  end.

Definition deduplicateResults (results : list SearchResult)
  : list SearchResult :=
  fst (filterUnseen ∅ results).

(** The loop [for (const query of queries)] of the four searches. *)
Definition runQueries (w : World) (self : t) (queries : list jsstring)
  : list SearchResult :=
  let results :=
    foldl (fun results query =>
             let searchResults := executeSerperSearch w self query 5 in
             results ++ searchResults) [] queries in
  let unique := deduplicateResults results in
  unique.

Definition quoted (s : jsstring) : jsstring := [34%N] +++ s +++ [34%N].

Definition searchLinkedIn (w : World) (self : t) (brand : jsstring)
  : list SearchResult :=
  runQueries w self
    [quoted brand +++ js " site:linkedin.com/posts";
     quoted (brand +++ js " feedback") +++ js " site:linkedin.com";
     quoted (brand +++ js " review") +++ js " site:linkedin.com"].

Definition searchTwitter (w : World) (self : t) (brand : jsstring)
  : list SearchResult :=
  runQueries w self
    [quoted brand +++ js " (site:twitter.com OR site:x.com)";
     quoted (brand +++ js " feedback") +++ js " site:twitter.com";
     quoted (brand +++ js " complaint") +++ js " site:x.com"].

Definition searchReviewSites (w : World) (self : t) (brand : jsstring)
  : list SearchResult :=
  runQueries w self
    [quoted brand +++ js " site:g2.com";
     quoted brand +++ js " site:capterra.com";
     quoted (brand +++ js " review") +++ js " site:trustradius.com"].

Definition searchBlogs (w : World) (self : t) (brand : jsstring)
  : list SearchResult :=
  runQueries w self
    [quoted brand +++ js " site:medium.com";
     quoted brand +++ js " site:dev.to";
     quoted brand +++ js " site:news.ycombinator.com"].

Fixpoint listResults (index : nat) (rs : list SearchResult) : jsstring :=
  match rs with
  | [] => []
  | result :: rest =>
    showNat (index + 1) +++ js ". " +++ name result +++ [10%N]
    +++ js "   " +++ url result +++ [10%N]
    +++ js "   Snippet: " +++ [34%N] +++ snippet result +++ [34%N]
    +++ [10%N; 10%N]
    +++ listResults (S index) rest
  end.

Definition section (heading : jsstring) (rs : list SearchResult) : jsstring :=
  if 0 <? length rs then
    [10%N] +++ heading +++ js " (" +++ showNat (length rs) +++ js " results):"
    +++ [10%N] +++ listResults 0 rs
  else [].

Definition formatForClaude
    (linkedin twitter reviews blogs : list SearchResult) : jsstring :=
  let formatted :=
    section (js "LINKEDIN DATA") linkedin
    +++ section (js "TWITTER/X DATA") twitter
    +++ section (js "REVIEW SITES DATA") reviews
    +++ section (js "BLOGS & FORUMS DATA") blogs in
  if bool_decide (formatted = []) then js "No web search results found."
  else formatted.

End SerperSearchService.

Definition emptyBingData (formattedText : jsstring) : BingData :=
  {| bd_linkedin := [];
     bd_twitter := [];
     bd_reviews := [];
     bd_blogs := [];
     bd_formattedText := formattedText;
     bd_totalResults := 0 |}.

(** The exported [searchSerper]; [searchGoogle] and [searchBing] are the
    same function. *)
Definition searchSerper (w : World) (brand platforms : jsstring)
  : outcome BingData :=
  let apiKey := env w (js "SERPER_API_KEY") in
  if falsy apiKey then
    returned (emptyBingData
      (js "Web search data unavailable (Serper API key not configured)"))
  else
    tryCatch
      (service <- SerperSearchService.constructor apiKey ;;
       let all := bool_decide (platforms = js "all") in
       let has := fun p => includes (toLowerCase platforms) (js p) in
       let shouldSearch_linkedin := all || has "linkedin"%string in
       let shouldSearch_twitter :=
         all || has "twitter"%string || has "x"%string in
       let shouldSearch_reviews :=
         all || has "g2"%string || has "capterra"%string in
       let shouldSearch_blogs :=
         all || has "blog"%string || has "medium"%string in
       let linkedin :=
         if shouldSearch_linkedin
         then SerperSearchService.searchLinkedIn w service brand else [] in
       let twitter :=
         if shouldSearch_twitter
         then SerperSearchService.searchTwitter w service brand else [] in
       let reviews :=
         if shouldSearch_reviews
         then SerperSearchService.searchReviewSites w service brand else [] in
       let blogs :=
         if shouldSearch_blogs
         then SerperSearchService.searchBlogs w service brand else [] in
       let totalResults :=
         length linkedin + length twitter + length reviews + length blogs in
       returned
         {| bd_linkedin := linkedin;
            bd_twitter := twitter;
            bd_reviews := reviews;
            bd_blogs := blogs;
            bd_formattedText :=
              SerperSearchService.formatForClaude linkedin twitter reviews blogs;
            bd_totalResults := totalResults |})
      (fun error =>
         returned (emptyBingData (js "Web search error: " +++ message error))).

Definition searchGoogle := searchSerper.
Definition searchBing := searchSerper.

(* ===================================================================== *)
(** ** claude-service.js                                                   *)
(* ===================================================================== *)

(** The object built by [parseResponse] and completed by
    [analyzeBrandSentiment]; [r_dataSource] is the property [dataSource],
    absent ([None]) until the orchestrator sets it. *)
Record AnalysisResult := {
  sentimentSummary : jsstring;
  positiveHighlights : jsstring;
  negativeConcerns : jsstring;
  trendingTopics : jsstring;
  competitiveInsights : jsstring;
  hasCriticalIssues : bool;
  fullReport : jsstring;
  timestamp : jsstring;
  r_dataSource : option jsstring
}.

(** [parsed.fullReport = text]. *)
Definition setFullReport (r : AnalysisResult) (text : jsstring)
  : AnalysisResult :=
  {| sentimentSummary := sentimentSummary r;
     positiveHighlights := positiveHighlights r;
     negativeConcerns := negativeConcerns r;
     trendingTopics := trendingTopics r;
     competitiveInsights := competitiveInsights r;
     hasCriticalIssues := hasCriticalIssues r;
     fullReport := text;
     timestamp := timestamp r;
     r_dataSource := r_dataSource r |}.

(** [analysisResult.dataSource = source]. *)
Definition setDataSource (r : AnalysisResult) (source : jsstring)
  : AnalysisResult :=
  {| sentimentSummary := sentimentSummary r;
     positiveHighlights := positiveHighlights r;
     negativeConcerns := negativeConcerns r;
     trendingTopics := trendingTopics r;
     competitiveInsights := competitiveInsights r;
     hasCriticalIssues := hasCriticalIssues r;
     fullReport := fullReport r;
     timestamp := timestamp r;
     r_dataSource := Some source |}.

(** The emoji of the section headers, as the code units the regular
    expressions (which have no [u] flag) are made of. *)
Definition barChart : jsstring := js "📊".
Definition checkMark : jsstring := js "✅".
Definition warningSign : jsstring := js "⚠️".
Definition fire : jsstring := js "🔥".
Definition target : jsstring := js "🎯".
Definition lightBulb : jsstring := js "💡".

Module Regex.

(** [\s*]: the longest run of white space.  What follows in every pattern
    is the literal [*], which is no white space, so no shorter run can
    make the pattern match. *)
Definition skipSpaces (s : jsstring) : jsstring := trimStart s.

(** The text after [emoji \s* header] when [s] starts with it. *)
Definition headerAt (emoji header s : jsstring) : option jsstring :=
  match dropPrefix emoji s with
  | Some rest => dropPrefix header (skipSpaces rest)
  | None => None
  end.

(** [(.*?)(?=stop1|...|$)] with the flag [s]: the shortest prefix that is
    followed by one of the stops or by the end of the text. *)
Fixpoint lazyUntil (stops : list jsstring) (s : jsstring) : jsstring :=
  if existsb (fun stop => startsWith stop s) stops then []
  else
    match s with
    | [] => []
    | c :: s' => c :: lazyUntil stops s'
    end.

(** [text.match(/emoji\s*header(.*?)(?=stops|$)/s)]: the capture group of
    the leftmost match, [None] for [null]. *)
Fixpoint matchSection (emoji header : jsstring) (stops : list jsstring)
    (text : jsstring) : option jsstring :=
  match headerAt emoji header text with
  | Some rest => Some (lazyUntil stops rest)
  | None =>
    match text with
    | [] => None
    | _ :: text' => matchSection emoji header stops text'
    end
  end.

End Regex.

Module SocialListeningService.

Record t := { client : unit }.

Definition constructor (w : World) (apiKey : option jsstring) : outcome t :=
  if falsy apiKey then thrown (Error (js "ANTHROPIC_API_KEY is required"))
  else
    client <- anthropic w (orElse apiKey []) ;;
    returned {| client := client |}.

Definition sentimentMatch (responseText : jsstring) : option jsstring :=
  Regex.matchSection barChart (js "**SENTIMENT BREAKDOWN**")
    [checkMark; warningSign; fire; target; lightBulb] responseText.

Definition positiveMatch (responseText : jsstring) : option jsstring :=
  Regex.matchSection checkMark (js "**POSITIVE HIGHLIGHTS**")
    [warningSign; fire; target; lightBulb; barChart] responseText.

Definition concernsMatch (responseText : jsstring) : option jsstring :=
  Regex.matchSection warningSign (js "**CRITICAL CONCERNS**")
    [fire; target; lightBulb; barChart; checkMark] responseText.

Definition trendingMatch (responseText : jsstring) : option jsstring :=
  Regex.matchSection fire (js "**TRENDING TOPICS**")
    [target; lightBulb; barChart; checkMark; warningSign] responseText.

Definition competitiveMatch (responseText : jsstring) : option jsstring :=
  Regex.matchSection target (js "**COMPETITIVE INSIGHTS**")
    [barChart; checkMark; warningSign; fire] responseText.

(** [if (m) { field = m[1].trim(); }] over the initial value ['']. *)
Definition captured (m : option jsstring) : jsstring :=
  match m with
  | Some group => trim group
  | None => []
  end.

(** The value assigned to [sections.hasCriticalIssues]. *)
Definition critical (negativeConcerns : jsstring) : bool :=
  let concernsLower := toLowerCase negativeConcerns in
  (0 <? length negativeConcerns)
  && negb (includes concernsLower (js "no critical concerns"))
  && negb (includes concernsLower (js "no significant concerns"))
  && negb (includes concernsLower (js "no critical issues")).

(** [parseResponse].  [None] is a reply that is no string ([undefined] or
    [null]): reading its [match] throws, which the [catch] turns into the
    error result. *)
Definition parseResponse (w : World) (responseText : option jsstring)
  : AnalysisResult :=
  match responseText with
  | Some responseText =>
    let sentimentSummary := captured (sentimentMatch responseText) in
    let positiveHighlights := captured (positiveMatch responseText) in
    let negativeConcerns := captured (concernsMatch responseText) in
    let hasCriticalIssues :=
      match concernsMatch responseText with
      | Some _ => critical negativeConcerns
      | None => false
      end in
    let trendingTopics := captured (trendingMatch responseText) in
    let competitiveInsights := captured (competitiveMatch responseText) in
    let hasContent :=
      truthy sentimentSummary || truthy positiveHighlights
      || truthy negativeConcerns || truthy trendingTopics
      || truthy competitiveInsights in
    {| sentimentSummary :=
         if hasContent then sentimentSummary
         else js "Unable to extract sentiment data from response.";
       positiveHighlights := positiveHighlights;
       negativeConcerns :=
         if hasContent then negativeConcerns
         else js "Manual review of full report required.";
       trendingTopics := trendingTopics;
       competitiveInsights := competitiveInsights;
       hasCriticalIssues := hasCriticalIssues;
       fullReport := responseText;
       timestamp := now w;
       r_dataSource := None |}
  | None =>
    {| sentimentSummary := js "Error: Unable to parse sentiment analysis.";
       positiveHighlights := [];
       negativeConcerns := js "Error occurred during analysis parsing.";
       trendingTopics := [];
       competitiveInsights := [];
       hasCriticalIssues := true;
       fullReport := js "No response received from Claude.";
       timestamp := now w;
       r_dataSource := None |}
  end.

(** The loop over [message.content] that builds [fullResponse]. *)
Definition fullResponseOf (content : list ContentBlock) : jsstring :=
  foldl (fun fullResponse content =>
           if bool_decide (type content = js "text")
           then fullResponse +++ text content else fullResponse) [] content.

Definition analyzeWithRealData (w : World) (self : t)
    (brand competitors timeRange platforms : jsstring)
    (aggregatedData : AggregatedData) : outcome AnalysisResult :=
  message <- messagesCreate w
    (EnhancedPrompt brand competitors timeRange platforms aggregatedData) ;;
  let fullResponse := fullResponseOf message in
  let parsed := parseResponse w (Some fullResponse) in
  returned (setFullReport parsed
    (js "# Social Listening Report (Real-Time Data)" +++ [10%N; 10%N]
     +++ js "**Data Source:** "
     +++ (if bool_decide (dataSource aggregatedData = js "real-time")
          then js "✅ Real-time API data" else js "⚠️ Partial API data")
     +++ [10%N]
     +++ js "**Sources:** "
     +++ showNat (totalSources (aggregateStats aggregatedData))
     +++ js " mentions across "
     +++ join (js ", ") (activePlatforms aggregatedData) +++ [10%N]
     +++ js "**Brand:** " +++ brand +++ [10%N]
     +++ js "**Time Range:** " +++ timeRange +++ [10%N]
     +++ js "**Generated:** " +++ now w +++ [10%N; 10%N]
     +++ js "---" +++ [10%N; 10%N]
     +++ fullResponse)).

Definition analyzeWithClaudeKnowledge (w : World) (self : t)
    (brand competitors timeRange platforms : jsstring)
  : outcome AnalysisResult :=
  message <- messagesCreate w
    (SocialListeningPrompt brand competitors timeRange platforms) ;;
  let fullResponse := fullResponseOf message in
  let parsed := parseResponse w (Some fullResponse) in
  returned (setFullReport parsed
    (js "# Social Listening Report (Training Data Fallback)" +++ [10%N; 10%N]
     +++ js "**Data Source:** ⚠️ Using Claude training data (API data unavailable)"
     +++ [10%N]
     +++ js "**Brand:** " +++ brand +++ [10%N]
     +++ js "**Time Range:** " +++ timeRange +++ [10%N]
     +++ js "**Generated:** " +++ now w +++ [10%N; 10%N]
     +++ js "---" +++ [10%N; 10%N]
     +++ fullResponse)).

(** The object returned by the [catch] of [analyzeBrandSentiment]. *)
Definition errorResult (w : World) (error : Exception) : AnalysisResult :=
  {| sentimentSummary :=
       js "Error: Unable to complete social listening analysis. Please check API credentials and try again.";
     positiveHighlights := [];
     negativeConcerns := js "Analysis error occurred.";
     trendingTopics := [];
     competitiveInsights := [];
     fullReport :=
       js "# Social Listening Analysis Error" +++ [10%N; 10%N]
       +++ js "**Error:** " +++ message error +++ [10%N; 10%N]
       +++ js "**Time:** " +++ now w;
     hasCriticalIssues := true;
     timestamp := now w;
     r_dataSource := Some (js "error") |}.

Definition analyzeBrandSentiment (w : World) (self : t)
    (brand competitors timeRange platforms : jsstring)
  : outcome AnalysisResult :=
  tryCatch
    ((* the inner guarded block: [aggregatedData] stays [null] and
        [useRealData] [false] when it throws *)
     let fetched :=
       redditData <- searchReddit w brand timeRange ;;
       bingData <- searchBing w brand platforms ;;
       returned (aggregateResults redditData bingData brand timeRange) in
     let aggregatedData :=
       match fetched with
       | inr aggregated => Some aggregated
       | inl apiError => None
       end in
     let useRealData :=
       match fetched with
       | inr aggregated => 0 <? totalSources (aggregateStats aggregated)
       | inl apiError => false
       end in
     analysisResult <-
       match aggregatedData with
       | Some aggregated =>
         if useRealData then
           analyzeWithRealData w self brand competitors timeRange platforms
             aggregated
         else
           analyzeWithClaudeKnowledge w self brand competitors timeRange
             platforms
       | None =>
         analyzeWithClaudeKnowledge w self brand competitors timeRange
           platforms
       end ;;
     returned (setDataSource analysisResult
       match aggregatedData with
       | Some aggregated => dataSource aggregated
       | None => js "fallback"
       end))
    (fun error => returned (errorResult w error)).

End SocialListeningService.

(** The exported [analyzeSocialListening]. *)
Definition analyzeSocialListening (w : World)
    (brand competitors timeRange platforms : jsstring)
  : outcome AnalysisResult :=
  let apiKey := env w (js "ANTHROPIC_API_KEY") in
  if falsy apiKey then
    thrown (Error (js "ANTHROPIC_API_KEY environment variable is not set"))
  else
    service <- SocialListeningService.constructor w apiKey ;;
    SocialListeningService.analyzeBrandSentiment w service
      brand competitors timeRange platforms.

(* ===================================================================== *)
(** ** app.js                                                              *)
(* ===================================================================== *)

(** [event.inputs], or the [inputs] of the function handler: a parameter
    that was not given is [None]. *)
Record Inputs := {
  brand_or_product : option jsstring;
  competitors : option jsstring;
  time_range : option jsstring;
  input_platforms : option jsstring
}.

(** The [function_executed] event: [event.function.callback_id],
    [event.function.function_execution_id] and [event.inputs]. *)
Record FunctionEvent := {
  callback_id : jsstring;
  function_execution_id : jsstring;
  inputs : option Inputs
}.

(** The workflow variables. *)
Record Outputs := {
  sentiment_summary : jsstring;
  positive_highlights : jsstring;
  negative_concerns : jsstring;
  trending_topics : jsstring;
  competitive_insights : jsstring;
  full_report : jsstring;
  has_critical_issues : jsstring;
  report_timestamp : jsstring
}.

(** The Slack side of the world: the two completion calls of
    [client.functions], the [complete] and [fail] callbacks of the function
    handler, and the two other readings of the clock. *)
Record Slack := {
  (** [client.functions.completeSuccess({function_execution_id, outputs})]. *)
  completeSuccess : jsstring -> Outputs -> outcome unit;
  (** [client.functions.completeError({function_execution_id, error})]. *)
  completeError : jsstring -> jsstring -> outcome unit;
  (** [complete({outputs})]. *)
  complete : Outputs -> outcome unit;
  (** [fail({error})]. *)
  fail : jsstring -> outcome unit;
  (** [new Date().toLocaleString()]. *)
  toLocaleString : jsstring;
  (** [Date.now()]. *)
  dateNow : Z
}.

(** A call made to Slack. *)
Inductive SlackCall :=
  | CompleteSuccess (id : jsstring) (outputs : Outputs)
  | CompleteError (id : jsstring) (error : jsstring)
  | Complete (outputs : Outputs)
  | Fail (error : jsstring).

(** A computation that may throw and that records the calls it makes. *)
Definition traced (A : Type) : Type := list SlackCall * outcome A.

Definition call (c : SlackCall) (answer : outcome unit) : traced unit :=
  ([c], answer).

Definition quiet {A} (c : outcome A) : traced A := ([], c).

Definition bindT {A B} (m : traced A) (k : A -> traced B) : traced B :=
  match m with
  | (calls, inl e) => (calls, inl e)
  | (calls, inr a) => let '(more, r) := k a in (calls ++ more, r)
  end.

(** [try { m } catch (error) { h error }]. *)
Definition tryT {A} (m : traced A) (h : Exception -> traced A) : traced A :=
  match m with
  | (calls, inl e) => let '(more, r) := h e in (calls ++ more, r)
  | (calls, inr a) => (calls, inr a)
  end.

(** [s ? emoji + ' ' + s : fallback]. *)
Definition labelled (emoji s fallback : jsstring) : jsstring :=
  if truthy s then emoji +++ js " " +++ s else fallback.

Module App.

(** The lines of the report built when [analysis.fullReport] is empty. *)
Definition defaultReport (s : Slack) (brand : jsstring) (inputs : Inputs)
    (analysis : AnalysisResult) : jsstring :=
  let nl := [10%N] in
  js "# Social Listening Report" +++ nl
  +++ nl
  +++ js "**Brand/Product:** " +++ brand +++ nl
  +++ js "**Competitors Tracked:** "
    +++ orElse (competitors inputs) (js "None specified") +++ nl
  +++ js "**Time Range:** " +++ orElse (time_range inputs) (js "7 days") +++ nl
  +++ js "**Platforms:** "
    +++ orElse (input_platforms inputs) (js "All platforms") +++ nl
  +++ js "**Generated:** " +++ toLocaleString s +++ nl
  +++ js "**Report ID:** SL-" +++ showZ (dateNow s) +++ nl
  +++ nl
  +++ js "## Analysis Status" +++ nl
  +++ js "Social listening analysis completed using Claude AI with web search capabilities."
    +++ nl
  +++ nl
  +++ js "## Summary" +++ nl
  +++ (if truthy (sentimentSummary analysis)
       then js "📊 **SENTIMENT ANALYZED**"
       else js "📊 **SENTIMENT DATA UNAVAILABLE**") +++ nl
  +++ nl
  +++ (if truthy (positiveHighlights analysis)
       then js "✅ **POSITIVE FEEDBACK FOUND**"
       else js "✅ **NO POSITIVE HIGHLIGHTS**") +++ nl
  +++ nl
  +++ (if truthy (negativeConcerns analysis)
       then js "⚠️ **CONCERNS IDENTIFIED**"
       else js "⚠️ **NO CRITICAL CONCERNS**") +++ nl
  +++ nl
  +++ (if truthy (trendingTopics analysis)
       then js "🔥 **TRENDING TOPICS DETECTED**"
       else js "🔥 **NO TRENDING TOPICS**") +++ nl
  +++ nl
  +++ (if truthy (competitiveInsights analysis)
       then js "🎯 **COMPETITIVE INSIGHTS AVAILABLE**"
       else js "🎯 **NO COMPETITIVE DATA**") +++ nl
  +++ nl
  +++ js "---" +++ nl
  +++ js "*Powered by Claude AI Social Listening System*" +++ nl
  +++ js "*Real-time sentiment and brand monitoring*".

(** The object [outputs] of the [function_executed] handler. *)
Definition formatOutputs (w : World) (s : Slack) (brand : jsstring)
    (inputs : Inputs) (analysis : AnalysisResult) : Outputs :=
  {| sentiment_summary :=
       labelled barChart (sentimentSummary analysis)
         (js "📊 Unable to determine sentiment distribution.");
     positive_highlights :=
       labelled checkMark (positiveHighlights analysis)
         (js "✅ No significant positive highlights identified.");
     negative_concerns :=
       labelled warningSign (negativeConcerns analysis)
         (js "⚠️ No critical concerns identified at this time.");
     trending_topics :=
       labelled fire (trendingTopics analysis)
         (js "🔥 No trending topics detected.");
     competitive_insights :=
       labelled target (competitiveInsights analysis)
         (js "🎯 No competitive insights available.");
     full_report :=
       if truthy (fullReport analysis) then fullReport analysis
       else defaultReport s brand inputs analysis;
     has_critical_issues :=
       if hasCriticalIssues analysis then js "true" else js "false";
     report_timestamp :=
       if truthy (timestamp analysis) then timestamp analysis else now w |}.

(** [analyzeSocialListening(brand_or_product, competitors || '',
    time_range || '7 days', platforms || 'all')]. *)
Definition analyze (w : World) (brand : jsstring) (inputs : Inputs)
  : outcome AnalysisResult :=
  analyzeSocialListening w brand
    (orElse (competitors inputs) [])
    (orElse (time_range inputs) (js "7 days"))
    (orElse (input_platforms inputs) (js "all")).

(** [{}]. *)
Definition noInputs : Inputs :=
  {| brand_or_product := None; competitors := None;
     time_range := None; input_platforms := None |}.

(** The handler of [app.event('function_executed', ...)]: the calls it
    makes to Slack, in order.  A fault of the [completeError] of the
    [catch] block is logged and goes no further, so the handler itself
    never throws. *)
Definition functionExecuted (w : World) (s : Slack) (event : FunctionEvent)
  : list SlackCall :=
  if bool_decide (callback_id event = js "social_listening_report") then
    let id := function_execution_id event in
    fst (tryT
      (let inputs :=
         match inputs event with
         | Some inputs => inputs
         | None => noInputs
         end in
       let missing :=
         let error :=
           js "Brand/Product Name parameter is required but was not provided" in
         call (CompleteError id error) (completeError s id error) in
       match brand_or_product inputs with
       | None => missing
       | Some brand =>
         if negb (truthy brand) then missing
         else
           bindT (quiet (analyze w brand inputs)) (fun analysis =>
           let outputs := formatOutputs w s brand inputs analysis in
           call (CompleteSuccess id outputs) (completeSuccess s id outputs))
       end)
      (fun error =>
         let text := js "Social listening analysis failed: " +++ message error in
         tryT (call (CompleteError id text) (completeError s id text))
              (fun completeErrorError => quiet (returned tt))))
  else [].

(** The object [outputs] of the function handler. *)
Definition backupOutputs (w : World) (brand : jsstring)
    (analysis : AnalysisResult) : Outputs :=
  {| sentiment_summary :=
       labelled barChart (sentimentSummary analysis)
         (js "📊 Unable to determine sentiment distribution.");
     positive_highlights :=
       labelled checkMark (positiveHighlights analysis)
         (js "✅ No significant positive highlights identified.");
     negative_concerns :=
       labelled warningSign (negativeConcerns analysis)
         (js "⚠️ No critical concerns identified.");
     trending_topics :=
       labelled fire (trendingTopics analysis)
         (js "🔥 No trending topics detected.");
     competitive_insights :=
       labelled target (competitiveInsights analysis)
         (js "🎯 No competitive insights available.");
     full_report :=
       if truthy (fullReport analysis) then fullReport analysis
       else js "# Social Listening Report" +++ [10%N; 10%N]
            +++ js "**Brand:** " +++ brand +++ [10%N]
            +++ js "**Analysis:** " +++ now w +++ [10%N; 10%N]
            +++ js "Social listening analysis completed.";
     has_critical_issues :=
       if hasCriticalIssues analysis then js "true" else js "false";
     report_timestamp :=
       if truthy (timestamp analysis) then timestamp analysis else now w |}.

(** The object [fallbackOutputs] of the function handler.  The [const]
    that declares [brand_or_product] belongs to the [try] block and is not
    in scope in the [catch] block, where the template of [full_report]
    reads it: evaluating the object literal throws a [ReferenceError]
    before any call is made. *)
Definition fallbackOutputs (w : World) (error : Exception) : outcome Outputs :=
  thrown (Error (js "brand_or_product is not defined")).

(** The handler of [app.function('social_listening_report', ...)]: its
    calls, and whether it ends by throwing. *)
Definition functionHandler (w : World) (s : Slack) (inputs : Inputs)
  : traced unit :=
  tryT
    (let missing :=
       let error := js "Brand/Product Name parameter is required" in
       call (Fail error) (fail s error) in
     match brand_or_product inputs with
     | None => missing
     | Some brand =>
       if negb (truthy brand) then missing
       else
         bindT (quiet (analyze w brand inputs)) (fun analysis =>
         let outputs := backupOutputs w brand analysis in
         call (Complete outputs) (complete s outputs))
     end)
    (fun error =>
       bindT (quiet (fallbackOutputs w error)) (fun outputs =>
       call (Complete outputs) (complete s outputs))).

End App.

(* ===================================================================== *)
(** * Properties                                                           *)
(* ===================================================================== *)

(** ** Vocabulary of the statements *)

(** The set of the URLs of a list of results. *)
Definition urls (rs : list SearchResult) : gset jsstring :=
  list_to_set (map url rs).

(** The order in which the deduplication pass visits the web buckets. *)
Definition rank (p : Platform) : nat :=
  match p with
  | Linkedin => 0
  | Twitter => 1
  | Reviews => 2
  | Blogs => 3
  end.

Definition earlier (q p : Platform) : Prop := rank q < rank p.

(** The URLs met before the pass reaches the bucket [p]. *)
Definition seenBefore (d : AggregatedData) (p : Platform) : gset jsstring :=
  match p with
  | Linkedin => ∅
  | Twitter => urls (results (linkedin d))
  | Reviews => urls (results (linkedin d)) ∪ urls (results (twitter d))
  | Blogs => urls (results (linkedin d)) ∪ urls (results (twitter d))
             ∪ urls (results (reviews d))
  end.

(** A bucket holding [rs], with its count. *)
Definition bucketOf (rs : list SearchResult) : WebBucket :=
  {| results := rs; totalResults := length rs |}.

(** The results of [rs] whose URL is neither in [seen] nor earlier in [rs]. *)
Definition unseen (seen : gset jsstring) (rs : list SearchResult)
  : list SearchResult := fst (filterUnseen seen rs).

Definition breakdownSum (b : PlatformBreakdown) : nat :=
  n_reddit b + n_linkedin b + n_twitter b + n_reviews b + n_blogs b.



(** [text] contains [phrase] when letter case is ignored. *)
Definition mentions (text phrase : jsstring) : Prop :=
  ∃ before after, toLowerCase text = before ++ phrase ++ after.

(** A world in which nothing is configured and every service is silent. *)
Definition quietWorld : World :=
  {| env := fun _ => None;
     now := js "2025-01-01T00:00:00.000Z";
     toISOString := fun _ => returned (js "2025-01-01T00:00:00.000Z");
     hostname := fun _ => returned (js "example.com");
     lowerCase := toLowerCase;
     showAverage := fun _ => js "0";
     snoowrap := fun _ _ _ => returned tt;
     subredditSearch := fun _ _ _ => returned [];
     axios := fun _ _ => returned None;
     anthropic := fun _ => returned tt;
     messagesCreate := fun _ => returned [] |}.

Definition replyNoConcern : jsstring :=
  js "📊 **SENTIMENT BREAKDOWN**" +++ [10%N]
  +++ js "• 60% positive, 30% neutral, 10% negative (source: g2.com)"
  +++ [10%N; 10%N]
  +++ js "⚠️ **CRITICAL CONCERNS**" +++ [10%N]
  +++ js "• No critical concerns identified (source: review)"
  +++ [10%N; 10%N]
  +++ js "🔥 **TRENDING TOPICS**" +++ [10%N]
  +++ js "• Pricing (source: reddit.com)".

Definition replyConcern : jsstring :=
  js "⚠️ **CRITICAL CONCERNS**" +++ [10%N]
  +++ js "• CRITICAL: pricing backlash (source: g2.com)" +++ [10%N; 10%N]
  +++ js "🎯 **COMPETITIVE INSIGHTS**" +++ [10%N]
  +++ js "• Rivals are cheaper (source: capterra.com)".

(** ** Sample data *)

Definition sampleUrl : jsstring := js "https://example.com/thread/42".

Definition webHit (u : jsstring) : SearchResult :=
  {| name := js "Acme review";
     url := u;
     snippet := js "Acme is fine";
     datePublished := None;
     displayUrl := js "example.com" |}.

Definition forumPost (u : jsstring) (s c : Z) : RedditPost :=
  {| id := js "t3_1";
     title := js "Acme in production";
     body := js "We moved to Acme last year";
     subreddit := js "SaaS";
     upvotes := s;
     downvotes := 0%Z;
     score := s;
     numComments := c;
     permalink := u;
     created := js "2025-01-01T00:00:00.000Z";
     author := js "alice";
     post_url := u |}.

Definition forumOnly (ps : list RedditPost) : RedditData :=
  {| rd_posts := ps;
     rd_formattedText := js "REDDIT DATA";
     rd_sentiment := RedditService.extractSentiment ps |}.

Definition webOnly (l t r b : list SearchResult) : BingData :=
  {| bd_linkedin := l;
     bd_twitter := t;
     bd_reviews := r;
     bd_blogs := b;
     bd_formattedText := SerperSearchService.formatForClaude l t r b;
     bd_totalResults := length l + length t + length r + length b |}.

(** A forum post and a LinkedIn hit with the same URL. *)
Definition corpusForumAndWeb : AggregatedData :=
  DataAggregator.aggregateResults
    (forumOnly [forumPost sampleUrl 10 5])
    (webOnly [webHit sampleUrl] [] [] [])
    (js "Acme") (js "7 days").

(** The same URL found by the LinkedIn and by the Twitter searches. *)
Definition corpusTwoWeb : AggregatedData :=
  DataAggregator.aggregateResults
    (forumOnly [])
    (webOnly [webHit sampleUrl] [webHit sampleUrl] [] [])
    (js "Acme") (js "7 days").


(** Credentials are configured, the search of r/SaaS faults and the search
    of r/technology finds one post about the brand. *)
Definition partlyFailingWorld : World :=
  {| env := fun _ => Some (js "secret");
     now := js "2025-01-01T00:00:00.000Z";
     toISOString := fun _ => returned (js "2025-01-01T00:00:00.000Z");
     hostname := fun _ => returned (js "example.com");
     lowerCase := toLowerCase;
     showAverage := fun _ => js "5";
     snoowrap := fun _ _ _ => returned tt;
     subredditSearch := fun subreddit _ _ =>
       if bool_decide (subreddit = js "SaaS")
       then thrown (Error (js "429 Too Many Requests"))
       else if bool_decide (subreddit = js "technology")
       then returned
         [{| s_id := js "abc";
             s_title := js "Acme rocks";
             selftext := None;
             ups := Some 5%Z;
             downs := None;
             s_score := Some 5%Z;
             num_comments := Some 2%Z;
             s_permalink := js "/r/technology/comments/abc";
             created_utc := 1735689600%Z;
             s_author := Some (js "alice");
             s_url := None |}]
       else returned [];
     axios := fun _ _ => returned None;
     anthropic := fun _ => returned tt;
     messagesCreate := fun _ => returned [] |}.

(** The API key is set and the generation call is refused. *)
Definition refusingWorld : World :=
  {| env := fun _ => Some (js "secret");
     now := js "2025-01-01T00:00:00.000Z";
     toISOString := fun _ => returned (js "2025-01-01T00:00:00.000Z");
     hostname := fun _ => returned (js "example.com");
     lowerCase := toLowerCase;
     showAverage := fun _ => js "0";
     snoowrap := fun _ _ _ => returned tt;
     subredditSearch := fun _ _ _ => returned [];
     axios := fun _ _ => returned None;
     anthropic := fun _ => returned tt;
     messagesCreate := fun _ => thrown (Error (js "401 invalid x-api-key")) |}.

(** The URLs held by the four web buckets together. *)
Definition allUrls (d : AggregatedData) : gset jsstring :=
  urls (results (linkedin d)) ∪ urls (results (twitter d))
  ∪ urls (results (reviews d)) ∪ urls (results (blogs d)).

(** The results of the four web buckets, in the order of the pass. *)
Definition allResults (d : AggregatedData) : list SearchResult :=
  results (linkedin d) ++ results (twitter d) ++ results (reviews d)
  ++ results (blogs d).



(** Credentials are configured and the request answers one hit whose link
    is no URL. *)
Definition badLinkWorld : World :=
  {| env := fun _ => Some (js "secret");
     now := js "2025-01-01T00:00:00.000Z";
     toISOString := fun _ => returned (js "2025-01-01T00:00:00.000Z");
     hostname := fun link =>
       if startsWith (js "http") link then returned (js "example.com")
       else thrown (Error (js "Invalid URL"));
     lowerCase := toLowerCase;
     showAverage := fun _ => js "0";
     snoowrap := fun _ _ _ => returned tt;
     subredditSearch := fun _ _ _ => returned [];
     axios := fun _ _ => returned (Some
       [{| o_title := Some (js "Acme on G2");
           link := Some (js "https://g2.com/acme");
           o_snippet := Some (js "Great tool");
           date := None |};
        {| o_title := Some (js "Acme");
           link := Some (js "not a url");
           o_snippet := None;
           date := None |}]);
     anthropic := fun _ => returned tt;
     messagesCreate := fun _ => returned [] |}.

(** The web lists of an adapter result, by platform. *)
Definition adapterList (bd : BingData) (p : Platform) : list SearchResult :=
  match p with
  | Linkedin => bd_linkedin bd
  | Twitter => bd_twitter bd
  | Reviews => bd_reviews bd
  | Blogs => bd_blogs bd
  end.

(** A text without white space at either end. *)
Definition trimmed (s : jsstring) : Prop :=
  trim s = s
  ∧ (s = [] ∨ ∃ first rest, s = first :: rest ∧ isSpace first = false)
  ∧ (s = [] ∨ ∃ rest last, s = rest ++ [last] ∧ isSpace last = false).

(** The code units with which the emoji of the section headers start. *)
Definition marker (c : N) : bool :=
  ((c =? 55356) || (c =? 55357) || (c =? 9989) || (c =? 9888))%N.

(** A text in which no header emoji can start. *)
Definition plain (s : jsstring) : Prop :=
  forallb (fun c => negb (marker c)) s = true.

(** A section as the prompts ask for it: the emoji, a blank, the title, a
    line break, the body and an empty line. *)
Definition sectionText (emoji header body : jsstring) : jsstring :=
  emoji +++ js " " +++ header +++ [10%N] +++ body +++ [10%N; 10%N].

(** A reply with the five sections in the order of the prompts. *)
Definition wellFormedReply (sentiment positive concerns trending competitive
    : jsstring) : jsstring :=
  sectionText barChart (js "**SENTIMENT BREAKDOWN**") sentiment
  +++ sectionText checkMark (js "**POSITIVE HIGHLIGHTS**") positive
  +++ sectionText warningSign (js "**CRITICAL CONCERNS**") concerns
  +++ sectionText fire (js "**TRENDING TOPICS**") trending
  +++ sectionText target (js "**COMPETITIVE INSIGHTS**") competitive.

(** The pattern of [emoji] matches at no position inside [pre], whatever
    follows [pre]. *)
Definition noStart (emoji pre : jsstring) : Prop :=
  ∀ rest i, i < length pre → dropPrefix emoji (drop i (pre ++ rest)) = None.

(** Five section bodies as the prompts ask for them. *)
Definition sampleSentiment : jsstring :=
  js "• 60% positive, 30% neutral, 10% negative (source: g2.com)".
Definition samplePositive : jsstring :=
  js "• Fast onboarding (source: capterra.com)".
Definition sampleConcerns : jsstring :=
  js "• CRITICAL: pricing backlash (source: g2.com)".
Definition sampleTrending : jsstring :=
  js "• Pricing change (source: reddit.com)".
Definition sampleCompetitive : jsstring :=
  js "• Rivals are cheaper (source: medium.com)".

(** The prompt [analyzeBrandSentiment] sends for the corpus [a]. *)
Definition chosenPrompt (brand competitors timeRange platforms : jsstring)
    (a : AggregatedData) : Prompt :=
  if 0 <? totalSources (aggregateStats a)
  then EnhancedPrompt brand competitors timeRange platforms a
  else SocialListeningPrompt brand competitors timeRange platforms.

(** The first line of the report of each analysis path. *)
Definition reportTitle (a : AggregatedData) : jsstring :=
  if 0 <? totalSources (aggregateStats a)
  then js "# Social Listening Report (Real-Time Data)"
  else js "# Social Listening Report (Training Data Fallback)".

(** Two results carry the same parsed sections. *)
Definition sameSections (r parsed : AnalysisResult) : Prop :=
  sentimentSummary r = sentimentSummary parsed
  ∧ positiveHighlights r = positiveHighlights parsed
  ∧ negativeConcerns r = negativeConcerns parsed
  ∧ trendingTopics r = trendingTopics parsed
  ∧ competitiveInsights r = competitiveInsights parsed
  ∧ hasCriticalIssues r = hasCriticalIssues parsed
  ∧ timestamp r = timestamp parsed.

(** ** The workflow step *)

(** The inputs read by the [function_executed] handler: [event.inputs || {}]. *)
Definition inputsOf (event : FunctionEvent) : Inputs :=
  match inputs event with
  | Some given => given
  | None => App.noInputs
  end.

(** The answer of the Slack client to a call. *)
Definition answer (s : Slack) (c : SlackCall) : outcome unit :=
  match c with
  | CompleteSuccess id outputs => completeSuccess s id outputs
  | CompleteError id error => completeError s id error
  | Complete outputs => complete s outputs
  | Fail error => fail s error
  end.

(** The error text sent for an exception. *)
Definition failed (e : Exception) : jsstring :=
  js "Social listening analysis failed: " +++ message e.

(** What follows a first call: nothing when Slack accepts it, and the
    report of the fault when Slack rejects it. *)
Definition afterFirst (s : Slack) (id : jsstring) (first : SlackCall)
  : list SlackCall :=
  match answer s first with
  | inr _ => []
  | inl e => [CompleteError id (failed e)]
  end.

(** A Slack client that accepts every call. *)
Definition acceptingSlack : Slack :=
  {| completeSuccess := fun _ _ => returned tt;
     completeError := fun _ _ => returned tt;
     complete := fun _ => returned tt;
     fail := fun _ => returned tt;
     toLocaleString := js "1/1/2025, 12:00:00 AM";
     dateNow := 1735689600000 |}.

Definition acmeInputs : Inputs :=
  {| brand_or_product := Some (js "Acme"); competitors := None;
     time_range := None; input_platforms := None |}.

Definition acmeEvent : FunctionEvent :=
  {| callback_id := js "social_listening_report";
     function_execution_id := js "Fx0123";
     inputs := Some acmeInputs |}.

Definition bareEvent : FunctionEvent :=
  {| callback_id := js "social_listening_report";
     function_execution_id := js "Fx0123";
     inputs := None |}.

(** The error of reading [brand_or_product] outside the block that
    declares it. *)
Definition notDefined : Exception :=
  Error (js "brand_or_product is not defined").

(** A world whose generation call always fails. *)
Definition generationFails (w : World) : Prop :=
  ∀ prompt, ∃ e, messagesCreate w prompt = thrown e.

(** Outputs that are never blank: each text variable begins with its
    emoji, the report is not empty, and the flag is the text of the
    boolean of the analysis. *)
Definition wellMarked (analysis : AnalysisResult) (o : Outputs) : Prop :=
  startsWith barChart (sentiment_summary o) = true
  ∧ startsWith checkMark (positive_highlights o) = true
  ∧ startsWith warningSign (negative_concerns o) = true
  ∧ startsWith fire (trending_topics o) = true
  ∧ startsWith target (competitive_insights o) = true
  ∧ truthy (full_report o) = true
  ∧ (has_critical_issues o = js "true" ↔ hasCriticalIssues analysis = true)
  ∧ (has_critical_issues o = js "false" ↔ hasCriticalIssues analysis = false).

(** ** The text for the model *)

(** The string [s] contains the string [p]. *)
Definition cites (s p : jsstring) : Prop := includes s p = true.

(** The lists of the web adapter, one after the other. *)
Definition adapterResults (bingData : BingData) : list SearchResult :=
  bd_linkedin bingData ++ bd_twitter bingData ++ bd_reviews bingData
  ++ bd_blogs bingData.

(** ** The searches of the adapters *)




(** ** The header of a section *)

(** A header stands at the start of [s]: its emoji, any run of white space
    and its title. *)
Definition headerHere (emoji header s : jsstring) : Prop :=
  ∃ spaces rest,
    forallb isSpace spaces = true ∧ s = emoji ++ spaces ++ header ++ rest.

(** ** The sentiment of the forum posts *)

(** Every post of [posts] has a score in the range given by [ok]. *)
Definition scores (ok : Z → Prop) (posts : list RedditPost) : Prop :=
  ∀ p, p ∈ posts → ok (score p).

(** The exact sum of a count over the posts. *)
Definition total (key : RedditPost → Z) (posts : list RedditPost) : Z :=
  foldr (fun p sum => (key p + sum)%Z) 0%Z posts.

(** The sum of the magnitudes of a count over the posts. *)
Definition magnitude (key : RedditPost → Z) (posts : list RedditPost) : Z :=
  total (fun p => Z.abs (key p)) posts.

(** The scores, and the numbers of comments, are small enough for every
    sum of them to be a double: their magnitudes add up to less than
    2^53. *)
Definition exactSums (posts : list RedditPost) : Prop :=
  (magnitude score posts < 2 ^ 53)%Z
  ∧ (magnitude numComments posts < 2 ^ 53)%Z.

(** Four posts whose scores cancel, in two orders. *)
Definition cancelling : list RedditPost :=
  [forumPost sampleUrl (2 ^ 53) 0; forumPost sampleUrl 1 0;
   forumPost sampleUrl (- 2 ^ 53) 0; forumPost sampleUrl (-1) 0].

Definition cancellingSwapped : list RedditPost :=
  [forumPost sampleUrl (2 ^ 53) 0; forumPost sampleUrl (- 2 ^ 53) 0;
   forumPost sampleUrl 1 0; forumPost sampleUrl (-1) 0].

(** ** The filter against the running set *)

Section FilterUnseen.

Implicit Types (seen : gset jsstring) (rs : list SearchResult).

Lemma filterUnseen_split seen rs :
  filterUnseen seen rs = (unseen seen rs, seen ∪ urls rs).
Proof.
  unfold unseen, urls. revert seen.
  induction rs as [|r rs IH]; intros seen; simpl.
  - f_equal. set_solver.
  - destruct (decide (url r ∈ seen)) as [Hin|Hout].
    + rewrite IH. simpl. f_equal. set_solver.
    + rewrite IH. simpl. f_equal. set_solver.
Qed.

Lemma unseen_nil seen : unseen seen [] = [].
Proof. reflexivity. Qed.

Lemma unseen_cons_seen seen r rs :
  url r ∈ seen → unseen seen (r :: rs) = unseen seen rs.
Proof.
  intros Hin. unfold unseen. simpl.
  destruct (decide (url r ∈ seen)); [reflexivity | contradiction].
Qed.

Lemma unseen_cons_fresh seen r rs :
  url r ∉ seen →
  unseen seen (r :: rs) = r :: unseen ({[ url r ]} ∪ seen) rs.
Proof.
  intros Hout. unfold unseen. simpl.
  destruct (decide (url r ∈ seen)); [contradiction |].
  rewrite filterUnseen_split. reflexivity.
Qed.

(** Every kept result comes from the input and has a URL outside [seen]. *)
Lemma unseen_elem seen rs r :
  r ∈ unseen seen rs → r ∈ rs ∧ url r ∉ seen.
Proof.
  revert seen. induction rs as [|x rs IH]; intros seen Hr.
  - rewrite unseen_nil in Hr. inversion Hr.
  - destruct (decide (url x ∈ seen)) as [Hin|Hout].
    + rewrite unseen_cons_seen in Hr by assumption.
      destruct (IH _ Hr) as [H1 H2]. split; [now right | assumption].
    + rewrite unseen_cons_fresh in Hr by assumption.
      apply elem_of_cons in Hr as [->|Hr].
      * split; [now left | assumption].
      * destruct (IH _ Hr) as [H1 H2]. split; [now right | set_solver].
Qed.

(** The kept results have pairwise distinct URLs. *)
Lemma unseen_NoDup seen rs : NoDup (map url (unseen seen rs)).
Proof.
  revert seen. induction rs as [|x rs IH]; intros seen.
  - constructor.
  - destruct (decide (url x ∈ seen)) as [Hin|Hout].
    + rewrite unseen_cons_seen by assumption. apply IH.
    + rewrite unseen_cons_fresh by assumption. simpl. constructor.
      * intros Hx. apply list_elem_of_fmap in Hx as (y & Hy & Hin).
        apply unseen_elem in Hin as [_ Hfresh]. set_solver.
      * apply IH.
Qed.

(** Every URL of the input outside [seen] is the URL of a kept result. *)
Lemma unseen_complete seen rs r :
  r ∈ rs → url r ∉ seen → url r ∈ map url (unseen seen rs).
Proof.
  revert seen. induction rs as [|x rs IH]; intros seen Hr Hfresh.
  - inversion Hr.
  - destruct (decide (url x ∈ seen)) as [Hin|Hout].
    + rewrite unseen_cons_seen by assumption.
      apply elem_of_cons in Hr as [->|Hr]; [contradiction | now apply IH].
    + rewrite unseen_cons_fresh by assumption. simpl.
      destruct (decide (url r = url x)) as [->|Hne]; [now left |].
      right. apply elem_of_cons in Hr as [->|Hr]; [congruence |].
      apply IH; [assumption | set_solver].
Qed.

(** The filter adds to [seen] exactly the URLs of what it keeps. *)
Lemma unseen_urls seen rs : seen ∪ urls (unseen seen rs) = seen ∪ urls rs.
Proof.
  revert seen. induction rs as [|x rs IH]; intros seen.
  - reflexivity.
  - destruct (decide (url x ∈ seen)) as [Hin|Hout].
    + rewrite unseen_cons_seen by assumption. rewrite IH.
      unfold urls. simpl. set_solver.
    + rewrite unseen_cons_fresh by assumption.
      specialize (IH ({[ url x ]} ∪ seen)).
      unfold urls in *. simpl. set_solver.
Qed.

(** A list without repeated URL, none of them in [seen], is kept whole. *)
Lemma unseen_fixed seen rs :
  NoDup (map url rs) → (∀ r, r ∈ rs → url r ∉ seen) → unseen seen rs = rs.
Proof.
  revert seen. induction rs as [|x rs IH]; intros seen Hnd Hfresh.
  - reflexivity.
  - simpl in Hnd. apply NoDup_cons in Hnd as [Hx Hnd].
    rewrite unseen_cons_fresh by (apply Hfresh; now left).
    f_equal. apply IH; [assumption |].
    intros r Hr. apply not_elem_of_union. split.
    + intros Heq%elem_of_singleton. apply Hx. rewrite <- Heq.
      apply list_elem_of_fmap. eauto.
    + apply Hfresh. now right.
Qed.

Lemma unseen_idem seen rs : unseen seen (unseen seen rs) = unseen seen rs.
Proof.
  apply unseen_fixed; [apply unseen_NoDup |].
  intros r Hr. now apply unseen_elem in Hr.
Qed.

Lemma length_unseen seen rs : length (unseen seen rs) ≤ length rs.
Proof.
  revert seen. induction rs as [|x rs IH]; intros seen; [reflexivity |].
  destruct (decide (url x ∈ seen)) as [Hin|Hout].
  - rewrite unseen_cons_seen by assumption. specialize (IH seen). simpl. lia.
  - rewrite unseen_cons_fresh by assumption.
    specialize (IH ({[ url x ]} ∪ seen)). simpl. lia.
Qed.

End FilterUnseen.

(** ** The deduplication pass *)

Section Deduplication.

Implicit Types (d : AggregatedData) (p q : Platform).

(** The pass, bucket by bucket. *)
Lemma deduplicateEntries_unfold d :
  DataAggregator.deduplicateEntries d =
  let l := unseen (seenBefore d Linkedin) (results (linkedin d)) in
  let t := unseen (seenBefore d Twitter) (results (twitter d)) in
  let r := unseen (seenBefore d Reviews) (results (reviews d)) in
  let b := unseen (seenBefore d Blogs) (results (blogs d)) in
  {| reddit := reddit d;
     linkedin := bucketOf l;
     twitter := bucketOf t;
     reviews := bucketOf r;
     blogs := bucketOf b;
     aggregateStats :=
       {| totalSources :=
            totalMentions (reddit d) + length l + length t + length r
            + length b;
          dateRange := dateRange (aggregateStats d);
          platforms := platforms (aggregateStats d);
          platformBreakdown := platformBreakdown (aggregateStats d);
          redditSentiment := redditSentiment (aggregateStats d);
          redditAvgScore := redditAvgScore (aggregateStats d) |};
     dataSource := dataSource d;
     formattedForClaude := formattedForClaude d |}.
Proof.
  unfold DataAggregator.deduplicateEntries, DataAggregator.dedupPlatform.
  cbn [foldl getBucket setBucket linkedin twitter reviews blogs seenBefore].
  rewrite !filterUnseen_split.
  unfold setTotalSources, setBucket, bucketOf.
  cbn [reddit linkedin twitter reviews blogs aggregateStats dataSource
       formattedForClaude results totalResults].
  rewrite !(left_id_L ∅ (∪)).
  reflexivity.
Qed.

Lemma deduplicateEntries_bucket d p :
  getBucket (DataAggregator.deduplicateEntries d) p =
  bucketOf (unseen (seenBefore d p) (results (getBucket d p))).
Proof. rewrite deduplicateEntries_unfold. destruct p; reflexivity. Qed.

Lemma elem_of_urls (rs : list SearchResult) (u : jsstring) :
  u ∈ urls rs ↔ u ∈ map url rs.
Proof. unfold urls. apply elem_of_list_to_set. Qed.

(** A URL was met before bucket [p] exactly when an earlier bucket of the
    input holds it. *)
Lemma elem_of_seenBefore d p (u : jsstring) :
  u ∈ seenBefore d p ↔
  ∃ q, earlier q p ∧ u ∈ map url (results (getBucket d q)).
Proof.
  unfold earlier. split.
  - destruct p; cbn [seenBefore]; rewrite ?elem_of_union, ?elem_of_urls.
    + intros H. inversion H.
    + intros H. exists Linkedin. split; [simpl; lia | assumption].
    + intros [H|H]; [exists Linkedin | exists Twitter];
        (split; [simpl; lia | assumption]).
    + intros [[H|H]|H]; [exists Linkedin | exists Twitter | exists Reviews];
        (split; [simpl; lia | assumption]).
  - intros (q & Hlt & Hu).
    destruct p, q; simpl in Hlt; try lia; cbn [seenBefore getBucket] in *;
      rewrite ?elem_of_union, ?elem_of_urls; auto.
Qed.

(** After the pass, the URLs met before bucket [p] are the same set. *)
Lemma seenBefore_deduplicateEntries d p :
  seenBefore (DataAggregator.deduplicateEntries d) p = seenBefore d p.
Proof.
  rewrite deduplicateEntries_unfold.
  destruct p; cbn [seenBefore linkedin twitter reviews bucketOf results].
  - reflexivity.
  - pose proof (unseen_urls ∅ (results (linkedin d))) as H1.
    rewrite !(left_id_L ∅ (∪)) in H1. exact H1.
  - pose proof (unseen_urls ∅ (results (linkedin d))) as H1.
    rewrite !(left_id_L ∅ (∪)) in H1. rewrite H1.
    apply unseen_urls.
  - pose proof (unseen_urls ∅ (results (linkedin d))) as H1.
    rewrite !(left_id_L ∅ (∪)) in H1. rewrite H1.
    rewrite (unseen_urls (urls (results (linkedin d)))).
    apply unseen_urls.
Qed.

End Deduplication.

(** ** Claims on the aggregator *)

Section AggregatorClaims.

Implicit Types (d : AggregatedData) (p q : Platform).

Lemma elem_of_deduplicated d p (r : SearchResult) :
  r ∈ results (getBucket (DataAggregator.deduplicateEntries d) p) →
  r ∈ results (getBucket d p) ∧ url r ∉ seenBefore d p.
Proof.
  rewrite deduplicateEntries_bucket. cbn [bucketOf results].
  apply unseen_elem.
Qed.

Lemma deduplicated_disjoint d p q (u : jsstring) :
  earlier q p →
  u ∈ map url (results (getBucket (DataAggregator.deduplicateEntries d) q)) →
  u ∉ map url (results (getBucket (DataAggregator.deduplicateEntries d) p)).
Proof.
  intros Hlt Hq Hp.
  apply list_elem_of_fmap in Hq as (rq & -> & Hq).
  apply list_elem_of_fmap in Hp as (rp & Heq & Hp).
  apply elem_of_deduplicated in Hq as [Hq _].
  apply elem_of_deduplicated in Hp as [_ Hp].
  apply Hp. apply elem_of_seenBefore. exists q. split; [assumption |].
  rewrite <- Heq. apply list_elem_of_fmap. eauto.
Qed.

End AggregatorClaims.

(** C1, as stated, fails: the pass never looks at the forum bucket.  A
    LinkedIn hit whose URL is also the URL (and the permalink) of a forum
    post is still in the LinkedIn bucket after the pass. *)
Lemma C1_forum_url_not_dropped :
  ∃ post hit,
    post ∈ posts (reddit corpusForumAndWeb)
    ∧ hit ∈ results (linkedin corpusForumAndWeb)
    ∧ post_url post = url hit
    ∧ permalink post = url hit
    ∧ hit ∈ results (linkedin (DataAggregator.deduplicateEntries corpusForumAndWeb)).
Proof.
  exists (forumPost sampleUrl 10 5), (webHit sampleUrl).
  split; [vm_compute; apply list_elem_of_here |].
  split; [vm_compute; apply list_elem_of_here |].
  split; [vm_compute; reflexivity |].
  split; [vm_compute; reflexivity |].
  vm_compute. apply list_elem_of_here.
Qed.

(** C1, amended: the pass visits the four web buckets in the order LinkedIn,
    Twitter/X, reviews, blogs against one running set of seen URLs and leaves
    the forum bucket as it is.  Afterwards no URL occurs twice across the web
    buckets; a result that is kept was in the same bucket before and its URL
    is in no earlier web bucket; and a result whose URL is in no earlier web
    bucket keeps its URL in its own bucket. *)
Theorem C1_first_web_bucket_wins (d : AggregatedData) :
  let d' := DataAggregator.deduplicateEntries d in
  reddit d' = reddit d
  ∧ NoDup (map url (results (linkedin d') ++ results (twitter d')
                    ++ results (reviews d') ++ results (blogs d')))
  ∧ (∀ p r, r ∈ results (getBucket d' p) →
       r ∈ results (getBucket d p)
       ∧ ∀ q, earlier q p → url r ∉ map url (results (getBucket d q)))
  ∧ (∀ p r, r ∈ results (getBucket d p) →
       (∀ q, earlier q p → url r ∉ map url (results (getBucket d q))) →
       url r ∈ map url (results (getBucket d' p))).
Proof.
  intros d'. subst d'. split; [| split; [| split]].
  - rewrite deduplicateEntries_unfold. reflexivity.
  - rewrite !map_app.
    assert (Hnd : ∀ p, NoDup (map url (results
              (getBucket (DataAggregator.deduplicateEntries d) p)))).
    { intros p. rewrite deduplicateEntries_bucket. apply unseen_NoDup. }
    assert (Hdis : ∀ q p u, earlier q p →
              u ∈ map url (results
                (getBucket (DataAggregator.deduplicateEntries d) q)) →
              u ∉ map url (results
                (getBucket (DataAggregator.deduplicateEntries d) p)))
      by (intros; eapply deduplicated_disjoint; eassumption).
    pose proof (Hnd Linkedin) as N1. pose proof (Hnd Twitter) as N2.
    pose proof (Hnd Reviews) as N3. pose proof (Hnd Blogs) as N4.
    pose proof (Hdis Linkedin Twitter) as D12.
    pose proof (Hdis Linkedin Reviews) as D13.
    pose proof (Hdis Linkedin Blogs) as D14.
    pose proof (Hdis Twitter Reviews) as D23.
    pose proof (Hdis Twitter Blogs) as D24.
    pose proof (Hdis Reviews Blogs) as D34.
    unfold earlier in *. cbn [getBucket rank] in *.
    repeat (apply NoDup_app; split; [assumption | split]); try assumption;
      intros u Hu; rewrite ?elem_of_app; intros Hv;
      repeat match goal with H : _ ∨ _ |- _ => destruct H as [H|H] end;
      first [ solve [eapply D12; [lia | eassumption ..]]
            | solve [eapply D13; [lia | eassumption ..]]
            | solve [eapply D14; [lia | eassumption ..]]
            | solve [eapply D23; [lia | eassumption ..]]
            | solve [eapply D24; [lia | eassumption ..]]
            | solve [eapply D34; [lia | eassumption ..]] ].
  - intros p r Hr. apply elem_of_deduplicated in Hr as [Hin Hfresh].
    split; [assumption |]. intros q Hlt Hu. apply Hfresh.
    apply elem_of_seenBefore. eauto.
  - intros p r Hr Hfresh. rewrite deduplicateEntries_bucket.
    cbn [bucketOf results]. apply unseen_complete; [assumption |].
    intros (q & Hlt & Hu)%elem_of_seenBefore. exact (Hfresh q Hlt Hu).
Qed.

(** The amended C1 at a corpus where the LinkedIn and the Twitter searches
    found the same URL: the Twitter copy is dropped, the LinkedIn one kept. *)
Lemma C1_first_web_bucket_wins_witness :
  url (webHit sampleUrl)
    ∈ map url (results (getBucket
        (DataAggregator.deduplicateEntries corpusTwoWeb) Linkedin))
  ∧ results (twitter (DataAggregator.deduplicateEntries corpusTwoWeb)) = [].
Proof.
  split.
  - apply (proj2 (proj2 (proj2 (C1_first_web_bucket_wins corpusTwoWeb)))).
    + vm_compute. apply list_elem_of_here.
    + intros q Hlt. unfold earlier in Hlt. simpl in Hlt. lia.
  - vm_compute. reflexivity.
Defined.

(** C6: after the deduplication pass the recorded [totalSources] is the sum
    of the counts of the five buckets as the pass leaves them, and the count
    of each web bucket is the number of its results. *)
Theorem C6_totalSources_is_sum_of_counts (d : AggregatedData) :
  let d' := DataAggregator.deduplicateEntries d in
  totalSources (aggregateStats d') =
    totalMentions (reddit d') + totalResults (linkedin d')
    + totalResults (twitter d') + totalResults (reviews d')
    + totalResults (blogs d')
  ∧ totalResults (linkedin d') = length (results (linkedin d'))
  ∧ totalResults (twitter d') = length (results (twitter d'))
  ∧ totalResults (reviews d') = length (results (reviews d'))
  ∧ totalResults (blogs d') = length (results (blogs d')).
Proof.
  intros d'. subst d'. rewrite deduplicateEntries_unfold.
  repeat split; reflexivity.
Qed.

(** C7: the deduplication pass is idempotent; a second pass returns the
    corpus of the first, with the same buckets and the same [totalSources]. *)
Theorem C7_deduplicateEntries_idempotent (d : AggregatedData) :
  DataAggregator.deduplicateEntries (DataAggregator.deduplicateEntries d)
  = DataAggregator.deduplicateEntries d.
Proof.
  rewrite (deduplicateEntries_unfold (DataAggregator.deduplicateEntries d)).
  rewrite !seenBefore_deduplicateEntries.
  change (linkedin (DataAggregator.deduplicateEntries d))
    with (getBucket (DataAggregator.deduplicateEntries d) Linkedin).
  change (twitter (DataAggregator.deduplicateEntries d))
    with (getBucket (DataAggregator.deduplicateEntries d) Twitter).
  change (reviews (DataAggregator.deduplicateEntries d))
    with (getBucket (DataAggregator.deduplicateEntries d) Reviews).
  change (blogs (DataAggregator.deduplicateEntries d))
    with (getBucket (DataAggregator.deduplicateEntries d) Blogs).
  rewrite !deduplicateEntries_bucket. cbn [bucketOf results].
  rewrite !unseen_idem.
  rewrite (deduplicateEntries_unfold d). reflexivity.
Qed.

(** C10: the pass changes the four web buckets and [totalSources] and
    nothing else: the forum bucket, [platformBreakdown], [platforms], the
    other statistics, [dataSource] and the rendered text are those of the
    input.  Hence, on the corpus the exported [aggregateResults] returns,
    [totalSources] is at most the sum of the breakdown, and there is a
    corpus where it is smaller and where a platform still listed as active
    has an empty bucket. *)
Theorem C10_deduplicateEntries_frame :
  (∀ d : AggregatedData,
     let d' := DataAggregator.deduplicateEntries d in
     reddit d' = reddit d
     ∧ platformBreakdown (aggregateStats d') = platformBreakdown (aggregateStats d)
     ∧ platforms (aggregateStats d') = platforms (aggregateStats d)
     ∧ dateRange (aggregateStats d') = dateRange (aggregateStats d)
     ∧ redditSentiment (aggregateStats d') = redditSentiment (aggregateStats d)
     ∧ redditAvgScore (aggregateStats d') = redditAvgScore (aggregateStats d)
     ∧ dataSource d' = dataSource d
     ∧ formattedForClaude d' = formattedForClaude d)
  ∧ (∀ redditData bingData brand timeRange,
       let a := aggregateResults redditData bingData brand timeRange in
       totalSources (aggregateStats a)
         ≤ breakdownSum (platformBreakdown (aggregateStats a)))
  ∧ (∃ redditData bingData brand timeRange,
       let a := aggregateResults redditData bingData brand timeRange in
       totalSources (aggregateStats a)
         < breakdownSum (platformBreakdown (aggregateStats a))
       ∧ js "Twitter/X" ∈ platforms (aggregateStats a)
       ∧ results (twitter a) = []
       ∧ totalResults (twitter a) = 0).
Proof.
  split; [| split].
  - intros d d'. subst d'. rewrite deduplicateEntries_unfold.
    repeat split; reflexivity.
  - intros redditData bingData brand timeRange a. subst a.
    unfold aggregateResults. rewrite deduplicateEntries_unfold.
    cbn -[unseen seenBefore]. unfold breakdownSum. cbn -[unseen seenBefore].
    match goal with
    | |- context [length (unseen ?s (bd_linkedin bingData))] =>
      pose proof (length_unseen s (bd_linkedin bingData))
    end.
    match goal with
    | |- context [length (unseen ?s (bd_twitter bingData))] =>
      pose proof (length_unseen s (bd_twitter bingData))
    end.
    match goal with
    | |- context [length (unseen ?s (bd_reviews bingData))] =>
      pose proof (length_unseen s (bd_reviews bingData))
    end.
    match goal with
    | |- context [length (unseen ?s (bd_blogs bingData))] =>
      pose proof (length_unseen s (bd_blogs bingData))
    end.
    lia.
  - exists (forumOnly []),
      (webOnly [webHit sampleUrl] [webHit sampleUrl] [] []),
      (js "Acme"), (js "7 days").
    intros a. subst a. vm_compute.
    repeat split; try lia.
    apply list_elem_of_further, list_elem_of_here.
Qed.

(** The three status strings are pairwise distinct. *)
Lemma status_distinct :
  js "real-time" ≠ js "partial" ∧ js "real-time" ≠ js "fallback"
  ∧ js "partial" ≠ js "fallback".
Proof. repeat split; vm_compute; discriminate. Qed.

Lemma determineDataSource_cases (reddit : RedditBucket) (bingData : BingData) :
  let s := DataAggregator.determineDataSource reddit bingData in
  let forum := 0 < totalMentions reddit in
  let web := 0 < bd_totalResults bingData in
  (s = js "real-time" ↔ forum ∧ web)
  ∧ (s = js "partial" ↔ (forum ∧ ¬ web) ∨ (¬ forum ∧ web))
  ∧ (s = js "fallback" ↔ ¬ forum ∧ ¬ web).
Proof.
  destruct status_distinct as (D1 & D2 & D3).
  unfold DataAggregator.determineDataSource. cbv zeta.
  destruct (Nat.ltb_spec 0 (totalMentions reddit)) as [Hf|Hf];
    destruct (Nat.ltb_spec 0 (bd_totalResults bingData)) as [Hw|Hw];
    cbn [andb orb]; repeat split; intros; try congruence; try lia;
    try (exfalso; lia); intuition lia.
Qed.

(** C2: the status computed for a pair of adapter results is ['real-time']
    exactly when the forum adapter returned a post and the web adapter
    counted a result, ['partial'] exactly when one of the two did, and
    ['fallback'] exactly when neither did; three posts and no web result
    give ['partial']. *)
Theorem C2_dataSource_status (redditData : RedditData) (bingData : BingData)
    (brand timeRange : jsstring) :
  let s := dataSource (aggregateResults redditData bingData brand timeRange) in
  let forum := 0 < length (rd_posts redditData) in
  let web := 0 < bd_totalResults bingData in
  (s = js "real-time" ↔ forum ∧ web)
  ∧ (s = js "partial" ↔ (forum ∧ ¬ web) ∨ (¬ forum ∧ web))
  ∧ (s = js "fallback" ↔ ¬ forum ∧ ¬ web)
  ∧ (length (rd_posts redditData) = 3 → bd_totalResults bingData = 0 →
     s = js "partial").
Proof.
  intros s forum web.
  assert (Hs : s = DataAggregator.determineDataSource
                 {| posts := rd_posts redditData;
                    totalMentions := length (rd_posts redditData);
                    sentiment := rd_sentiment redditData;
                    formattedText := rd_formattedText redditData |} bingData).
  { subst s. unfold aggregateResults. rewrite deduplicateEntries_unfold.
    reflexivity. }
  rewrite Hs.
  match goal with
  | |- context [DataAggregator.determineDataSource ?r ?b] =>
    destruct (determineDataSource_cases r b) as (H1 & H2 & H3)
  end.
  cbn [totalMentions] in H1, H2, H3.
  split; [exact H1 | split; [exact H2 | split; [exact H3 |]]].
  intros H3posts Hweb. apply H2. left. subst forum web. lia.
Qed.

(** C2 at a forum result of three posts and an empty web result. *)
Lemma C2_dataSource_status_witness :
  dataSource
    (aggregateResults
       (forumOnly [forumPost sampleUrl 10 5; forumPost sampleUrl 15 0;
                   forumPost sampleUrl 1 1])
       (webOnly [] [] [] []) (js "Acme") (js "7 days"))
  = js "partial".
Proof.
  apply (proj2 (proj2 (proj2 (C2_dataSource_status
    (forumOnly [forumPost sampleUrl 10 5; forumPost sampleUrl 15 0;
                forumPost sampleUrl 1 1])
    (webOnly [] [] [] []) (js "Acme") (js "7 days"))))); reflexivity.
Defined.

(** ** The engagement sort *)

Section ArraySort.

Context {A : Type} (key : A → Z).






End ArraySort.




(** ** The response parser *)

Section Parser.

Implicit Types (s p text : jsstring).

Lemma startsWith_spec p s :
  startsWith p s = true ↔ ∃ after, s = p ++ after.
Proof.
  revert s. induction p as [|a p IH]; intros s; simpl.
  - split; [intros _; now exists s | reflexivity].
  - destruct s as [|b s].
    + split; [discriminate | intros [after H]; discriminate].
    + rewrite andb_true_iff, N.eqb_eq, IH. split.
      * intros [-> [after ->]]. now exists after.
      * intros [after H]. injection H as -> ->. eauto.
Qed.

Lemma includes_spec s p :
  includes s p = true ↔ ∃ before after, s = before ++ p ++ after.
Proof.
  induction s as [|c s IH]; simpl.
  - rewrite orb_false_r, startsWith_spec. split.
    + intros [after H]. now exists [], after.
    + intros (before & after & H). destruct before; [eauto | discriminate].
  - rewrite orb_true_iff, startsWith_spec, IH. split.
    + intros [[after H]|(before & after & ->)].
      * now exists [], after.
      * now exists (c :: before), after.
    + intros (before & after & H). destruct before as [|b before].
      * left. eauto.
      * right. injection H as -> ->. eauto.
Qed.

Lemma includes_mentions text p :
  includes (toLowerCase text) p = true ↔ mentions text p.
Proof. apply includes_spec. Qed.

(** The flag, in words. *)
Lemma critical_spec text :
  SocialListeningService.critical text = true ↔
  text ≠ []
  ∧ ¬ mentions text (js "no critical concerns")
  ∧ ¬ mentions text (js "no significant concerns")
  ∧ ¬ mentions text (js "no critical issues").
Proof.
  unfold SocialListeningService.critical. cbv zeta.
  rewrite !andb_true_iff, !negb_true_iff, <- !includes_mentions.
  rewrite !not_true_iff_false, Nat.ltb_lt.
  destruct text; simpl; intuition (try lia; try congruence).
Qed.

(** A text without the emoji of a header has no match for that header. *)
Lemma matchSection_no_emoji emoji header stops text :
  includes text emoji = false →
  Regex.matchSection emoji header stops text = None.
Proof.
  induction text as [|c text IH]; simpl; intros H;
    apply orb_false_iff in H as [Hstart Hrest].
  - unfold Regex.headerAt.
    destruct (dropPrefix emoji []) eqn:E; [| reflexivity].
    destruct emoji; simpl in *; discriminate.
  - assert (Hd : dropPrefix emoji (c :: text) = None).
    { clear -Hstart. revert Hstart. generalize (c :: text) as s.
      induction emoji as [|a emoji IH]; intros s; simpl; [discriminate |].
      destruct s as [|b s]; [reflexivity |].
      destruct (a =? b)%N; simpl; [apply IH | reflexivity]. }
    unfold Regex.headerAt. rewrite Hd. now apply IH.
Qed.

End Parser.

(** C4: when the concerns header is matched, [hasCriticalIssues] is [true]
    exactly when the trimmed capture is not empty and contains none of the
    three phrases, letter case ignored.  So the capture
    ["• No critical concerns identified (source: review)"] gives [false] and
    ["• CRITICAL: pricing backlash (source: g2.com)"] gives [true]. *)
Theorem C4_hasCriticalIssues (w : World) (responseText group : jsstring)
    (Hmatch : SocialListeningService.concernsMatch responseText = Some group) :
  let concerns := trim group in
  let flag :=
    hasCriticalIssues
      (SocialListeningService.parseResponse w (Some responseText)) in
  (flag = true ↔
     concerns ≠ []
     ∧ ¬ mentions concerns (js "no critical concerns")
     ∧ ¬ mentions concerns (js "no significant concerns")
     ∧ ¬ mentions concerns (js "no critical issues"))
  ∧ (concerns = js "• No critical concerns identified (source: review)" →
     flag = false)
  ∧ (concerns = js "• CRITICAL: pricing backlash (source: g2.com)" →
     flag = true).
Proof.
  intros concerns flag.
  assert (Hflag : flag = SocialListeningService.critical concerns).
  { subst flag concerns. unfold SocialListeningService.parseResponse.
    cbn [hasCriticalIssues]. rewrite Hmatch. reflexivity. }
  rewrite Hflag. split; [apply critical_spec | split]; intros ->; reflexivity.
Qed.

(** C4 on two whole replies. *)
Lemma C4_hasCriticalIssues_witness :
  hasCriticalIssues
    (SocialListeningService.parseResponse quietWorld (Some replyNoConcern))
  = false
  ∧ hasCriticalIssues
      (SocialListeningService.parseResponse quietWorld (Some replyConcern))
    = true.
Proof.
  split.
  - apply (proj1 (proj2 (C4_hasCriticalIssues quietWorld replyNoConcern
             ([10%N]
              +++ js "• No critical concerns identified (source: review)"
              +++ [10%N; 10%N]) ltac:(vm_compute; reflexivity)))).
    vm_compute. reflexivity.
  - apply (proj2 (proj2 (C4_hasCriticalIssues quietWorld replyConcern
             ([10%N] +++ js "• CRITICAL: pricing backlash (source: g2.com)"
              +++ [10%N; 10%N]) ltac:(vm_compute; reflexivity)))).
    vm_compute. reflexivity.
Defined.

(** C5: when none of the five captures holds text, [parseResponse] returns
    the result with the extraction-failure message as sentiment, the
    manual-review message as concerns, the other sections empty, the input
    as [fullReport] and [hasCriticalIssues] false. *)
Theorem C5_no_section_parsed (w : World) (responseText : jsstring)
    (Hsentiment : SocialListeningService.captured
       (SocialListeningService.sentimentMatch responseText) = [])
    (Hpositive : SocialListeningService.captured
       (SocialListeningService.positiveMatch responseText) = [])
    (Hconcerns : SocialListeningService.captured
       (SocialListeningService.concernsMatch responseText) = [])
    (Htrending : SocialListeningService.captured
       (SocialListeningService.trendingMatch responseText) = [])
    (Hcompetitive : SocialListeningService.captured
       (SocialListeningService.competitiveMatch responseText) = []) :
  SocialListeningService.parseResponse w (Some responseText) =
  {| sentimentSummary := js "Unable to extract sentiment data from response.";
     positiveHighlights := [];
     negativeConcerns := js "Manual review of full report required.";
     trendingTopics := [];
     competitiveInsights := [];
     hasCriticalIssues := false;
     fullReport := responseText;
     timestamp := now w;
     r_dataSource := None |}.
Proof.
  unfold SocialListeningService.parseResponse.
  rewrite Hsentiment, Hpositive, Hconcerns, Htrending, Hcompetitive.
  cbn [truthy orb].
  destruct (SocialListeningService.concernsMatch responseText); reflexivity.
Qed.

(** A reply without any of the five header emoji has no capture at all. *)
Lemma no_emoji_no_capture (responseText : jsstring) :
  includes responseText barChart = false →
  includes responseText checkMark = false →
  includes responseText warningSign = false →
  includes responseText fire = false →
  includes responseText target = false →
  SocialListeningService.sentimentMatch responseText = None
  ∧ SocialListeningService.positiveMatch responseText = None
  ∧ SocialListeningService.concernsMatch responseText = None
  ∧ SocialListeningService.trendingMatch responseText = None
  ∧ SocialListeningService.competitiveMatch responseText = None.
Proof.
  intros H1 H2 H3 H4 H5.
  repeat split; apply matchSection_no_emoji; assumption.
Qed.

(** C5 on a reply that has no emoji header. *)
Lemma C5_no_section_parsed_witness :
  let reply := js "I could not find anything about this brand." in
  let r := SocialListeningService.parseResponse quietWorld (Some reply) in
  sentimentSummary r = js "Unable to extract sentiment data from response."
  ∧ negativeConcerns r = js "Manual review of full report required."
  ∧ fullReport r = reply
  ∧ hasCriticalIssues r = false.
Proof.
  intros reply r. subst r.
  rewrite (C5_no_section_parsed quietWorld reply
             ltac:(vm_compute; reflexivity) ltac:(vm_compute; reflexivity)
             ltac:(vm_compute; reflexivity) ltac:(vm_compute; reflexivity)
             ltac:(vm_compute; reflexivity)).
  repeat split.
Defined.

(** ** The adapters *)

Section Adapters.

Variable w : World.

Lemma js_app_nonempty (a b : jsstring) : a ≠ [] → a +++ b ≠ [].
Proof. destruct a; [congruence | discriminate]. Qed.



(** The method never takes its [catch]. *)
Lemma RedditService_searchReddit_returns (self : RedditService.t)
    (brand timeRange : jsstring) :
  RedditService.searchReddit w self brand timeRange =
  returned (take 20 (RedditService.sortByEngagement
    (RedditService.filterByRelevance w
       (concat (map (fun subreddit =>
          RedditService.searchSubreddit w brand subreddit
            (RedditService.parseTimeRange timeRange))
          (RedditService.targetSubreddits self))) brand))).
Proof. reflexivity. Qed.

Lemma formatForClaude_nonempty (posts : list RedditPost) :
  RedditService.formatForClaude w posts ≠ [].
Proof.
  unfold RedditService.formatForClaude.
  destruct (length posts =? 0); [vm_compute; discriminate |].
  apply js_app_nonempty. vm_compute. discriminate.
Qed.

Lemma searchReddit_returns (brand timeRange : jsstring) :
  ∃ rd, searchReddit w brand timeRange = returned rd
        ∧ rd_formattedText rd ≠ [].
Proof.
  unfold searchReddit.
  destruct (falsy (env w (js "REDDIT_CLIENT_ID"))
            || falsy (env w (js "REDDIT_CLIENT_SECRET"))).
  - eexists. split; [reflexivity |]. vm_compute. discriminate.
  - destruct (RedditService.constructor w _ _ _) as [e|service];
      cbn [bind tryCatch].
    + eexists. split; [reflexivity |]. cbn [rd_formattedText].
      apply js_app_nonempty. vm_compute. discriminate.
    + rewrite RedditService_searchReddit_returns. cbn [bind tryCatch returned].
      eexists. split; [reflexivity |]. cbn [rd_formattedText].
      apply formatForClaude_nonempty.
Qed.





Lemma serper_formatForClaude_nonempty (l t r b : list SearchResult) :
  SerperSearchService.formatForClaude l t r b ≠ [].
Proof.
  unfold SerperSearchService.formatForClaude. cbv zeta.
  case_bool_decide; [vm_compute; discriminate | assumption].
Qed.

Lemma searchSerper_returns (brand platforms : jsstring) :
  ∃ bd, searchSerper w brand platforms = returned bd
        ∧ bd_formattedText bd ≠ [].
Proof.
  unfold searchSerper.
  destruct (falsy (env w (js "SERPER_API_KEY"))) eqn:Hkey.
  - eexists. split; [reflexivity |]. vm_compute. discriminate.
  - unfold SerperSearchService.constructor. rewrite Hkey.
    eexists. split; [reflexivity |]. cbn [bd_formattedText].
    apply serper_formatForClaude_nonempty.
Qed.

End Adapters.

Section AdapterClaims.

Variable w : World.







End AdapterClaims.

(** ** The orchestrator *)

Section Orchestrator.

Variable w : World.

Lemma determineDataSource_not_error (reddit : RedditBucket)
    (bingData : BingData) :
  DataAggregator.determineDataSource reddit bingData ≠ js "error".
Proof.
  unfold DataAggregator.determineDataSource. cbv zeta.
  destruct (_ && _); [vm_compute; discriminate |].
  destruct (_ || _); vm_compute; discriminate.
Qed.

Lemma dataSource_aggregateResults (redditData : RedditData)
    (bingData : BingData) (brand timeRange : jsstring) :
  dataSource (aggregateResults redditData bingData brand timeRange)
  ≠ js "error".
Proof.
  unfold aggregateResults. rewrite deduplicateEntries_unfold.
  apply determineDataSource_not_error.
Qed.

(** What both analysis paths return, given the outcome of the generation
    call. *)
Lemma analyzeWithRealData_outcome (self : SocialListeningService.t)
    (brand competitors timeRange platforms : jsstring)
    (aggregatedData : AggregatedData) :
  match messagesCreate w (EnhancedPrompt brand competitors timeRange
                            platforms aggregatedData) with
  | inl e =>
    SocialListeningService.analyzeWithRealData w self brand competitors
      timeRange platforms aggregatedData = thrown e
  | inr content =>
    ∃ r, SocialListeningService.analyzeWithRealData w self brand competitors
           timeRange platforms aggregatedData = returned r
         ∧ hasCriticalIssues r =
           hasCriticalIssues (SocialListeningService.parseResponse w
             (Some (SocialListeningService.fullResponseOf content)))
  end.
Proof.
  unfold SocialListeningService.analyzeWithRealData.
  destruct (messagesCreate w _) as [e|content]; [reflexivity |].
  eexists. split; reflexivity.
Qed.

Lemma analyzeWithClaudeKnowledge_outcome (self : SocialListeningService.t)
    (brand competitors timeRange platforms : jsstring) :
  match messagesCreate w (SocialListeningPrompt brand competitors timeRange
                            platforms) with
  | inl e =>
    SocialListeningService.analyzeWithClaudeKnowledge w self brand
      competitors timeRange platforms = thrown e
  | inr content =>
    ∃ r, SocialListeningService.analyzeWithClaudeKnowledge w self brand
           competitors timeRange platforms = returned r
         ∧ hasCriticalIssues r =
           hasCriticalIssues (SocialListeningService.parseResponse w
             (Some (SocialListeningService.fullResponseOf content)))
  end.
Proof.
  unfold SocialListeningService.analyzeWithClaudeKnowledge.
  destruct (messagesCreate w _) as [e|content]; [reflexivity |].
  eexists. split; reflexivity.
Qed.

(** [analyzeBrandSentiment] returns, and what it returns is either the
    error result for the exception of the generation call, or a parsed
    reply to which a data source other than ['error'] is attached. *)
Lemma analyzeBrandSentiment_outcome (self : SocialListeningService.t)
    (brand competitors timeRange platforms : jsstring) :
  ∃ r, SocialListeningService.analyzeBrandSentiment w self brand competitors
         timeRange platforms = returned r
     ∧ ((∃ prompt e, messagesCreate w prompt = thrown e
                     ∧ r = SocialListeningService.errorResult w e)
        ∨ (∃ prompt content source,
             messagesCreate w prompt = returned content
             ∧ r_dataSource r = Some source ∧ source ≠ js "error"
             ∧ hasCriticalIssues r =
               hasCriticalIssues (SocialListeningService.parseResponse w
                 (Some (SocialListeningService.fullResponseOf content))))).
Proof.
  unfold SocialListeningService.analyzeBrandSentiment.
  destruct (searchReddit_returns w brand timeRange) as (rd & -> & _).
  unfold searchBing.
  destruct (searchSerper_returns w brand platforms) as (bd & -> & _).
  cbn [bind returned].
  pose proof (dataSource_aggregateResults rd bd brand timeRange) as Hsrc.
  set (a := aggregateResults rd bd brand timeRange) in *.
  destruct (0 <? totalSources (aggregateStats a)).
  - pose proof (analyzeWithRealData_outcome self brand competitors
                  timeRange platforms a) as H.
    destruct (messagesCreate w (EnhancedPrompt _ _ _ _ _)) as [e|content] eqn:E.
    + rewrite H. eexists. split; [reflexivity |]. left. eauto.
    + destruct H as (r & -> & Hflag). eexists. split; [reflexivity |].
      right. exists (EnhancedPrompt brand competitors timeRange platforms a),
        content, (dataSource a). repeat split; assumption.
  - pose proof (analyzeWithClaudeKnowledge_outcome self brand competitors
                  timeRange platforms) as H.
    destruct (messagesCreate w (SocialListeningPrompt _ _ _ _))
      as [e|content] eqn:E.
    + rewrite H. eexists. split; [reflexivity |]. left. eauto.
    + destruct H as (r & -> & Hflag). eexists. split; [reflexivity |].
      right. exists (SocialListeningPrompt brand competitors timeRange platforms),
        content, (dataSource a). repeat split; assumption.
Qed.

End Orchestrator.

(* ===================================================================== *)
(** * Further properties                                                   *)
(* ===================================================================== *)

(** ** The aggregator *)

Section AggregatorMore.

Implicit Types (d : AggregatedData) (seen : gset jsstring)
  (rs : list SearchResult).

(** Membership in a list of strings, by computation. *)
Lemma elem_of_by_bool (x : jsstring) (l : list jsstring) (b : bool) :
  bool_decide (x ∈ l) = b → (x ∈ l ↔ b = true).
Proof.
  intros <-. split.
  - apply bool_decide_eq_true_2.
  - apply bool_decide_eq_true_1.
Qed.

Lemma NoDup_by_bool (l : list jsstring) : bool_decide (NoDup l) = true → NoDup l.
Proof. apply bool_decide_eq_true_1. Qed.

Lemma unseen_sublist seen rs : unseen seen rs `sublist_of` rs.
Proof.
  revert seen. induction rs as [|x rs IH]; intros seen.
  - constructor.
  - destruct (decide (url x ∈ seen)) as [Hin|Hout].
    + rewrite unseen_cons_seen by assumption. apply sublist_cons, IH.
    + rewrite unseen_cons_fresh by assumption. apply sublist_skip, IH.
Qed.

(** Nothing is kept only when every URL was already seen. *)
Lemma unseen_empty_set rs : unseen ∅ rs = [] → rs = [].
Proof.
  destruct rs as [|x rs]; [reflexivity |].
  rewrite unseen_cons_fresh by apply not_elem_of_empty. discriminate.
Qed.

Lemma urls_nil : urls [] = ∅.
Proof. reflexivity. Qed.

End AggregatorMore.

(** X1: [calculateMetrics] records as [totalSources] the sum of its
    breakdown; a platform name is listed as active exactly when the count of
    its bucket is positive, no name is listed twice, and the list is empty
    exactly when [totalSources] is 0. *)
Theorem X1_calculateMetrics_platforms (reddit : RedditBucket)
    (linkedin twitter reviews blogs : WebBucket) (timeRange : jsstring) :
  let stats := DataAggregator.calculateMetrics reddit linkedin twitter
                 reviews blogs timeRange in
  totalSources stats = breakdownSum (platformBreakdown stats)
  ∧ (js "Reddit" ∈ platforms stats ↔ 0 < totalMentions reddit)
  ∧ (js "LinkedIn" ∈ platforms stats ↔ 0 < totalResults linkedin)
  ∧ (js "Twitter/X" ∈ platforms stats ↔ 0 < totalResults twitter)
  ∧ (js "Review Sites" ∈ platforms stats ↔ 0 < totalResults reviews)
  ∧ (js "Blogs" ∈ platforms stats ↔ 0 < totalResults blogs)
  ∧ NoDup (platforms stats)
  ∧ (platforms stats = [] ↔ totalSources stats = 0).
Proof.
  intros stats. subst stats. unfold DataAggregator.calculateMetrics.
  cbv zeta. cbn [totalSources platforms platformBreakdown breakdownSum
                 n_reddit n_linkedin n_twitter n_reviews n_blogs].
  destruct (Nat.ltb_spec 0 (totalMentions reddit)) as [H1|H1];
  destruct (Nat.ltb_spec 0 (totalResults linkedin)) as [H2|H2];
  destruct (Nat.ltb_spec 0 (totalResults twitter)) as [H3|H3];
  destruct (Nat.ltb_spec 0 (totalResults reviews)) as [H4|H4];
  destruct (Nat.ltb_spec 0 (totalResults blogs)) as [H5|H5];
  (split; [reflexivity |]);
  (split; [etrans; [apply (elem_of_by_bool _ _ _ ltac:(vm_compute; reflexivity)) |];
           split; intros; first [lia | reflexivity | discriminate] |]);
  (split; [etrans; [apply (elem_of_by_bool _ _ _ ltac:(vm_compute; reflexivity)) |];
           split; intros; first [lia | reflexivity | discriminate] |]);
  (split; [etrans; [apply (elem_of_by_bool _ _ _ ltac:(vm_compute; reflexivity)) |];
           split; intros; first [lia | reflexivity | discriminate] |]);
  (split; [etrans; [apply (elem_of_by_bool _ _ _ ltac:(vm_compute; reflexivity)) |];
           split; intros; first [lia | reflexivity | discriminate] |]);
  (split; [etrans; [apply (elem_of_by_bool _ _ _ ltac:(vm_compute; reflexivity)) |];
           split; intros; first [lia | reflexivity | discriminate] |]);
  (split; [apply NoDup_by_bool; vm_compute; reflexivity |]);
  (split; [intros H; first [lia | vm_compute in H; discriminate H]
          | intros H; first [reflexivity | lia]]).
Qed.

Section DeduplicationMore.

Implicit Types (d : AggregatedData) (p : Platform).

Lemma dedup_total_zero d :
  totalSources (aggregateStats (DataAggregator.deduplicateEntries d)) = 0 ↔
  totalMentions (reddit d) = 0
  ∧ results (linkedin d) = [] ∧ results (twitter d) = []
  ∧ results (reviews d) = [] ∧ results (blogs d) = [].
Proof.
  rewrite deduplicateEntries_unfold. cbv zeta.
  cbn [totalSources aggregateStats seenBefore]. split.
  - intros H.
    assert (H0 : totalMentions (reddit d) = 0) by lia.
    assert (H1 : unseen ∅ (results (linkedin d)) = [])
      by (apply nil_length_inv; lia).
    apply unseen_empty_set in H1. rewrite H1, urls_nil in H.
    assert (H2 : unseen ∅ (results (twitter d)) = [])
      by (apply nil_length_inv; lia).
    apply unseen_empty_set in H2. rewrite H2, urls_nil in H.
    rewrite (left_id_L ∅ (∪)) in H.
    assert (H3 : unseen ∅ (results (reviews d)) = [])
      by (apply nil_length_inv; lia).
    apply unseen_empty_set in H3. rewrite H3, urls_nil in H.
    rewrite (left_id_L ∅ (∪)) in H.
    assert (H4 : unseen ∅ (results (blogs d)) = [])
      by (apply nil_length_inv; lia).
    apply unseen_empty_set in H4. auto.
  - intros (H0 & -> & -> & -> & ->). rewrite !unseen_nil. simpl. lia.
Qed.

Lemma allUrls_deduplicateEntries d :
  allUrls (DataAggregator.deduplicateEntries d) = allUrls d.
Proof.
  unfold allUrls. rewrite deduplicateEntries_unfold. cbv zeta.
  cbn [linkedin twitter reviews blogs bucketOf results seenBefore].
  pose proof (unseen_urls ∅ (results (linkedin d))) as H1.
  pose proof (unseen_urls (urls (results (linkedin d)))
                (results (twitter d))) as H2.
  pose proof (unseen_urls (urls (results (linkedin d))
                           ∪ urls (results (twitter d)))
                (results (reviews d))) as H3.
  pose proof (unseen_urls (urls (results (linkedin d))
                           ∪ urls (results (twitter d))
                           ∪ urls (results (reviews d)))
                (results (blogs d))) as H4.
  rewrite !(left_id_L ∅ (∪)) in H1.
  rewrite H1, H2, H3, H4. reflexivity.
Qed.

(** Where no URL occurs twice across the web buckets, the pass keeps every
    bucket whole. *)
Lemma unseen_whole d p :
  NoDup (map url (allResults d)) →
  unseen (seenBefore d p) (results (getBucket d p)) = results (getBucket d p).
Proof.
  unfold allResults. rewrite !map_app. intros Hnd.
  apply NoDup_app in Hnd as (N1 & D1 & Hnd).
  apply NoDup_app in Hnd as (N2 & D2 & Hnd).
  apply NoDup_app in Hnd as (N3 & D3 & N4).
  assert (Hin : ∀ (r : SearchResult) rs, r ∈ rs → url r ∈ map url rs)
    by (intros r rs Hr; apply list_elem_of_fmap; eauto).
  destruct p; cbn [seenBefore getBucket]; apply unseen_fixed; try assumption;
    intros r Hr; rewrite ?elem_of_union, ?elem_of_urls.
  - apply not_elem_of_empty.
  - intros H. apply (D1 (url r) H). rewrite !elem_of_app. auto.
  - intros [H|H].
    + apply (D1 (url r) H). rewrite !elem_of_app. auto.
    + apply (D2 (url r) H). rewrite !elem_of_app. auto.
  - intros [[H|H]|H].
    + apply (D1 (url r) H). rewrite !elem_of_app. auto.
    + apply (D2 (url r) H). rewrite !elem_of_app. auto.
    + apply (D3 (url r) H). auto.
Qed.

End DeduplicationMore.

(** X2: the corpus returned by the exported [aggregateResults] has
    [totalSources] 0 exactly when the forum adapter returned no post and the
    web adapter no result: the deduplication never empties a corpus that
    holds a record. *)
Theorem X2_totalSources_zero_iff_no_record (redditData : RedditData)
    (bingData : BingData) (brand timeRange : jsstring) :
  totalSources (aggregateStats
    (aggregateResults redditData bingData brand timeRange)) = 0 ↔
  rd_posts redditData = [] ∧ bd_linkedin bingData = []
  ∧ bd_twitter bingData = [] ∧ bd_reviews bingData = []
  ∧ bd_blogs bingData = [].
Proof.
  unfold aggregateResults. rewrite dedup_total_zero.
  cbn [DataAggregator.aggregateResults reddit linkedin twitter reviews blogs
       totalMentions results].
  rewrite length_zero_iff_nil. reflexivity.
Qed.

(** X3: the deduplication pass loses no URL and keeps the order of what it
    keeps: the web buckets hold the same set of URLs before and after, and
    each bucket afterwards is a sublist of the bucket before. *)
Theorem X3_deduplicateEntries_keeps_urls_and_order (d : AggregatedData) :
  allUrls (DataAggregator.deduplicateEntries d) = allUrls d
  ∧ ∀ p, results (getBucket (DataAggregator.deduplicateEntries d) p)
         `sublist_of` results (getBucket d p).
Proof.
  split; [apply allUrls_deduplicateEntries |].
  intros p. rewrite deduplicateEntries_bucket. cbn [bucketOf results].
  apply unseen_sublist.
Qed.

(** X4: a corpus built by [DataAggregator.aggregateResults] in which no URL
    occurs twice across the web results is returned unchanged by the
    deduplication pass. *)
Theorem X4_deduplicateEntries_fixes_clean_corpus (redditData : RedditData)
    (bingData : BingData) (brand timeRange : jsstring) :
  let a := DataAggregator.aggregateResults redditData bingData brand
             timeRange in
  NoDup (map url (allResults a)) →
  DataAggregator.deduplicateEntries a = a.
Proof.
  intros a Hnd. rewrite deduplicateEntries_unfold. cbv zeta.
  pose proof (unseen_whole a Linkedin Hnd) as H1.
  pose proof (unseen_whole a Twitter Hnd) as H2.
  pose proof (unseen_whole a Reviews Hnd) as H3.
  pose proof (unseen_whole a Blogs Hnd) as H4.
  cbn [getBucket] in H1, H2, H3, H4. rewrite H1, H2, H3, H4.
  subst a. reflexivity.
Qed.

(** X4 on the corpus with one forum post and one LinkedIn result. *)
Lemma X4_deduplicateEntries_fixes_clean_corpus_witness :
  DataAggregator.deduplicateEntries corpusForumAndWeb = corpusForumAndWeb.
Proof.
  apply (X4_deduplicateEntries_fixes_clean_corpus
           (forumOnly [forumPost sampleUrl 10 5])
           (webOnly [webHit sampleUrl] [] [] [])
           (js "Acme") (js "7 days")).
  apply (bool_decide_eq_true_1 (NoDup _)). vm_compute. reflexivity.
Defined.

(** ** The forum adapter *)

Section RedditMore.

Lemma lowerUnit_fixed (c x : N) : x ∈ lowerUnit c → lowerUnit x = [x].
Proof.
  unfold lowerUnit.
  destruct ((65 <=? c) && (c <=? 90))%N eqn:Hup.
  - intros ->%list_elem_of_singleton.
    apply andb_true_iff in Hup as [H1%N.leb_le H2%N.leb_le].
    destruct (N.leb_spec 65 (c + 32)); [| lia].
    destruct (N.leb_spec (c + 32) 90); [lia |]. simpl.
    destruct (N.eqb_spec (c + 32) 8490); [lia |].
    destruct (N.eqb_spec (c + 32) 304); [lia | reflexivity].
  - destruct (N.eqb_spec c 8490) as [->|H1].
    + intros ->%list_elem_of_singleton. reflexivity.
    + destruct (N.eqb_spec c 304) as [->|H2].
      * intros [->| ->%list_elem_of_singleton]%elem_of_cons; reflexivity.
      * intros ->%list_elem_of_singleton. rewrite Hup.
        destruct (N.eqb_spec c 8490); [contradiction |].
        destruct (N.eqb_spec c 304); [contradiction | reflexivity].
Qed.

Lemma toLowerCase_app (s t : jsstring) :
  toLowerCase (s ++ t) = toLowerCase s ++ toLowerCase t.
Proof. unfold toLowerCase. apply flat_map_app. Qed.

Lemma toLowerCase_idem (s : jsstring) :
  toLowerCase (toLowerCase s) = toLowerCase s.
Proof.
  induction s as [|c s IH]; [reflexivity |].
  change (toLowerCase (c :: s)) with (lowerUnit c ++ toLowerCase s).
  rewrite toLowerCase_app, IH. f_equal.
  assert (H : ∀ l : jsstring, (∀ x, x ∈ l → lowerUnit x = [x]) →
                toLowerCase l = l).
  { clear. induction l as [|x l IH]; intros Hl; [reflexivity |].
    change (toLowerCase (x :: l)) with (lowerUnit x ++ toLowerCase l).
    rewrite (Hl x) by left. rewrite IH; [reflexivity |].
    intros y Hy. apply Hl. now right. }
  apply H. intros x Hx. eapply lowerUnit_fixed. eassumption.
Qed.





End RedditMore.

(** X5: [parseTimeRange] always answers one of the four filters ['day'],
    ['week'], ['month'], ['year'] and ignores letter case; a range that
    mentions 24 or hour gives ['day'] whatever else it holds, and a range
    with none of the seven keywords gives ['week']. *)
Theorem X5_parseTimeRange (timeRange : jsstring) :
  RedditService.parseTimeRange timeRange
    ∈ [js "day"; js "week"; js "month"; js "year"]
  ∧ RedditService.parseTimeRange (toLowerCase timeRange)
    = RedditService.parseTimeRange timeRange
  ∧ (mentions timeRange (js "24") ∨ mentions timeRange (js "hour") →
     RedditService.parseTimeRange timeRange = js "day")
  ∧ (¬ mentions timeRange (js "24") → ¬ mentions timeRange (js "hour") →
     ¬ mentions timeRange (js "7") → ¬ mentions timeRange (js "week") →
     ¬ mentions timeRange (js "30") → ¬ mentions timeRange (js "month") →
     ¬ mentions timeRange (js "year") →
     RedditService.parseTimeRange timeRange = js "week").
Proof.
  split; [| split; [| split]].
  - unfold RedditService.parseTimeRange. cbv zeta.
    repeat match goal with
    | |- context [if ?b then _ else _] => destruct b
    end; set_solver.
  - unfold RedditService.parseTimeRange. cbv zeta.
    rewrite toLowerCase_idem. reflexivity.
  - rewrite <- !includes_mentions. intros H.
    unfold RedditService.parseTimeRange. cbv zeta.
    destruct H as [-> | ->]; rewrite ?orb_true_r; reflexivity.
  - rewrite <- !includes_mentions, !not_true_iff_false.
    intros H1 H2 H3 H4 H5 H6 H7.
    unfold RedditService.parseTimeRange. cbv zeta.
    rewrite H1, H2, H3, H4, H5, H6, H7. reflexivity.
Qed.

(** X5 on the range ["Last 24 HOURS"]. *)
Lemma X5_parseTimeRange_witness :
  RedditService.parseTimeRange (js "Last 24 HOURS") = js "day".
Proof.
  apply (proj1 (proj2 (proj2 (X5_parseTimeRange (js "Last 24 HOURS"))))).
  left. apply includes_mentions. vm_compute. reflexivity.
Defined.


Section MapM.

Context {A B : Type} (f : A → outcome B).

Lemma mapM_raises (l : list A) :
  (∃ a, a ∈ l ∧ raises (f a) = true) → raises (mapM f l) = true.
Proof.
  induction l as [|x l IH]; intros (a & Ha & Hf).
  - inversion Ha.
  - simpl. apply elem_of_cons in Ha as [->|Ha].
    + destruct (f x); [reflexivity | discriminate].
    + destruct (f x) as [e|b]; [reflexivity |]. simpl.
      assert (Hl : raises (mapM f l) = true) by (apply IH; eauto).
      destruct (mapM f l); [reflexivity | discriminate].
Qed.

Lemma mapM_returns (l : list A) :
  (∀ a, a ∈ l → raises (f a) = false) →
  ∃ bs, mapM f l = returned bs
        ∧ Forall2 (fun a b => f a = returned b) l bs.
Proof.
  induction l as [|x l IH]; intros Hf.
  - exists []. split; [reflexivity | constructor].
  - destruct IH as (bs & Hbs & Hall); [intros a Ha; apply Hf; now right |].
    specialize (Hf x ltac:(left)).
    destruct (f x) as [e|b] eqn:Hx; [discriminate |].
    exists (b :: bs). simpl. rewrite Hx, Hbs. split; [reflexivity |].
    constructor; assumption.
Qed.

End MapM.

Section AdaptersMore.

Variable w : World.

Lemma extractPostData_raises (post : Submission) (subreddit : jsstring) :
  raises (RedditService.extractPostData w post subreddit)
  = raises (toISOString w (created_utc post * 1000)%Z).
Proof.
  unfold RedditService.extractPostData.
  destruct (toISOString w _); reflexivity.
Qed.

Lemma extractPostData_fields (post : Submission) (sub : jsstring)
    (p : RedditPost) :
  RedditService.extractPostData w post sub = returned p →
  subreddit p = sub
  ∧ permalink p = js "https://reddit.com" +++ s_permalink post
  ∧ title p = s_title post
  ∧ (s_author post = None → author p = js "[deleted]").
Proof.
  unfold RedditService.extractPostData.
  destruct (toISOString w _) as [e|created]; [discriminate |].
  cbn [bind returned]. intros [= <-]. cbn [subreddit permalink title author].
  split; [reflexivity |]. split; [reflexivity |]. split; [reflexivity |].
  intros ->. reflexivity.
Qed.

(** A list without repeated URL keeps each result whose URL is not seen. *)
Lemma unseen_keeps (seen : gset jsstring) (rs : list SearchResult)
    (r : SearchResult) :
  NoDup (map url rs) → r ∈ rs → url r ∉ seen → r ∈ unseen seen rs.
Proof.
  revert seen. induction rs as [|x rs IH]; intros seen Hnd Hr Hfresh.
  - inversion Hr.
  - simpl in Hnd. apply NoDup_cons in Hnd as [Hx Hnd].
    apply elem_of_cons in Hr as [->|Hr].
    + rewrite unseen_cons_fresh by assumption. left.
    + assert (Hne : url r ≠ url x).
      { intros Heq. apply Hx. rewrite <- Heq. apply list_elem_of_fmap. eauto. }
      destruct (decide (url x ∈ seen)) as [Hin|Hout].
      * rewrite unseen_cons_seen by assumption. now apply IH.
      * rewrite unseen_cons_fresh by assumption. right.
        apply IH; [assumption .. |]. set_solver.
Qed.

Lemma runQueries_NoDup (self : SerperSearchService.t)
    (queries : list jsstring) :
  NoDup (map url (SerperSearchService.runQueries w self queries)).
Proof.
  unfold SerperSearchService.runQueries,
    SerperSearchService.deduplicateResults.
  apply unseen_NoDup.
Qed.

(** What [searchSerper] returns once the key is configured. *)
Lemma searchSerper_with_key (brand platforms : jsstring) :
  falsy (env w (js "SERPER_API_KEY")) = false →
  ∃ l t r b,
    searchSerper w brand platforms
    = returned {| bd_linkedin := l; bd_twitter := t; bd_reviews := r;
                  bd_blogs := b;
                  bd_formattedText :=
                    SerperSearchService.formatForClaude l t r b;
                  bd_totalResults :=
                    length l + length t + length r + length b |}
    ∧ NoDup (map url l) ∧ NoDup (map url t)
    ∧ NoDup (map url r) ∧ NoDup (map url b).
Proof.
  intros Hkey. unfold searchSerper. rewrite Hkey.
  unfold SerperSearchService.constructor. rewrite Hkey.
  cbn [bind tryCatch returned]. do 4 eexists. split; [reflexivity |].
  unfold SerperSearchService.searchLinkedIn,
    SerperSearchService.searchTwitter,
    SerperSearchService.searchReviewSites,
    SerperSearchService.searchBlogs.
  repeat split;
    match goal with
    | |- NoDup (map url (if ?c then _ else _)) =>
      destruct c; [apply runQueries_NoDup | constructor]
    end.
Qed.

End AdaptersMore.

(** X7: [searchSubreddit] is all or nothing.  When the date of one
    submission of the listing cannot be converted, the whole listing is
    dropped and the empty array returned; otherwise there is one post per
    submission, each with the searched subreddit as [subreddit] and a
    permalink under https://reddit.com. *)
Theorem X7_searchSubreddit_all_or_nothing (w : World)
    (brand sub timeFilter : jsstring) (listing : list Submission)
    (Hsearch : subredditSearch w sub brand timeFilter = returned listing) :
  ((∃ s, s ∈ listing
         ∧ raises (toISOString w (created_utc s * 1000)%Z) = true) →
   RedditService.searchSubreddit w brand sub timeFilter = [])
  ∧ ((∀ s, s ∈ listing →
           raises (toISOString w (created_utc s * 1000)%Z) = false) →
     length (RedditService.searchSubreddit w brand sub timeFilter)
     = length listing
     ∧ ∀ p, p ∈ RedditService.searchSubreddit w brand sub timeFilter →
         subreddit p = sub
         ∧ startsWith (js "https://reddit.com") (permalink p) = true).
Proof.
  unfold RedditService.searchSubreddit. rewrite Hsearch. cbn [bind returned].
  split.
  - intros (s & Hs & Hraise).
    assert (H : raises (mapM (fun post =>
                  RedditService.extractPostData w post sub) listing) = true).
    { apply mapM_raises. exists s. split; [assumption |].
      now rewrite extractPostData_raises. }
    destruct (mapM _ listing); [reflexivity | discriminate].
  - intros Hok.
    destruct (mapM_returns (fun post =>
                RedditService.extractPostData w post sub) listing)
      as (ps & -> & Hall).
    { intros s Hs. rewrite extractPostData_raises. now apply Hok. }
    split; [symmetry; eapply Forall2_length; eassumption |].
    intros p Hp. apply list_elem_of_lookup_1 in Hp as (i & Hp).
    destruct (Forall2_lookup_r _ _ _ _ _ Hall Hp) as (s & _ & Hs).
    apply extractPostData_fields in Hs as (H1 & H2 & _).
    split; [assumption |]. apply startsWith_spec. eauto.
Qed.

(** X7 where r/technology answers one submission with a valid date. *)
Lemma X7_searchSubreddit_all_or_nothing_witness :
  length (RedditService.searchSubreddit partlyFailingWorld (js "Acme")
            (js "technology") (js "week")) = 1.
Proof.
  pose (listing :=
    match subredditSearch partlyFailingWorld (js "technology") (js "Acme")
            (js "week") with
    | inr l => l
    | inl _ => []
    end).
  transitivity (length listing); [| vm_compute; reflexivity].
  apply (X7_searchSubreddit_all_or_nothing partlyFailingWorld
           (js "Acme") (js "technology") (js "week") listing).
  - vm_compute. reflexivity.
  - intros s Hs. reflexivity.
Defined.


(** X9: the exported [searchSerper] always returns a result whose
    [totalResults] is the number of results in its four lists, and no list
    holds the same URL twice. *)
Theorem X9_searchSerper_result_invariants (w : World)
    (brand platforms : jsstring) :
  ∃ bd, searchSerper w brand platforms = returned bd
        ∧ bd_totalResults bd
          = length (bd_linkedin bd) + length (bd_twitter bd)
            + length (bd_reviews bd) + length (bd_blogs bd)
        ∧ ∀ p, NoDup (map url (adapterList bd p)).
Proof.
  destruct (falsy (env w (js "SERPER_API_KEY"))) eqn:Hkey.
  - unfold searchSerper. rewrite Hkey. eexists. split; [reflexivity |].
    split; [reflexivity |]. intros []; constructor.
  - destruct (searchSerper_with_key w brand platforms Hkey)
      as (l & t & r & b & -> & N1 & N2 & N3 & N4).
    eexists. split; [reflexivity |]. split; [reflexivity |].
    intros []; assumption.
Qed.

(** X10: [executeSerperSearch] is all or nothing too.  An answer without
    [organic] gives the empty array; so does an answer in which one hit has
    a link that is no URL; otherwise there is one result per hit, with the
    link of the hit as its URL. *)
Theorem X10_executeSerperSearch_all_or_nothing (w : World)
    (self : SerperSearchService.t) (query : jsstring) (num : nat) :
  (axios w query (Nat.min num 10) = returned None →
   SerperSearchService.executeSerperSearch w self query num = [])
  ∧ (∀ items,
       axios w query (Nat.min num 10) = returned (Some items) →
       (∃ item, item ∈ items
                ∧ raises (SerperSearchService.toResult w item) = true) →
       SerperSearchService.executeSerperSearch w self query num = [])
  ∧ (∀ items,
       axios w query (Nat.min num 10) = returned (Some items) →
       (∀ item, item ∈ items →
                raises (SerperSearchService.toResult w item) = false) →
       map url (SerperSearchService.executeSerperSearch w self query num)
       = map (fun item => orElse (link item) []) items).
Proof.
  unfold SerperSearchService.executeSerperSearch.
  split; [| split].
  - intros ->. reflexivity.
  - intros items -> Hbad. cbn [bind returned].
    pose proof (mapM_raises (SerperSearchService.toResult w) items Hbad) as H.
    destruct (mapM _ items); [reflexivity | discriminate].
  - intros items -> Hok. cbn [bind returned].
    destruct (mapM_returns (SerperSearchService.toResult w) items Hok)
      as (rs & -> & Hall).
    induction Hall as [|item r items rs Hr Hall IH]; [reflexivity |].
    simpl. f_equal.
    + unfold SerperSearchService.toResult in Hr.
      destruct (match link item with
                | Some (c :: l) => hostname w (c :: l)
                | _ => returned []
                end) as [e|host]; [discriminate |].
      cbn [bind returned] in Hr. injection Hr as <-. reflexivity.
    + apply IH. intros i Hi. apply Hok. now right.
Qed.

(** X10 where the second hit of the answer has the link ["not a url"]. *)
Lemma X10_executeSerperSearch_all_or_nothing_witness :
  SerperSearchService.executeSerperSearch badLinkWorld
    {| SerperSearchService.apiKey := js "secret";
       SerperSearchService.endpoint := js "https://google.serper.dev/search" |}
    (js "Acme site:g2.com") 5 = [].
Proof.
  refine (proj1 (proj2 (X10_executeSerperSearch_all_or_nothing badLinkWorld
            _ (js "Acme site:g2.com") 5)) _ _ _).
  - vm_compute. reflexivity.
  - eexists. split; [right; left |]. vm_compute. reflexivity.
Defined.

Lemma searchSerper_lists_NoDup (w : World) (brand platforms : jsstring) :
  ∃ bd, searchSerper w brand platforms = returned bd
        ∧ ∀ p, NoDup (map url (adapterList bd p)).
Proof.
  destruct (falsy (env w (js "SERPER_API_KEY"))) eqn:Hkey.
  - unfold searchSerper. rewrite Hkey. eexists. split; [reflexivity |].
    intros []; constructor.
  - destruct (searchSerper_with_key w brand platforms Hkey)
      as (l & t & r & b & -> & N1 & N2 & N3 & N4).
    eexists. split; [reflexivity |]. intros []; assumption.
Qed.

Lemma getBucket_aggregateResults (redditData : RedditData)
    (bingData : BingData) (brand timeRange : jsstring) (p : Platform) :
  results (getBucket
    (DataAggregator.aggregateResults redditData bingData brand timeRange) p)
  = adapterList bingData p.
Proof. destruct p; reflexivity. Qed.

(** X11: with the key configured, a platform filter that is not ['all'] and
    mentions none of the seven keywords selects no search at all: the result
    is empty, with the text ['No web search results found.'], whatever the
    search service would answer. *)
Theorem X11_searchSerper_no_platform_selected (w : World)
    (brand platforms : jsstring)
    (Hkey : falsy (env w (js "SERPER_API_KEY")) = false)
    (Hall : platforms ≠ js "all")
    (H1 : ¬ mentions platforms (js "linkedin"))
    (H2 : ¬ mentions platforms (js "twitter"))
    (H3 : ¬ mentions platforms (js "x"))
    (H4 : ¬ mentions platforms (js "g2"))
    (H5 : ¬ mentions platforms (js "capterra"))
    (H6 : ¬ mentions platforms (js "blog"))
    (H7 : ¬ mentions platforms (js "medium")) :
  searchSerper w brand platforms
  = returned (emptyBingData (js "No web search results found.")).
Proof.
  rewrite <- includes_mentions, not_true_iff_false in H1, H2, H3, H4, H5, H6, H7.
  unfold searchSerper. rewrite Hkey.
  unfold SerperSearchService.constructor. rewrite Hkey.
  cbn [bind tryCatch returned]. cbv zeta.
  rewrite (bool_decide_eq_false_2 _ Hall), H1, H2, H3, H4, H5, H6, H7.
  cbn [orb]. vm_compute. reflexivity.
Qed.

(** X11 for the filter ["reddit"]. *)
Lemma X11_searchSerper_no_platform_selected_witness :
  searchSerper badLinkWorld (js "Acme") (js "reddit")
  = returned (emptyBingData (js "No web search results found.")).
Proof.
  apply X11_searchSerper_no_platform_selected;
    first [ reflexivity
          | vm_compute; discriminate
          | rewrite <- includes_mentions; vm_compute; discriminate ].
Defined.

(** X12: the aggregator drops a result of the web adapter only for a URL
    that an earlier bucket holds.  The LinkedIn bucket of the corpus is the
    adapter's list, and a result of a later list whose URL is in no earlier
    list is still in its bucket. *)
Theorem X12_aggregator_keeps_adapter_results (w : World)
    (brand platforms timeRange : jsstring) (redditData : RedditData) :
  ∃ bd, searchSerper w brand platforms = returned bd
    ∧ results (linkedin (aggregateResults redditData bd brand timeRange))
      = bd_linkedin bd
    ∧ ∀ p r, r ∈ adapterList bd p →
        (∀ q, earlier q p → url r ∉ map url (adapterList bd q)) →
        r ∈ results (getBucket
              (aggregateResults redditData bd brand timeRange) p).
Proof.
  destruct (searchSerper_lists_NoDup w brand platforms) as (bd & Hbd & Hnd).
  exists bd. split; [exact Hbd |]. unfold aggregateResults. split.
  - change (linkedin ?d) with (getBucket d Linkedin).
    rewrite deduplicateEntries_bucket, getBucket_aggregateResults.
    cbn [bucketOf results seenBefore adapterList].
    apply unseen_fixed; [apply (Hnd Linkedin) |].
    intros r _. apply not_elem_of_empty.
  - intros p r Hr Hfresh.
    rewrite deduplicateEntries_bucket, getBucket_aggregateResults.
    cbn [bucketOf results].
    apply unseen_keeps; [apply Hnd | exact Hr |].
    intros (q & Hlt & Hu)%elem_of_seenBefore.
    rewrite getBucket_aggregateResults in Hu. exact (Hfresh q Hlt Hu).
Qed.

(** ** The parser *)

Section Trim.

Implicit Types (s t : jsstring) (c : N).

Lemma trimStart_head s :
  trimStart s = [] ∨ ∃ c t, trimStart s = c :: t ∧ isSpace c = false.
Proof.
  induction s as [|c s IH]; [now left |]. simpl.
  destruct (isSpace c) eqn:Hc; [exact IH | right; eauto].
Qed.

Lemma trimStart_fixed c t : isSpace c = false → trimStart (c :: t) = c :: t.
Proof. intros Hc. simpl. now rewrite Hc. Qed.

Lemma trimStart_idem s : trimStart (trimStart s) = trimStart s.
Proof.
  destruct (trimStart_head s) as [-> | (c & t & -> & Hc)]; [reflexivity |].
  now apply trimStart_fixed.
Qed.

(** Trimming at the start keeps a last unit that is no white space. *)
Lemma trimStart_snoc t c :
  isSpace c = false → ∃ u, trimStart (t ++ [c]) = u ++ [c].
Proof.
  intros Hc. induction t as [|x t IH]; simpl.
  - rewrite Hc. now exists [].
  - destruct (isSpace x); [exact IH | now exists (x :: t)].
Qed.

Lemma trim_head s :
  trim s = [] ∨ ∃ c t, trim s = c :: t ∧ isSpace c = false.
Proof.
  unfold trim, trimEnd.
  destruct (trimStart_head s) as [-> | (c & t & -> & Hc)]; [now left |].
  right. simpl rev.
  destruct (trimStart_snoc (rev t) c Hc) as (u & ->).
  rewrite rev_app_distr. simpl. eauto.
Qed.

Lemma trim_idem s : trim (trim s) = trim s.
Proof.
  destruct (trim_head s) as [-> | (c & t & Heq & Hc)]; [reflexivity |].
  unfold trim at 1. rewrite Heq, (trimStart_fixed c t Hc), <- Heq.
  unfold trim, trimEnd. rewrite rev_involutive, trimStart_idem. reflexivity.
Qed.

(** The last unit of a trimmed text is no white space either. *)
Lemma trim_last s :
  trim s = [] ∨ ∃ t c, trim s = t ++ [c] ∧ isSpace c = false.
Proof.
  unfold trim, trimEnd.
  destruct (trimStart_head (rev (trimStart s))) as [-> | (c & t & -> & Hc)];
    [now left |].
  right. simpl. eauto.
Qed.

End Trim.

Section ParserMore.

Variable w : World.

Lemma captured_trimmed (m : option jsstring) :
  trim (SocialListeningService.captured m) = SocialListeningService.captured m.
Proof. destruct m; [apply trim_idem | reflexivity]. Qed.

Lemma critical_nonempty (text : jsstring) :
  SocialListeningService.critical text = true → text ≠ [].
Proof. intros H%critical_spec. tauto. Qed.

Lemma truthy_nonempty (s : jsstring) : truthy s = true ↔ s ≠ [].
Proof. destruct s; simpl; split; congruence. Qed.

End ParserMore.

Lemma trimmed_of_fixed (s : jsstring) : trim s = s → trimmed s.
Proof.
  intros H. split; [exact H |]. rewrite <- H.
  split; [apply trim_head | apply trim_last].
Qed.

(** X13: every section field of the result of [parseResponse] is free of
    white space at both ends, whatever the reply: trimming a field again
    changes nothing, and a field that is not empty neither starts nor ends
    with a white-space unit. *)
Theorem X13_parseResponse_fields_trimmed (w : World)
    (responseText : option jsstring) :
  let r := SocialListeningService.parseResponse w responseText in
  trimmed (sentimentSummary r) ∧ trimmed (positiveHighlights r)
  ∧ trimmed (negativeConcerns r) ∧ trimmed (trendingTopics r)
  ∧ trimmed (competitiveInsights r).
Proof.
  intros r. subst r. destruct responseText as [text|].
  - unfold SocialListeningService.parseResponse. cbv zeta.
    cbn [sentimentSummary positiveHighlights negativeConcerns trendingTopics
         competitiveInsights].
    destruct (truthy _ || truthy _ || truthy _ || truthy _ || truthy _);
      repeat split; apply trimmed_of_fixed;
      first [ apply captured_trimmed | vm_compute; reflexivity ].
  - repeat split; apply trimmed_of_fixed; vm_compute; reflexivity.
Qed.

(** X14: a result of [parseResponse] for a reply that is a string is
    flagged critical only when its concerns field holds the trimmed capture
    of the concerns section, which is then not empty and mentions none of
    the three phrases. *)
Theorem X14_flag_comes_with_concerns (w : World) (responseText : jsstring) :
  let r := SocialListeningService.parseResponse w (Some responseText) in
  hasCriticalIssues r = true →
  ∃ group, SocialListeningService.concernsMatch responseText = Some group
    ∧ negativeConcerns r = trim group
    ∧ negativeConcerns r ≠ []
    ∧ ¬ mentions (negativeConcerns r) (js "no critical concerns")
    ∧ ¬ mentions (negativeConcerns r) (js "no significant concerns")
    ∧ ¬ mentions (negativeConcerns r) (js "no critical issues").
Proof.
  intros r. subst r. unfold SocialListeningService.parseResponse. cbv zeta.
  cbn [hasCriticalIssues negativeConcerns].
  destruct (SocialListeningService.concernsMatch responseText) as [group|];
    [| discriminate].
  cbn [SocialListeningService.captured]. intros Hflag.
  pose proof (proj1 (critical_spec _) Hflag) as (Hne & H1 & H2 & H3).
  apply truthy_nonempty in Hne. rewrite Hne, !orb_true_r. cbn [orb].
  apply truthy_nonempty in Hne.
  exists group. repeat split; assumption.
Qed.

(** X14 on the reply with a pricing backlash. *)
Lemma X14_flag_comes_with_concerns_witness :
  ∃ group, SocialListeningService.concernsMatch replyConcern = Some group
    ∧ negativeConcerns
        (SocialListeningService.parseResponse quietWorld (Some replyConcern))
      = trim group.
Proof.
  destruct (X14_flag_comes_with_concerns quietWorld replyConcern
              ltac:(vm_compute; reflexivity)) as (group & H1 & H2 & _).
  exists group. split; assumption.
Defined.

Section RegexMore.

Implicit Types (s p text : jsstring).

Lemma dropPrefix_spec p s rest :
  dropPrefix p s = Some rest ↔ s = p ++ rest.
Proof.
  revert s. induction p as [|a p IH]; intros s; simpl.
  - split; [intros [= ->]; reflexivity | intros ->; reflexivity].
  - destruct s as [|b s]; [split; discriminate |].
    destruct (N.eqb_spec a b) as [->|Hne].
    + rewrite IH. split; [intros ->; reflexivity | intros [= ->]; reflexivity].
    + split; [discriminate | intros [= -> _]; contradiction].
Qed.

Lemma trimStart_split s :
  ∃ spaces, s = spaces ++ trimStart s ∧ forallb isSpace spaces = true.
Proof.
  induction s as [|c s (spaces & IH & Hsp)]; [now exists [] |]. simpl.
  destruct (isSpace c) eqn:Hc.
  - exists (c :: spaces). simpl. rewrite Hc, Hsp. split; [congruence | reflexivity].
  - now exists [].
Qed.

Lemma headerAt_spec emoji header s rest :
  Regex.headerAt emoji header s = Some rest →
  ∃ spaces, s = emoji ++ spaces ++ header ++ rest
            ∧ forallb isSpace spaces = true.
Proof.
  unfold Regex.headerAt, Regex.skipSpaces.
  destruct (dropPrefix emoji s) as [after|] eqn:He; [| discriminate].
  apply dropPrefix_spec in He. intros Hh%dropPrefix_spec.
  destruct (trimStart_split after) as (spaces & Hs & Hsp).
  exists spaces. split; [| exact Hsp]. rewrite He, Hs at 1. now rewrite Hh.
Qed.

Lemma lazyUntil_spec (stops : list jsstring) s :
  ∃ after,
    s = Regex.lazyUntil stops s ++ after
    ∧ (after = [] ∨ ∃ stop, stop ∈ stops ∧ startsWith stop after = true)
    ∧ ∀ i stop, stop ∈ stops → i < length (Regex.lazyUntil stops s) →
        startsWith stop (drop i s) = false.
Proof.
  induction s as [|c s (after & Hs & Hafter & Hno)].
  - exists []. simpl.
    destruct (existsb _ stops); (split; [reflexivity |]);
      (split; [now left |]); intros i stop _ Hi; simpl in Hi; lia.
  - simpl. destruct (existsb (fun stop => startsWith stop (c :: s)) stops)
      eqn:Hex.
    + exists (c :: s). split; [reflexivity |]. split.
      * right. apply existsb_exists in Hex as (stop & Hin & Hst).
        exists stop. split; [now apply list_elem_of_In | exact Hst].
      * intros i stop _ Hi. simpl in Hi. lia.
    + exists after. split; [simpl; now rewrite <- Hs |].
      split; [exact Hafter |].
      intros [|i] stop Hin Hi.
      * simpl. destruct (startsWith stop (c :: s)) eqn:Hst; [| reflexivity].
        assert (existsb (fun stop => startsWith stop (c :: s)) stops = true).
        { apply existsb_exists. exists stop.
          split; [now apply list_elem_of_In | exact Hst]. }
        congruence.
      * simpl in Hi. simpl. apply Hno; [exact Hin | lia].
Qed.

Lemma matchSection_unfold emoji header (stops : list jsstring) text :
  Regex.matchSection emoji header stops text =
  match Regex.headerAt emoji header text with
  | Some rest => Some (Regex.lazyUntil stops rest)
  | None =>
    match text with
    | [] => None
    | _ :: text' => Regex.matchSection emoji header stops text'
    end
  end.
Proof. destruct text; reflexivity. Qed.

Lemma matchSection_spec emoji header (stops : list jsstring) text group :
  Regex.matchSection emoji header stops text = Some group →
  ∃ before rest r,
    text = before ++ rest
    ∧ Regex.headerAt emoji header rest = Some r
    ∧ group = Regex.lazyUntil stops r.
Proof.
  induction text as [|c text IH]; rewrite matchSection_unfold.
  - destruct (Regex.headerAt emoji header []) as [r|] eqn:Hh; [| discriminate].
    intros [= <-]. exists [], [], r. auto.
  - destruct (Regex.headerAt emoji header (c :: text)) as [r|] eqn:Hh.
    + intros [= <-]. exists [], (c :: text), r. auto.
    + intros (before & rest & r & -> & H1 & H2)%IH.
      exists (c :: before), rest, r. auto.
Qed.

End RegexMore.

(** X16: [fullResponse] is the concatenation, in order, of the texts of the
    blocks of type ['text']; blocks of any other type are ignored. *)
Theorem X16_fullResponse_is_text_blocks (content more : list ContentBlock) :
  SocialListeningService.fullResponseOf content
  = concat (map text
      (List.filter (fun block => bool_decide (type block = js "text")) content))
  ∧ SocialListeningService.fullResponseOf (content ++ more)
    = SocialListeningService.fullResponseOf content
      +++ SocialListeningService.fullResponseOf more.
Proof.
  assert (H : ∀ (l : list ContentBlock) (acc : jsstring),
            foldl (fun fullResponse content =>
                     if bool_decide (type content = js "text")
                     then fullResponse +++ text content else fullResponse)
                  acc l
            = acc +++ concat (map text (List.filter (fun block =>
                bool_decide (type block = js "text")) l))).
  { induction l as [|b l IH]; intros acc; simpl.
    - now rewrite app_nil_r.
    - rewrite IH. destruct (bool_decide (type b = js "text")); simpl;
        [now rewrite app_assoc | reflexivity]. }
  unfold SocialListeningService.fullResponseOf. split.
  - apply (H content []).
  - rewrite !H, List.filter_app, map_app, concat_app. reflexivity.
Qed.

Section RoundTrip.

Implicit Types (e h s pre post body rest : jsstring) (stops : list jsstring).

Lemma noStart_app e pre1 pre2 :
  noStart e pre1 → noStart e pre2 → noStart e (pre1 ++ pre2).
Proof.
  intros H1 H2 rest i Hi. rewrite <- app_assoc.
  destruct (Nat.lt_ge_cases i (length pre1)) as [Hlt|Hge].
  - apply H1. exact Hlt.
  - rewrite drop_app_ge by exact Hge. apply H2.
    rewrite length_app in Hi. lia.
Qed.

Lemma noStart_plain e c t pre :
  e = c :: t → marker c = true → plain pre → noStart e pre.
Proof.
  intros -> Hc Hplain rest i Hi.
  destruct (lookup_lt_is_Some_2 pre i Hi) as [x Hx].
  rewrite (drop_S (pre ++ rest) x i) by (now apply lookup_app_l_Some).
  simpl. destruct (N.eqb_spec c x) as [->|Hne]; [| reflexivity].
  unfold plain in Hplain. rewrite forallb_forall in Hplain.
  assert (Hin : In x pre).
  { apply list_elem_of_In. eapply list_elem_of_lookup_2. exact Hx. }
  specialize (Hplain x Hin). rewrite Hc in Hplain. discriminate.
Qed.

Lemma noStart_one e a :
  (∀ rest, dropPrefix e (a :: rest) = None) → noStart e [a].
Proof.
  intros H rest [|i] Hi; [apply H | simpl in Hi; lia].
Qed.

Lemma noStart_two e a b :
  (∀ rest, dropPrefix e (a :: b :: rest) = None) →
  (∀ rest, dropPrefix e (b :: rest) = None) → noStart e [a; b].
Proof.
  intros H1 H2 rest [|[|i]] Hi; [apply H1 | apply H2 | simpl in Hi; lia].
Qed.

Lemma matchSection_skip e h stops pre rest :
  noStart e pre →
  Regex.matchSection e h stops (pre ++ rest)
  = Regex.matchSection e h stops rest.
Proof.
  induction pre as [|c pre IH]; intros Hno; [reflexivity |].
  rewrite matchSection_unfold. unfold Regex.headerAt.
  pose proof (Hno rest 0 ltac:(simpl; lia)) as H0.
  change (drop 0 ((c :: pre) ++ rest)) with ((c :: pre) ++ rest) in H0.
  rewrite H0.
  change ((c :: pre) ++ rest) with (c :: (pre ++ rest)). cbv iota beta.
  apply IH. intros rest' i Hi. apply (Hno rest' (S i)). simpl. lia.
Qed.

Lemma headerAt_here e h rest :
  (∃ c t, h = c :: t ∧ isSpace c = false) →
  Regex.headerAt e h (e ++ [32%N] ++ h ++ rest) = Some rest.
Proof.
  intros (c & t & -> & Hc). unfold Regex.headerAt, Regex.skipSpaces.
  rewrite (proj2 (dropPrefix_spec e _ _) eq_refl).
  change ([32%N] ++ (c :: t) ++ rest) with (32%N :: c :: (t ++ rest)).
  change (trimStart (32%N :: c :: (t ++ rest)))
    with (trimStart (c :: (t ++ rest))).
  rewrite trimStart_fixed by exact Hc.
  apply dropPrefix_spec. reflexivity.
Qed.

Lemma lazyUntil_unfold stops s :
  Regex.lazyUntil stops s =
  if existsb (fun stop => startsWith stop s) stops then []
  else match s with
       | [] => []
       | c :: s' => c :: Regex.lazyUntil stops s'
       end.
Proof. destruct s; reflexivity. Qed.

Lemma lazyUntil_plain stops body post :
  plain body →
  (∀ stop, stop ∈ stops → ∃ c t, stop = c :: t ∧ marker c = true) →
  (post = [] ∨ ∃ stop, stop ∈ stops ∧ startsWith stop post = true) →
  Regex.lazyUntil stops (body ++ post) = body.
Proof.
  intros Hplain Hstops Hpost.
  induction body as [|x body IH]; rewrite lazyUntil_unfold.
  - simpl. destruct (existsb _ stops) eqn:Hex; [reflexivity |].
    destruct Hpost as [-> | (stop & Hin & Hst)]; [reflexivity |].
    assert (existsb (fun stop => startsWith stop post) stops = true).
    { apply existsb_exists. exists stop.
      split; [now apply list_elem_of_In | exact Hst]. }
    congruence.
  - unfold plain in Hplain. simpl in Hplain.
    apply andb_true_iff in Hplain as [Hx Hplain].
    destruct (existsb (fun stop => startsWith stop ((x :: body) ++ post))
                stops) eqn:Hex.
    + apply existsb_exists in Hex as (stop & Hin & Hst).
      destruct (Hstops stop) as (c & t & -> & Hc);
        [now apply list_elem_of_In |].
      simpl in Hst. apply andb_true_iff in Hst as [Hcx%N.eqb_eq _].
      subst x. rewrite Hc in Hx. discriminate.
    + simpl. f_equal. apply IH. exact Hplain.
Qed.

Lemma trimStart_skip pre s :
  forallb isSpace pre = true → trimStart (pre ++ s) = trimStart s.
Proof.
  induction pre as [|c pre IH]; [reflexivity |]. simpl.
  intros [Hc Hpre]%andb_true_iff. rewrite Hc. now apply IH.
Qed.

Lemma forallb_rev (f : N → bool) (l : jsstring) :
  forallb f (rev l) = forallb f l.
Proof.
  induction l as [|x l IH]; [reflexivity |].
  simpl. rewrite forallb_app, IH. simpl. rewrite andb_true_r, andb_comm.
  reflexivity.
Qed.

Lemma trim_padded pre body post :
  forallb isSpace pre = true → forallb isSpace post = true →
  trim body = body → trim (pre ++ body ++ post) = body.
Proof.
  intros Hpre Hpost Hbody.
  destruct (trimmed_of_fixed body Hbody)
    as (_ & [-> | (first & tail & -> & Hfirst)] & Hlast).
  - unfold trim. rewrite trimStart_skip by exact Hpre. simpl.
    rewrite <- (app_nil_r post), trimStart_skip by exact Hpost. reflexivity.
  - destruct Hlast as [Hnil | (mid & last & Heq & Hl)]; [discriminate |].
    unfold trim. rewrite trimStart_skip by exact Hpre.
    change ((first :: tail) ++ post) with (first :: (tail ++ post)).
    rewrite trimStart_fixed by exact Hfirst.
    change (first :: (tail ++ post)) with ((first :: tail) ++ post).
    unfold trimEnd. rewrite rev_app_distr.
    rewrite trimStart_skip by (now rewrite forallb_rev).
    rewrite Heq, rev_app_distr. simpl.
    rewrite Hl. simpl. rewrite rev_involutive. reflexivity.
Qed.

(** The match of one section inside a reply. *)
Lemma matchSection_section e h stops pre body post :
  noStart e pre →
  (∃ c t, h = c :: t ∧ isSpace c = false) →
  plain body →
  (∀ stop, stop ∈ stops → ∃ c t, stop = c :: t ∧ marker c = true) →
  (post = [] ∨ ∃ stop, stop ∈ stops ∧ startsWith stop post = true) →
  Regex.matchSection e h stops
    (pre ++ (e ++ [32%N] ++ h ++ ([10%N] ++ body ++ [10%N; 10%N]) ++ post))
  = Some ([10%N] ++ body ++ [10%N; 10%N]).
Proof.
  intros Hno Hh Hplain Hstops Hpost.
  rewrite matchSection_skip by exact Hno.
  rewrite matchSection_unfold, headerAt_here by exact Hh.
  f_equal. apply lazyUntil_plain; [| exact Hstops | exact Hpost].
  unfold plain in *. simpl. rewrite forallb_app, Hplain. reflexivity.
Qed.

End RoundTrip.

Section RoundTripSections.

Implicit Types (e h body pre post : jsstring).

Lemma space_units : js " " = [32%N].
Proof. vm_compute. reflexivity. Qed.

Lemma barChart_units : barChart = [55357%N; 56522%N].
Proof. vm_compute. reflexivity. Qed.

Lemma checkMark_units : checkMark = [9989%N].
Proof. vm_compute. reflexivity. Qed.

Lemma warningSign_units : warningSign = [9888%N; 65039%N].
Proof. vm_compute. reflexivity. Qed.

Lemma fire_units : fire = [55357%N; 56613%N].
Proof. vm_compute. reflexivity. Qed.

Lemma target_units : target = [55356%N; 57263%N].
Proof. vm_compute. reflexivity. Qed.

Lemma sectionText_app e h body post :
  sectionText e h body ++ post
  = e ++ [32%N] ++ h ++ ([10%N] ++ body ++ [10%N; 10%N]) ++ post.
Proof.
  unfold sectionText. rewrite space_units.
  repeat rewrite <- app_assoc. reflexivity.
Qed.

Lemma sectionText_starts e h body post :
  startsWith e (sectionText e h body ++ post) = true.
Proof. rewrite sectionText_app. apply startsWith_spec. eauto. Qed.

Lemma plain_app (a b : jsstring) : plain (a ++ b) ↔ plain a ∧ plain b.
Proof. unfold plain. rewrite forallb_app. apply andb_true_iff. Qed.

Lemma noStart_section e c t e' h body :
  e = c :: t → marker c = true → noStart e e' → plain h → plain body →
  noStart e (sectionText e' h body).
Proof.
  intros He Hc Hno Hh Hbody. unfold sectionText.
  apply noStart_app; [exact Hno |].
  apply (noStart_plain e c t); [exact He | exact Hc |].
  rewrite space_units.
  apply plain_app. split; [reflexivity |].
  apply plain_app. split; [exact Hh |].
  apply plain_app. split; [reflexivity |].
  apply plain_app. split; [exact Hbody | reflexivity].
Qed.

(** Every stop emoji starts with a marker unit. *)
Lemma stop_marker (stops : list jsstring) :
  stops ⊆ [barChart; checkMark; warningSign; fire; target; lightBulb] →
  ∀ stop, stop ∈ stops → ∃ c t, stop = c :: t ∧ marker c = true.
Proof.
  intros Hsub stop H%Hsub.
  exists (hd 0%N stop), (tl stop).
  repeat (apply elem_of_cons in H as [-> | H]);
    [split; vm_compute; reflexivity .. | inversion H].
Qed.

Lemma truthy_any (b1 b2 b3 b4 b5 : jsstring) :
  b1 ++ b2 ++ b3 ++ b4 ++ b5 ≠ [] →
  truthy b1 || truthy b2 || truthy b3 || truthy b4 || truthy b5 = true.
Proof.
  destruct b1; [| reflexivity]. destruct b2; [| reflexivity].
  destruct b3; [| reflexivity]. destruct b4; [| reflexivity].
  destruct b5; [| reflexivity]. intros H. now contradiction H.
Qed.

(** A header title starts with a star and holds no marker. *)
Lemma header_shape h :
  h ∈ [js "**SENTIMENT BREAKDOWN**"; js "**POSITIVE HIGHLIGHTS**";
       js "**CRITICAL CONCERNS**"; js "**TRENDING TOPICS**";
       js "**COMPETITIVE INSIGHTS**"] →
  (∃ c t, h = c :: t ∧ isSpace c = false) ∧ plain h.
Proof.
  intros H. split.
  - exists (hd 0%N h), (tl h).
    repeat (apply elem_of_cons in H as [-> | H]);
      [split; vm_compute; reflexivity .. | inversion H].
  - repeat (apply elem_of_cons in H as [-> | H]);
      [vm_compute; reflexivity .. | inversion H].
Qed.

End RoundTripSections.

Ltac in_list :=
  first [apply list_elem_of_here | apply list_elem_of_further; in_list].

Section RoundTripMain.

Implicit Types (e h body pre post : jsstring).

Lemma emoji_noStart :
  noStart checkMark barChart
  ∧ noStart warningSign barChart ∧ noStart warningSign checkMark
  ∧ noStart fire barChart ∧ noStart fire checkMark
  ∧ noStart fire warningSign
  ∧ noStart target barChart ∧ noStart target checkMark
  ∧ noStart target warningSign ∧ noStart target fire.
Proof.
  rewrite barChart_units, checkMark_units, warningSign_units, fire_units,
    target_units.
  repeat split;
    first [apply noStart_two | apply noStart_one]; intros rest; reflexivity.
Qed.

Lemma emoji_cons :
  (checkMark = 9989%N :: [] ∧ marker 9989 = true)
  ∧ (warningSign = 9888%N :: [65039%N] ∧ marker 9888 = true)
  ∧ (fire = 55357%N :: [56613%N] ∧ marker 55357 = true)
  ∧ (target = 55356%N :: [57263%N] ∧ marker 55356 = true).
Proof.
  rewrite checkMark_units, warningSign_units, fire_units, target_units.
  repeat split.
Qed.

Lemma match_in_reply e h (stops : list jsstring) pre body post :
  h ∈ [js "**SENTIMENT BREAKDOWN**"; js "**POSITIVE HIGHLIGHTS**";
       js "**CRITICAL CONCERNS**"; js "**TRENDING TOPICS**";
       js "**COMPETITIVE INSIGHTS**"] →
  stops ⊆ [barChart; checkMark; warningSign; fire; target; lightBulb] →
  noStart e pre → plain body →
  (post = [] ∨ ∃ stop, stop ∈ stops ∧ startsWith stop post = true) →
  Regex.matchSection e h stops (pre ++ sectionText e h body ++ post)
  = Some ([10%N] ++ body ++ [10%N; 10%N]).
Proof.
  intros Hh Hstops Hno Hbody Hpost. rewrite sectionText_app.
  apply matchSection_section;
    [exact Hno | apply header_shape, Hh | exact Hbody
    | apply stop_marker, Hstops | exact Hpost].
Qed.

End RoundTripMain.

(** X17: a reply that holds the five sections in the order of the prompts,
    each as emoji, blank, title, line break, body and empty line, is read
    back exactly: when no body holds a unit that starts a header emoji,
    every body is free of white space at its ends and at least one body is
    not empty, [parseResponse] returns the five bodies as its five fields,
    the flag computed from the concerns body, and the reply itself as
    [fullReport].  (With five empty bodies the two fallback messages are
    written instead.) *)
Theorem X17_parseResponse_round_trip (w : World) (b1 b2 b3 b4 b5 : jsstring)
    (Hplain1 : plain b1) (Hplain2 : plain b2) (Hplain3 : plain b3)
    (Hplain4 : plain b4) (Hplain5 : plain b5)
    (Htrim1 : trim b1 = b1) (Htrim2 : trim b2 = b2) (Htrim3 : trim b3 = b3)
    (Htrim4 : trim b4 = b4) (Htrim5 : trim b5 = b5)
    (Hsome : b1 ++ b2 ++ b3 ++ b4 ++ b5 ≠ []) :
  SocialListeningService.parseResponse w
    (Some (wellFormedReply b1 b2 b3 b4 b5))
  = {| sentimentSummary := b1;
       positiveHighlights := b2;
       negativeConcerns := b3;
       trendingTopics := b4;
       competitiveInsights := b5;
       hasCriticalIssues := SocialListeningService.critical b3;
       fullReport := wellFormedReply b1 b2 b3 b4 b5;
       timestamp := now w;
       r_dataSource := None |}.
Proof.
  destruct emoji_noStart
    as (N21 & N31 & N32 & N41 & N42 & N43 & N51 & N52 & N53 & N54).
  destruct emoji_cons as ((E2 & K2) & (E3 & K3) & (E4 & K4) & (E5 & K5)).
  assert (Hh1 : plain (js "**SENTIMENT BREAKDOWN**"))
    by (vm_compute; reflexivity).
  assert (Hh2 : plain (js "**POSITIVE HIGHLIGHTS**"))
    by (vm_compute; reflexivity).
  assert (Hh3 : plain (js "**CRITICAL CONCERNS**"))
    by (vm_compute; reflexivity).
  assert (Hh4 : plain (js "**TRENDING TOPICS**"))
    by (vm_compute; reflexivity).
  pose proof (noStart_section _ _ _ _ _ b1 E2 K2 N21 Hh1 Hplain1) as P21.
  pose proof (noStart_section _ _ _ _ _ b1 E3 K3 N31 Hh1 Hplain1) as P31.
  pose proof (noStart_section _ _ _ _ _ b2 E3 K3 N32 Hh2 Hplain2) as P32.
  pose proof (noStart_section _ _ _ _ _ b1 E4 K4 N41 Hh1 Hplain1) as P41.
  pose proof (noStart_section _ _ _ _ _ b2 E4 K4 N42 Hh2 Hplain2) as P42.
  pose proof (noStart_section _ _ _ _ _ b3 E4 K4 N43 Hh3 Hplain3) as P43.
  pose proof (noStart_section _ _ _ _ _ b1 E5 K5 N51 Hh1 Hplain1) as P51.
  pose proof (noStart_section _ _ _ _ _ b2 E5 K5 N52 Hh2 Hplain2) as P52.
  pose proof (noStart_section _ _ _ _ _ b3 E5 K5 N53 Hh3 Hplain3) as P53.
  pose proof (noStart_section _ _ _ _ _ b4 E5 K5 N54 Hh4 Hplain4) as P54.
  assert (M1 : SocialListeningService.sentimentMatch
                 (wellFormedReply b1 b2 b3 b4 b5)
               = Some ([10%N] ++ b1 ++ [10%N; 10%N])).
  { unfold SocialListeningService.sentimentMatch, wellFormedReply.
    apply (match_in_reply barChart _ _ [] b1).
    - apply list_elem_of_here.
    - intros x Hx. repeat (apply elem_of_cons in Hx as [-> | Hx]);
        [in_list .. | inversion Hx].
    - intros rest i Hi. simpl in Hi. lia.
    - exact Hplain1.
    - right. exists checkMark. split; [| apply sectionText_starts].
      apply list_elem_of_here. }
  assert (M2 : SocialListeningService.positiveMatch
                 (wellFormedReply b1 b2 b3 b4 b5)
               = Some ([10%N] ++ b2 ++ [10%N; 10%N])).
  { unfold SocialListeningService.positiveMatch, wellFormedReply.
    apply (match_in_reply checkMark _ _ _ b2).
    - apply list_elem_of_further, list_elem_of_here.
    - intros x Hx. repeat (apply elem_of_cons in Hx as [-> | Hx]);
        [in_list .. | inversion Hx].
    - exact P21.
    - exact Hplain2.
    - right. exists warningSign. split; [| apply sectionText_starts].
      apply list_elem_of_here. }
  assert (M3 : SocialListeningService.concernsMatch
                 (wellFormedReply b1 b2 b3 b4 b5)
               = Some ([10%N] ++ b3 ++ [10%N; 10%N])).
  { unfold SocialListeningService.concernsMatch, wellFormedReply.
    rewrite (app_assoc (sectionText barChart _ b1)).
    apply (match_in_reply warningSign _ _ _ b3).
    - do 2 apply list_elem_of_further. apply list_elem_of_here.
    - intros x Hx. repeat (apply elem_of_cons in Hx as [-> | Hx]);
        [in_list .. | inversion Hx].
    - apply noStart_app; [exact P31 | exact P32].
    - exact Hplain3.
    - right. exists fire. split; [| apply sectionText_starts].
      apply list_elem_of_here. }
  assert (M4 : SocialListeningService.trendingMatch
                 (wellFormedReply b1 b2 b3 b4 b5)
               = Some ([10%N] ++ b4 ++ [10%N; 10%N])).
  { unfold SocialListeningService.trendingMatch, wellFormedReply.
    rewrite (app_assoc (sectionText checkMark _ b2)).
    rewrite (app_assoc (sectionText barChart _ b1)).
    apply (match_in_reply fire _ _ _ b4).
    - do 3 apply list_elem_of_further. apply list_elem_of_here.
    - intros x Hx. repeat (apply elem_of_cons in Hx as [-> | Hx]);
        [in_list .. | inversion Hx].
    - apply noStart_app; [exact P41 |].
      apply noStart_app; [exact P42 | exact P43].
    - exact Hplain4.
    - right. exists target. split; [apply list_elem_of_here |].
      rewrite <- (app_nil_r (sectionText target _ b5)).
      apply sectionText_starts. }
  assert (M5 : SocialListeningService.competitiveMatch
                 (wellFormedReply b1 b2 b3 b4 b5)
               = Some ([10%N] ++ b5 ++ [10%N; 10%N])).
  { unfold SocialListeningService.competitiveMatch, wellFormedReply.
    rewrite <- (app_nil_r (sectionText target _ b5)).
    rewrite (app_assoc (sectionText warningSign _ b3)).
    rewrite (app_assoc (sectionText checkMark _ b2)).
    rewrite (app_assoc (sectionText barChart _ b1)).
    apply (match_in_reply target _ _ _ b5).
    - do 4 apply list_elem_of_further. apply list_elem_of_here.
    - intros x Hx. repeat (apply elem_of_cons in Hx as [-> | Hx]);
        [in_list .. | inversion Hx].
    - apply noStart_app; [exact P51 |].
      apply noStart_app; [exact P52 |].
      apply noStart_app; [exact P53 | exact P54].
    - exact Hplain5.
    - now left. }
  unfold SocialListeningService.parseResponse. cbv zeta.
  rewrite M1, M2, M3, M4, M5. cbn [SocialListeningService.captured].
  rewrite (trim_padded [10%N] b1), (trim_padded [10%N] b2),
    (trim_padded [10%N] b3), (trim_padded [10%N] b4),
    (trim_padded [10%N] b5) by (assumption || reflexivity).
  rewrite (truthy_any b1 b2 b3 b4 b5 Hsome). reflexivity.
Qed.

(** X17 on a reply with five sample bodies. *)
Lemma X17_parseResponse_round_trip_witness :
  negativeConcerns
    (SocialListeningService.parseResponse quietWorld
       (Some (wellFormedReply sampleSentiment samplePositive sampleConcerns
                sampleTrending sampleCompetitive)))
  = sampleConcerns.
Proof.
  rewrite (X17_parseResponse_round_trip quietWorld sampleSentiment
             samplePositive sampleConcerns sampleTrending sampleCompetitive);
    [reflexivity | vm_compute; first [reflexivity | discriminate] ..].
Defined.

(** ** The orchestrator, end to end *)

Section OrchestratorMore.

Variable w : World.

Lemma ends_with_more (x y reply : jsstring) :
  (∃ banner, y = banner +++ reply) → ∃ banner, x +++ y = banner +++ reply.
Proof. intros (banner & ->). exists (x +++ banner). apply app_assoc. Qed.

Lemma analyzeWithRealData_report (self : SocialListeningService.t)
    (brand competitors timeRange platforms : jsstring)
    (a : AggregatedData) (content : list ContentBlock) :
  messagesCreate w (EnhancedPrompt brand competitors timeRange platforms a)
    = returned content →
  ∃ r,
    SocialListeningService.analyzeWithRealData w self brand competitors
      timeRange platforms a = returned r
    ∧ sameSections r (SocialListeningService.parseResponse w
        (Some (SocialListeningService.fullResponseOf content)))
    ∧ r_dataSource r = None
    ∧ ∃ banner,
        fullReport r = js "# Social Listening Report (Real-Time Data)"
          +++ banner +++ SocialListeningService.fullResponseOf content.
Proof.
  intros Hgen. unfold SocialListeningService.analyzeWithRealData.
  rewrite Hgen. cbn [bind returned].
  eexists. split; [reflexivity |].
  split; [repeat split |]. split; [reflexivity |].
  cbn [setFullReport fullReport].
  enough (H : ∃ banner : jsstring,
            ∀ title : jsstring, title +++ [10%N; 10%N]
              +++ js "**Data Source:** "
              +++ (if bool_decide (dataSource a = js "real-time")
                   then js "✅ Real-time API data"
                   else js "⚠️ Partial API data")
              +++ [10%N]
              +++ js "**Sources:** "
              +++ showNat (totalSources (aggregateStats a))
              +++ js " mentions across "
              +++ join (js ", ") (activePlatforms a) +++ [10%N]
              +++ js "**Brand:** " +++ brand +++ [10%N]
              +++ js "**Time Range:** " +++ timeRange +++ [10%N]
              +++ js "**Generated:** " +++ now w +++ [10%N; 10%N]
              +++ js "---" +++ [10%N; 10%N]
              +++ SocialListeningService.fullResponseOf content
            = title +++ banner
              +++ SocialListeningService.fullResponseOf content).
  { destruct H as (banner & H). exists banner. apply H. }
  eexists. intros title. f_equal.
  repeat (rewrite (app_assoc _ _ (SocialListeningService.fullResponseOf content))).
  reflexivity.
Qed.

Lemma analyzeWithClaudeKnowledge_report (self : SocialListeningService.t)
    (brand competitors timeRange platforms : jsstring)
    (content : list ContentBlock) :
  messagesCreate w (SocialListeningPrompt brand competitors timeRange
                      platforms) = returned content →
  ∃ r,
    SocialListeningService.analyzeWithClaudeKnowledge w self brand
      competitors timeRange platforms = returned r
    ∧ sameSections r (SocialListeningService.parseResponse w
        (Some (SocialListeningService.fullResponseOf content)))
    ∧ r_dataSource r = None
    ∧ ∃ banner,
        fullReport r = js "# Social Listening Report (Training Data Fallback)"
          +++ banner +++ SocialListeningService.fullResponseOf content.
Proof.
  intros Hgen. unfold SocialListeningService.analyzeWithClaudeKnowledge.
  rewrite Hgen. cbn [bind returned].
  eexists. split; [reflexivity |].
  split; [repeat split |]. split; [reflexivity |].
  cbn [setFullReport fullReport].
  enough (H : ∃ banner : jsstring,
            ∀ title : jsstring, title +++ [10%N; 10%N]
              +++ js "**Data Source:** ⚠️ Using Claude training data (API data unavailable)"
              +++ [10%N]
              +++ js "**Brand:** " +++ brand +++ [10%N]
              +++ js "**Time Range:** " +++ timeRange +++ [10%N]
              +++ js "**Generated:** " +++ now w +++ [10%N; 10%N]
              +++ js "---" +++ [10%N; 10%N]
              +++ SocialListeningService.fullResponseOf content
            = title +++ banner
              +++ SocialListeningService.fullResponseOf content).
  { destruct H as (banner & H). exists banner. apply H. }
  eexists. intros title. f_equal.
  repeat (rewrite (app_assoc _ _ (SocialListeningService.fullResponseOf content))).
  reflexivity.
Qed.

Lemma sameSections_setDataSource (r parsed : AnalysisResult)
    (source : jsstring) :
  sameSections r parsed → sameSections (setDataSource r source) parsed.
Proof. intros H. exact H. Qed.

End OrchestratorMore.

(* ===================================================================== *)
(** ** What a fault of one search leaves of the others                    *)
(* ===================================================================== *)

Section Contributions.

Variable w : World.










End Contributions.

Section Answers.

Variable w : World.



End Answers.




(** ** The orchestrator and its faults *)

(** C3, as stated, fails twice: without the API key the exported entry
    point throws to its caller, and the result built for a caught exception
    has two content fields that are not empty. *)
Lemma C3_raises_and_fills_fields :
  analyzeSocialListening quietWorld (js "Acme") [] (js "7 days") (js "all")
    = thrown (Error (js "ANTHROPIC_API_KEY environment variable is not set"))
  ∧ ∃ r, analyzeSocialListening refusingWorld (js "Acme") [] (js "7 days")
           (js "all") = returned r
         ∧ hasCriticalIssues r = true
         ∧ sentimentSummary r ≠ []
         ∧ negativeConcerns r ≠ [].
Proof.
  split; [reflexivity |].
  eexists. split; [vm_compute; reflexivity |].
  repeat split; discriminate.
Qed.

(** C3, amended: [analyzeBrandSentiment] returns for every input.  Both
    adapters return, and the generation call is made for the prompt that the
    corpus selects.  An exception of that call is caught and turned into the
    error result: [hasCriticalIssues] true, data source ['error'], the
    highlights, topics and insights empty, the sentiment and concerns fields
    holding fixed error messages, and a banner with the message of the
    exception as [fullReport].  Otherwise the result is the parsed reply:
    its five sections, its flag and its time stamp are those that
    [parseResponse] reads from the text of the reply, its data source is
    that of the corpus, which is never ['error'], and its report is the
    title of the path taken, a banner and the reply.  The exported
    [analyzeSocialListening] throws exactly when the API key is missing or
    empty, or the client cannot be built, and is [analyzeBrandSentiment]
    otherwise. *)
Theorem C3_exceptions_become_error_result (w : World)
    (brand competitors timeRange platforms : jsstring) :
  (∀ self, ∃ rd bd,
     searchReddit w brand timeRange = returned rd
     ∧ searchSerper w brand platforms = returned bd
     ∧ let a := aggregateResults rd bd brand timeRange in
       dataSource a ≠ js "error"
       ∧ match messagesCreate w
                 (chosenPrompt brand competitors timeRange platforms a) with
         | inl e =>
           SocialListeningService.analyzeBrandSentiment w self brand
             competitors timeRange platforms
           = returned (SocialListeningService.errorResult w e)
         | inr content =>
           ∃ r banner,
             SocialListeningService.analyzeBrandSentiment w self brand
               competitors timeRange platforms = returned r
             ∧ sameSections r (SocialListeningService.parseResponse w
                 (Some (SocialListeningService.fullResponseOf content)))
             ∧ r_dataSource r = Some (dataSource a)
             ∧ fullReport r = reportTitle a +++ banner
                 +++ SocialListeningService.fullResponseOf content
         end)
  ∧ (∀ e, let r := SocialListeningService.errorResult w e in
       hasCriticalIssues r = true
       ∧ r_dataSource r = Some (js "error")
       ∧ positiveHighlights r = []
       ∧ trendingTopics r = []
       ∧ competitiveInsights r = []
       ∧ sentimentSummary r =
         js "Error: Unable to complete social listening analysis. Please check API credentials and try again."
       ∧ negativeConcerns r = js "Analysis error occurred."
       ∧ fullReport r =
         js "# Social Listening Analysis Error" +++ [10%N; 10%N]
         +++ js "**Error:** " +++ message e +++ [10%N; 10%N]
         +++ js "**Time:** " +++ now w)
  ∧ (raises (analyzeSocialListening w brand competitors timeRange platforms)
       = true ↔
     falsy (env w (js "ANTHROPIC_API_KEY")) = true
     ∨ raises (anthropic w (orElse (env w (js "ANTHROPIC_API_KEY")) []))
       = true)
  ∧ (∀ client,
       falsy (env w (js "ANTHROPIC_API_KEY")) = false →
       anthropic w (orElse (env w (js "ANTHROPIC_API_KEY")) [])
       = returned client →
       analyzeSocialListening w brand competitors timeRange platforms
       = SocialListeningService.analyzeBrandSentiment w
           {| SocialListeningService.client := client |}
           brand competitors timeRange platforms).
Proof.
  split; [| split; [| split]].
  - intros self.
    destruct (searchReddit_returns w brand timeRange) as (rd & Hrd & _).
    destruct (searchSerper_returns w brand platforms) as (bd & Hbd & _).
    exists rd, bd. split; [exact Hrd |]. split; [exact Hbd |].
    intros a. split; [apply dataSource_aggregateResults |].
    unfold SocialListeningService.analyzeBrandSentiment.
    unfold searchBing. rewrite Hrd, Hbd. cbn [bind returned]. fold a.
    unfold chosenPrompt, reportTitle.
    destruct (0 <? totalSources (aggregateStats a)).
    + destruct (messagesCreate w (EnhancedPrompt _ _ _ _ _))
        as [e|content] eqn:Hgen.
      * unfold SocialListeningService.analyzeWithRealData. rewrite Hgen.
        reflexivity.
      * destruct (analyzeWithRealData_report w self brand competitors
                    timeRange platforms a content Hgen)
          as (r & -> & Hsame & _ & banner & Hreport).
        cbn [bind tryCatch returned]. eexists. exists banner.
        split; [reflexivity |]. split; [exact Hsame |].
        split; [reflexivity | exact Hreport].
    + destruct (messagesCreate w (SocialListeningPrompt _ _ _ _))
        as [e|content] eqn:Hgen.
      * unfold SocialListeningService.analyzeWithClaudeKnowledge.
        rewrite Hgen. reflexivity.
      * destruct (analyzeWithClaudeKnowledge_report w self brand competitors
                    timeRange platforms content Hgen)
          as (r & -> & Hsame & _ & banner & Hreport).
        cbn [bind tryCatch returned]. eexists. exists banner.
        split; [reflexivity |]. split; [exact Hsame |].
        split; [reflexivity | exact Hreport].
  - intros e r. subst r. repeat split.
  - unfold analyzeSocialListening.
    destruct (falsy (env w (js "ANTHROPIC_API_KEY"))) eqn:Hkey.
    + simpl. split; [now left | reflexivity].
    + unfold SocialListeningService.constructor. rewrite Hkey.
      destruct (anthropic w _) as [e|client]; simpl.
      * split; [now right | reflexivity].
      * destruct (analyzeBrandSentiment_outcome w
                    {| SocialListeningService.client := client |}
                    brand competitors timeRange platforms) as (r & -> & _).
        simpl. split; [discriminate | intros [H|H]; discriminate].
  - intros client Hkey Hclient. unfold analyzeSocialListening.
    rewrite Hkey. unfold SocialListeningService.constructor.
    rewrite Hkey, Hclient. reflexivity.
Qed.

(** The amended C3 where the generation call is refused: the entry point
    returns the error result. *)
Lemma C3_exceptions_become_error_result_witness :
  ∃ r, analyzeSocialListening refusingWorld (js "Acme") [] (js "7 days")
         (js "all") = returned r
       ∧ hasCriticalIssues r = true
       ∧ r_dataSource r = Some (js "error").
Proof.
  exists (SocialListeningService.errorResult refusingWorld
            (Error (js "401 invalid x-api-key"))).
  split; [vm_compute; reflexivity |].
  destruct (proj1 (proj2 (C3_exceptions_become_error_result refusingWorld
              (js "Acme") [] (js "7 days") (js "all")))
              (Error (js "401 invalid x-api-key"))) as (H1 & H2 & _).
  split; assumption.
Defined.

(** X18: the result of [analyzeBrandSentiment] is decided by the answer of
    the generation service to one prompt: the enhanced prompt when the
    aggregated corpus holds a record and the knowledge prompt when it holds
    none.  An exception for that prompt gives the error result.  A reply
    gives the sections parsed from the reply, the data source of the
    corpus, and a report made of the title of the path taken, a banner and
    the reply unchanged. *)
Theorem X18_analysis_follows_the_corpus (w : World)
    (self : SocialListeningService.t)
    (brand competitors timeRange platforms : jsstring) :
  ∃ rd bd,
    searchReddit w brand timeRange = returned rd
    ∧ searchSerper w brand platforms = returned bd
    ∧ let a := aggregateResults rd bd brand timeRange in
      match messagesCreate w
              (chosenPrompt brand competitors timeRange platforms a) with
      | inl e =>
        SocialListeningService.analyzeBrandSentiment w self brand competitors
          timeRange platforms
        = returned (SocialListeningService.errorResult w e)
      | inr content =>
        ∃ r banner,
          SocialListeningService.analyzeBrandSentiment w self brand
            competitors timeRange platforms = returned r
          ∧ sameSections r (SocialListeningService.parseResponse w
              (Some (SocialListeningService.fullResponseOf content)))
          ∧ r_dataSource r = Some (dataSource a)
          ∧ fullReport r = reportTitle a +++ banner
              +++ SocialListeningService.fullResponseOf content
      end.
Proof.
  destruct (searchReddit_returns w brand timeRange) as (rd & Hrd & _).
  destruct (searchSerper_returns w brand platforms) as (bd & Hbd & _).
  exists rd, bd. split; [exact Hrd |]. split; [exact Hbd |].
  intros a. unfold SocialListeningService.analyzeBrandSentiment.
  unfold searchBing. rewrite Hrd, Hbd. cbn [bind returned]. fold a.
  unfold chosenPrompt, reportTitle.
  destruct (0 <? totalSources (aggregateStats a)).
  - destruct (messagesCreate w (EnhancedPrompt _ _ _ _ _))
      as [e|content] eqn:Hgen.
    + unfold SocialListeningService.analyzeWithRealData. rewrite Hgen.
      reflexivity.
    + destruct (analyzeWithRealData_report w self brand competitors
                  timeRange platforms a content Hgen)
        as (r & -> & Hsame & _ & banner & Hreport).
      cbn [bind tryCatch returned]. eexists. exists banner.
      split; [reflexivity |]. split; [exact Hsame |].
      split; [reflexivity | exact Hreport].
  - destruct (messagesCreate w (SocialListeningPrompt _ _ _ _))
      as [e|content] eqn:Hgen.
    + unfold SocialListeningService.analyzeWithClaudeKnowledge. rewrite Hgen.
      reflexivity.
    + destruct (analyzeWithClaudeKnowledge_report w self brand competitors
                  timeRange platforms content Hgen)
        as (r & -> & Hsame & _ & banner & Hreport).
      cbn [bind tryCatch returned]. eexists. exists banner.
      split; [reflexivity |]. split; [exact Hsame |].
      split; [reflexivity | exact Hreport].
Qed.

(** X19: for a corpus built from the result of the web adapter, the status
    ['fallback'] and an empty corpus go together: [dataSource] is
    ['fallback'] exactly when [totalSources] is 0, so the knowledge prompt
    is used exactly for the status ['fallback']. *)
Theorem X19_fallback_status_iff_empty_corpus (w : World)
    (brand platforms timeRange : jsstring) (redditData : RedditData) :
  ∃ bd, searchSerper w brand platforms = returned bd
    ∧ let a := aggregateResults redditData bd brand timeRange in
      (dataSource a = js "fallback" ↔ totalSources (aggregateStats a) = 0)
      ∧ (totalSources (aggregateStats a) = 0 ↔
         ∀ competitors,
           chosenPrompt brand competitors timeRange platforms a
           = SocialListeningPrompt brand competitors timeRange platforms).
Proof.
  assert (Hbd : ∃ bd, searchSerper w brand platforms = returned bd
            ∧ bd_totalResults bd
              = length (bd_linkedin bd) + length (bd_twitter bd)
                + length (bd_reviews bd) + length (bd_blogs bd)).
  { destruct (falsy (env w (js "SERPER_API_KEY"))) eqn:Hkey.
    - unfold searchSerper. rewrite Hkey. eexists. split; reflexivity.
    - destruct (searchSerper_with_key w brand platforms Hkey)
        as (l & t & r & b & -> & _). eexists. split; reflexivity. }
  destruct Hbd as (bd & Hbd & Htotal). exists bd. split; [exact Hbd |].
  intros a. split.
  - pose proof (X2_zero := dedup_total_zero
      (DataAggregator.aggregateResults redditData bd brand timeRange)).
    fold (aggregateResults redditData bd brand timeRange) in X2_zero.
    fold a in X2_zero. rewrite X2_zero.
    cbn [DataAggregator.aggregateResults reddit linkedin twitter reviews
         blogs totalMentions results].
    assert (Hsrc : dataSource a = DataAggregator.determineDataSource
               {| posts := rd_posts redditData;
                  totalMentions := length (rd_posts redditData);
                  sentiment := rd_sentiment redditData;
                  formattedText := rd_formattedText redditData |} bd).
    { subst a. unfold aggregateResults. rewrite deduplicateEntries_unfold.
      reflexivity. }
    rewrite Hsrc.
    match goal with
    | |- context [DataAggregator.determineDataSource ?r ?b] =>
      destruct (determineDataSource_cases r b) as (_ & _ & ->)
    end.
    cbn [totalMentions]. rewrite Htotal, <- !length_zero_iff_nil. lia.
  - unfold chosenPrompt.
    destruct (Nat.ltb_spec 0 (totalSources (aggregateStats a))) as [Hpos|Hz].
    + split; [lia |]. intros H. specialize (H []). discriminate H.
    + split; [reflexivity | lia].
Qed.


(* ===================================================================== *)
(** ** The workflow step                                                  *)
(* ===================================================================== *)

Section Handlers.

Variables (w : World) (s : Slack).

Lemma tryT_completeError (id text : jsstring) (h : Exception → traced unit) :
  fst (tryT (call (CompleteError id text) (completeError s id text)) h) =
  CompleteError id text ::
  match completeError s id text with
  | inr _ => []
  | inl e => fst (h e)
  end.
Proof.
  unfold tryT, call.
  destruct (completeError s id text) as [e|u]; [| reflexivity].
  destruct (h e) as [more r]. reflexivity.
Qed.

Lemma tryT_completeSuccess (id : jsstring) (outputs : Outputs)
    (h : Exception → traced unit) :
  fst (tryT (call (CompleteSuccess id outputs) (completeSuccess s id outputs))
         h) =
  CompleteSuccess id outputs ::
  match completeSuccess s id outputs with
  | inr _ => []
  | inl e => fst (h e)
  end.
Proof.
  unfold tryT, call.
  destruct (completeSuccess s id outputs) as [e|u]; [| reflexivity].
  destruct (h e) as [more r]. reflexivity.
Qed.

Lemma catch_calls (id text : jsstring) :
  fst (tryT (call (CompleteError id text) (completeError s id text))
            (fun _ : Exception => quiet (returned tt))) =
  [CompleteError id text].
Proof.
  rewrite tryT_completeError.
  destruct (completeError s id text); reflexivity.
Qed.

(** The calls of the handler for an event of this step, by the three ways
    its [try] block can go. *)
Lemma functionExecuted_cases (event : FunctionEvent) :
  callback_id event = js "social_listening_report" →
  let id := function_execution_id event in
  let given := inputsOf event in
  App.functionExecuted w s event =
  match brand_or_product given with
  | Some (c :: b) =>
    match App.analyze w (c :: b) given with
    | inl e => [CompleteError id (failed e)]
    | inr analysis =>
      let first :=
        CompleteSuccess id (App.formatOutputs w s (c :: b) given analysis) in
      first :: afterFirst s id first
    end
  | _ =>
    let first :=
      CompleteError id
        (js "Brand/Product Name parameter is required but was not provided") in
    first :: afterFirst s id first
  end.
Proof.
  intros Hc id given.
  unfold App.functionExecuted.
  rewrite (bool_decide_eq_true_2 _ Hc).
  fold id. fold (inputsOf event). fold given.
  unfold afterFirst, failed. cbv zeta. cbn [answer].
  destruct (brand_or_product given) as [[|c b]|].
  - cbn [truthy negb]. rewrite tryT_completeError.
    destruct (completeError s id _) as [e|u]; [| reflexivity].
    rewrite catch_calls. reflexivity.
  - cbn [truthy negb].
    unfold bindT at 1, quiet at 1.
    destruct (App.analyze w (c :: b) given) as [e|analysis].
    + unfold tryT at 1.
      rewrite <- (catch_calls id (js "Social listening analysis failed: "
                                  +++ message e)).
      destruct (tryT _ _) as [more r]. reflexivity.
    + set (outputs := App.formatOutputs w s (c :: b) given analysis).
      unfold call at 1. cbn [app].
      change ([CompleteSuccess id outputs], completeSuccess s id outputs)
        with (call (CompleteSuccess id outputs)
                (completeSuccess s id outputs)).
      rewrite tryT_completeSuccess.
      destruct (completeSuccess s id outputs) as [e|u]; [| reflexivity].
      rewrite catch_calls. reflexivity.
  - rewrite tryT_completeError.
    destruct (completeError s id _) as [e|u]; [| reflexivity].
    rewrite catch_calls. reflexivity.
Qed.

End Handlers.

Section HandlerProperties.

Variables (w : World) (s : Slack).

Lemma analyze_without_key (brand : jsstring) (given : Inputs) :
  falsy (env w (js "ANTHROPIC_API_KEY")) = true →
  App.analyze w brand given =
  thrown (Error (js "ANTHROPIC_API_KEY environment variable is not set")).
Proof.
  intros Hkey. unfold App.analyze, analyzeSocialListening. cbv zeta.
  rewrite Hkey. reflexivity.
Qed.

Lemma analyze_with_key (brand key : jsstring) (given : Inputs) :
  env w (js "ANTHROPIC_API_KEY") = Some key →
  truthy key = true →
  anthropic w key = returned tt →
  ∃ r, App.analyze w brand given = returned r
     ∧ ((∃ prompt e, messagesCreate w prompt = thrown e
                     ∧ r = SocialListeningService.errorResult w e)
        ∨ (∃ prompt content source,
             messagesCreate w prompt = returned content
             ∧ r_dataSource r = Some source ∧ source ≠ js "error"
             ∧ hasCriticalIssues r =
               hasCriticalIssues (SocialListeningService.parseResponse w
                 (Some (SocialListeningService.fullResponseOf content))))).
Proof.
  intros Hkey Htruthy Hclient.
  unfold App.analyze, analyzeSocialListening. cbv zeta.
  rewrite Hkey. cbn [falsy]. rewrite Htruthy. cbn [negb].
  unfold SocialListeningService.constructor.
  cbn [falsy]. rewrite Htruthy. cbn [negb].
  destruct key as [|c key]; [discriminate |].
  cbn [orElse]. rewrite Hclient. cbn [bind].
  apply analyzeBrandSentiment_outcome.
Qed.

End HandlerProperties.

Section HandlerTheorems.

Variables (w : World) (s : Slack).

(** X20.  When the brand is missing — no inputs at all, no
    [brand_or_product], or an empty one — the handler of [function_executed]
    runs no analysis: whatever the world, it reports the fixed error through
    [completeError], and that is its only call unless Slack rejects it, in
    which case the rejection is reported by a second [completeError]. *)
Theorem X20_missing_brand_is_reported (event : FunctionEvent) :
  callback_id event = js "social_listening_report" →
  falsy (brand_or_product (inputsOf event)) = true →
  let id := function_execution_id event in
  let first :=
    CompleteError id
      (js "Brand/Product Name parameter is required but was not provided") in
  App.functionExecuted w s event =
  first :: match completeError s id
                   (js "Brand/Product Name parameter is required but was not provided")
           with
           | inr _ => []
           | inl e => [CompleteError id (failed e)]
           end.
Proof.
  intros Hc Hb id first.
  rewrite (functionExecuted_cases w s event Hc).
  fold id. cbv zeta.
  destruct (brand_or_product (inputsOf event)) as [[|c b]|];
    [| discriminate Hb |]; unfold afterFirst; cbn [answer]; reflexivity.
Qed.

(** X21.  The calls of the handler of [function_executed].  For another
    callback it calls nothing.  For this step it always makes a first call,
    a [completeSuccess] or a [completeError] for the execution of the event;
    a second call is made only when Slack rejected the first, and is the
    [completeError] that reports this rejection; there is no third. *)
Theorem X21_function_executed_calls (event : FunctionEvent) :
  let calls := App.functionExecuted w s event in
  let id := function_execution_id event in
  if bool_decide (callback_id event = js "social_listening_report") then
    ∃ first,
      ((∃ outputs, first = CompleteSuccess id outputs)
       ∨ (∃ error, first = CompleteError id error))
      ∧ (calls = [first]
         ∨ ∃ e, answer s first = thrown e
                ∧ calls = [first; CompleteError id (failed e)])
      ∧ (∀ u, answer s first = returned u → calls = [first])
  else calls = [].
Proof.
  intros calls id. subst calls.
  destruct (bool_decide (callback_id event = js "social_listening_report"))
    eqn:Hcb.
  2: { unfold App.functionExecuted. rewrite Hcb. reflexivity. }
  apply bool_decide_eq_true_1 in Hcb.
  rewrite (functionExecuted_cases w s event Hcb). fold id. cbv zeta.
  assert (Hshape : ∀ first,
    ((∃ outputs, first = CompleteSuccess id outputs)
     ∨ (∃ error, first = CompleteError id error)) →
    ∃ first0,
      ((∃ outputs, first0 = CompleteSuccess id outputs)
       ∨ (∃ error, first0 = CompleteError id error))
      ∧ (first :: afterFirst s id first = [first0]
         ∨ ∃ e, answer s first0 = thrown e
                ∧ first :: afterFirst s id first =
                  [first0; CompleteError id (failed e)])
      ∧ (∀ u, answer s first0 = returned u →
           first :: afterFirst s id first = [first0])).
  { intros first Hkind. exists first. split; [exact Hkind |].
    unfold afterFirst. destruct (answer s first) as [e|u].
    - split; [right; exists e; split; reflexivity | discriminate].
    - split; [left; reflexivity | reflexivity]. }
  destruct (brand_or_product (inputsOf event)) as [[|c b]|].
  - apply Hshape. right. eexists. reflexivity.
  - destruct (App.analyze w (c :: b) (inputsOf event)) as [e|analysis].
    + exists (CompleteError id (failed e)).
      split; [right; eexists; reflexivity |].
      split; [left; reflexivity | reflexivity].
    + apply Hshape. left. eexists. reflexivity.
  - apply Hshape. right. eexists. reflexivity.
Qed.

(** X23.  When a brand is given but [ANTHROPIC_API_KEY] is unset or empty,
    the handler of [function_executed] makes exactly one call: the
    [completeError] whose text is the prefix of the handler followed by the
    message of the exception of [analyzeSocialListening]. *)
Theorem X23_missing_api_key_is_reported (event : FunctionEvent)
    (brand : jsstring) :
  callback_id event = js "social_listening_report" →
  brand_or_product (inputsOf event) = Some brand →
  truthy brand = true →
  falsy (env w (js "ANTHROPIC_API_KEY")) = true →
  App.functionExecuted w s event =
  [CompleteError (function_execution_id event)
     (js "Social listening analysis failed: ANTHROPIC_API_KEY environment variable is not set")].
Proof.
  intros Hc Hb Ht Hkey.
  rewrite (functionExecuted_cases w s event Hc). cbv zeta.
  rewrite Hb. destruct brand as [|c b]; [discriminate Ht |].
  rewrite (analyze_without_key w (c :: b) (inputsOf event) Hkey).
  unfold thrown. cbv beta iota.
  assert (Htext :
    failed (Error (js "ANTHROPIC_API_KEY environment variable is not set")) =
    js "Social listening analysis failed: ANTHROPIC_API_KEY environment variable is not set")
    by (vm_compute; reflexivity).
  rewrite Htext. reflexivity.
Qed.

(** X24.  When a brand is given, the API key is set and the Anthropic client
    can be built, the analysis returns and the first call of the handler of
    [function_executed] is the [completeSuccess] that carries the outputs
    formatted from it; a [completeError] follows only if Slack rejects that
    call. *)
Theorem X24_analysis_ends_in_completeSuccess (event : FunctionEvent)
    (brand key : jsstring) :
  callback_id event = js "social_listening_report" →
  brand_or_product (inputsOf event) = Some brand →
  truthy brand = true →
  env w (js "ANTHROPIC_API_KEY") = Some key →
  truthy key = true →
  anthropic w key = returned tt →
  let id := function_execution_id event in
  ∃ analysis,
    App.analyze w brand (inputsOf event) = returned analysis
    ∧ let first :=
        CompleteSuccess id
          (App.formatOutputs w s brand (inputsOf event) analysis) in
      App.functionExecuted w s event =
      first :: match answer s first with
               | inr _ => []
               | inl e => [CompleteError id (failed e)]
               end.
Proof.
  intros Hc Hb Ht Hkey Hk Hclient id.
  destruct (analyze_with_key w brand key (inputsOf event) Hkey Hk Hclient)
    as (analysis & Hanalysis & _).
  exists analysis. split; [exact Hanalysis |].
  cbv zeta.
  rewrite (functionExecuted_cases w s event Hc). cbv zeta.
  rewrite Hb. destruct brand as [|c b]; [discriminate Ht |].
  rewrite Hanalysis. reflexivity.
Qed.

End HandlerTheorems.

Section Outputs.

Variables (w : World) (s : Slack).

Lemma truthy_app (a b : jsstring) : truthy a = true → truthy (a +++ b) = true.
Proof. destruct a; [discriminate | reflexivity]. Qed.

Lemma startsWith_app (p rest : jsstring) : startsWith p (p +++ rest) = true.
Proof. apply startsWith_spec. exists rest. reflexivity. Qed.

Lemma labelled_starts (emoji text fallback : jsstring) :
  startsWith emoji fallback = true →
  startsWith emoji (labelled emoji text fallback) = true.
Proof.
  intros Hfallback. unfold labelled.
  destruct (truthy text); [apply startsWith_app | exact Hfallback].
Qed.

Lemma flag_text (b : bool) :
  ((if b then js "true" else js "false") = js "true" ↔ b = true)
  ∧ ((if b then js "true" else js "false") = js "false" ↔ b = false).
Proof.
  destruct b; split; split; intros H; try reflexivity; discriminate H.
Qed.

(** X22.  The outputs of both handlers are never blank: each of the five
    text variables begins with its own emoji whether the analysis filled the
    field or not, the full report is not empty, and [has_critical_issues]
    is the text ["true"] exactly when the analysis raised the flag and the
    text ["false"] exactly when it did not. *)
Theorem X22_outputs_carry_their_markers (brand : jsstring) (given : Inputs)
    (analysis : AnalysisResult) :
  wellMarked analysis (App.formatOutputs w s brand given analysis)
  ∧ wellMarked analysis (App.backupOutputs w brand analysis).
Proof.
  split; unfold wellMarked.
  - split; [apply labelled_starts; vm_compute; reflexivity |].
    split; [apply labelled_starts; vm_compute; reflexivity |].
    split; [apply labelled_starts; vm_compute; reflexivity |].
    split; [apply labelled_starts; vm_compute; reflexivity |].
    split; [apply labelled_starts; vm_compute; reflexivity |].
    split; [| apply flag_text].
    cbn [App.formatOutputs full_report].
    destruct (truthy (fullReport analysis)) eqn:Hreport; [exact Hreport |].
    unfold App.defaultReport. cbv zeta.
    apply truthy_app. vm_compute. reflexivity.
  - split; [apply labelled_starts; vm_compute; reflexivity |].
    split; [apply labelled_starts; vm_compute; reflexivity |].
    split; [apply labelled_starts; vm_compute; reflexivity |].
    split; [apply labelled_starts; vm_compute; reflexivity |].
    split; [apply labelled_starts; vm_compute; reflexivity |].
    split; [| apply flag_text].
    cbn [App.backupOutputs full_report].
    destruct (truthy (fullReport analysis)) eqn:Hreport; [exact Hreport |].
    apply truthy_app. vm_compute. reflexivity.
Qed.

End Outputs.

Section HandlerFaults.

Variables (w : World) (s : Slack).

Lemma errorOutputs (brand : jsstring) (given : Inputs) (e : Exception) :
  let o := App.formatOutputs w s brand given
             (SocialListeningService.errorResult w e) in
  sentiment_summary o =
    js "📊 Error: Unable to complete social listening analysis. Please check API credentials and try again."
  ∧ positive_highlights o =
    js "✅ No significant positive highlights identified."
  ∧ negative_concerns o = js "⚠️ Analysis error occurred."
  ∧ trending_topics o = js "🔥 No trending topics detected."
  ∧ competitive_insights o = js "🎯 No competitive insights available."
  ∧ full_report o =
    js "# Social Listening Analysis Error" +++ [10%N; 10%N]
    +++ js "**Error:** " +++ message e +++ [10%N; 10%N]
    +++ js "**Time:** " +++ now w
  ∧ has_critical_issues o = js "true"
  ∧ report_timestamp o = now w.
Proof.
  cbv zeta.
  split; [vm_compute; reflexivity |].
  split; [vm_compute; reflexivity |].
  split; [vm_compute; reflexivity |].
  split; [vm_compute; reflexivity |].
  split; [vm_compute; reflexivity |].
  split.
  { cbn [App.formatOutputs full_report SocialListeningService.errorResult
         fullReport].
    rewrite truthy_app by (vm_compute; reflexivity). reflexivity. }
  split; [reflexivity |].
  cbn [App.formatOutputs report_timestamp SocialListeningService.errorResult
       timestamp].
  destruct (truthy (now w)); reflexivity.
Qed.

(** X25.  When a brand is given and the client is built but every
    generation call fails, the handler of [function_executed] still completes
    the step through [completeSuccess]: the outputs are those of the error
    result, with the flag ["true"], the error text of the analysis behind
    the chart emoji, the fixed texts for the fields the error result leaves
    empty, and the error report with the message of the exception. *)
Theorem X25_generation_fault_completes_with_error_outputs
    (event : FunctionEvent) (brand key : jsstring) :
  callback_id event = js "social_listening_report" →
  brand_or_product (inputsOf event) = Some brand →
  truthy brand = true →
  env w (js "ANTHROPIC_API_KEY") = Some key →
  truthy key = true →
  anthropic w key = returned tt →
  generationFails w →
  ∃ prompt e o rest,
    messagesCreate w prompt = thrown e
    ∧ App.functionExecuted w s event =
      CompleteSuccess (function_execution_id event) o :: rest
    ∧ sentiment_summary o =
      js "📊 Error: Unable to complete social listening analysis. Please check API credentials and try again."
    ∧ positive_highlights o =
      js "✅ No significant positive highlights identified."
    ∧ negative_concerns o = js "⚠️ Analysis error occurred."
    ∧ trending_topics o = js "🔥 No trending topics detected."
    ∧ competitive_insights o = js "🎯 No competitive insights available."
    ∧ full_report o =
      js "# Social Listening Analysis Error" +++ [10%N; 10%N]
      +++ js "**Error:** " +++ message e +++ [10%N; 10%N]
      +++ js "**Time:** " +++ now w
    ∧ has_critical_issues o = js "true"
    ∧ report_timestamp o = now w.
Proof.
  intros Hc Hb Ht Hkey Hk Hclient Hfails.
  destruct (analyze_with_key w brand key (inputsOf event) Hkey Hk Hclient)
    as (analysis & Hanalysis & [(prompt & e & Hthrown & ->)
                               | (prompt & content & source & Hreturned & _)]).
  2: { destruct (Hfails prompt) as [e He]. rewrite He in Hreturned.
       discriminate Hreturned. }
  exists prompt, e.
  exists (App.formatOutputs w s brand (inputsOf event)
            (SocialListeningService.errorResult w e)).
  eexists.
  split; [exact Hthrown |].
  split; [| apply errorOutputs].
  rewrite (functionExecuted_cases w s event Hc). cbv zeta.
  rewrite Hb. destruct brand as [|c b]; [discriminate Ht |].
  rewrite Hanalysis. reflexivity.
Qed.

(** The backup handler, by the three ways its [try] block can go. *)
Lemma functionHandler_cases (given : Inputs) :
  App.functionHandler w s given =
  match brand_or_product given with
  | Some (c :: b) =>
    match App.analyze w (c :: b) given with
    | inl e => ([], thrown notDefined)
    | inr analysis =>
      let outputs := App.backupOutputs w (c :: b) analysis in
      ([Complete outputs],
       match complete s outputs with
       | inr u => returned u
       | inl e => thrown notDefined
       end)
    end
  | _ =>
    let error := js "Brand/Product Name parameter is required" in
    ([Fail error],
     match fail s error with
     | inr u => returned u
     | inl e => thrown notDefined
     end)
  end.
Proof.
  unfold App.functionHandler, App.fallbackOutputs, notDefined. cbv zeta.
  destruct (brand_or_product given) as [[|c b]|]; cbn [truthy negb].
  - unfold tryT, call, bindT, quiet, thrown.
    destruct (fail s _) as [e|u]; reflexivity.
  - unfold bindT at 1, quiet at 1.
    destruct (App.analyze w (c :: b) given) as [e|analysis].
    + reflexivity.
    + unfold tryT, call, bindT, quiet, thrown. cbn [app].
      destruct (complete s _) as [e|u]; reflexivity.
  - unfold tryT, call, bindT, quiet, thrown.
    destruct (fail s _) as [e|u]; reflexivity.
Qed.

(** X26.  The backup handler never sends its fallback outputs.  It makes at
    most one call, and a [complete] it makes carries the outputs of an
    analysis that returned.  Whenever its [try] block throws — the analysis,
    or Slack rejecting the call — the handler itself ends with the error of
    reading [brand_or_product] out of scope, and it ends with no other
    error. *)
Theorem X26_backup_handler_never_falls_back (given : Inputs) :
  let calls := fst (App.functionHandler w s given) in
  let result := snd (App.functionHandler w s given) in
  length calls ≤ 1
  ∧ (∀ o, Complete o ∈ calls →
       ∃ brand analysis,
         brand_or_product given = Some brand
         ∧ App.analyze w brand given = returned analysis
         ∧ o = App.backupOutputs w brand analysis)
  ∧ (∀ e, result = thrown e → e = notDefined)
  ∧ (∀ c fault, c ∈ calls → answer s c = thrown fault →
       result = thrown notDefined)
  ∧ (∀ brand fault,
       brand_or_product given = Some brand → truthy brand = true →
       App.analyze w brand given = thrown fault →
       calls = [] ∧ result = thrown notDefined).
Proof.
  cbv zeta. rewrite functionHandler_cases. cbv zeta.
  assert (Hmissing : ∀ error,
    let calls := [Fail error] in
    let result := match fail s error with
                  | inr u => returned u
                  | inl _ => thrown notDefined
                  end in
    length calls ≤ 1
    ∧ (∀ o, Complete o ∈ calls →
         ∃ brand analysis,
           brand_or_product given = Some brand
           ∧ App.analyze w brand given = returned analysis
           ∧ o = App.backupOutputs w brand analysis)
    ∧ (∀ e, result = thrown e → e = notDefined)
    ∧ (∀ c fault, c ∈ calls → answer s c = thrown fault →
         result = thrown notDefined)).
  { intros error. cbv zeta.
    split; [cbn [length]; lia |].
    split.
    { intros o Ho. apply list_elem_of_singleton in Ho. discriminate Ho. }
    split.
    { intros e He. destruct (fail s error); [| discriminate He].
      injection He as <-. reflexivity. }
    intros c fault Hc Hfault. apply list_elem_of_singleton in Hc. subst c.
    cbn [answer] in Hfault. rewrite Hfault. reflexivity. }
  destruct (brand_or_product given) as [[|c b]|] eqn:Hbrand.
  - cbn [fst snd].
    destruct (Hmissing (js "Brand/Product Name parameter is required"))
      as (H1 & H2 & H3 & H4).
    split; [exact H1 |]. split; [exact H2 |]. split; [exact H3 |].
    split; [exact H4 |].
    intros brand fault [= <-] Htruthy. discriminate Htruthy.
  - destruct (App.analyze w (c :: b) given) as [e|analysis] eqn:Hanalysis.
    + cbn [fst snd].
      split; [cbn [length]; lia |].
      split; [intros o Ho; apply elem_of_nil in Ho; destruct Ho |].
      split; [intros e' [= <-]; reflexivity |].
      split; [intros c' fault Hc'; apply elem_of_nil in Hc'; destruct Hc' |].
      intros brand fault _ _ _. split; reflexivity.
    + cbn [fst snd].
      split; [cbn [length]; lia |].
      split.
      { intros o Ho. apply list_elem_of_singleton in Ho. injection Ho as ->.
        exists (c :: b), analysis.
        split; [reflexivity |]. split; [exact Hanalysis | reflexivity]. }
      split.
      { intros e He. destruct (complete s _); [| discriminate He].
        injection He as <-. reflexivity. }
      split.
      { intros c' fault Hc' Hfault.
        apply list_elem_of_singleton in Hc'. subst c'.
        cbn [answer] in Hfault. rewrite Hfault. reflexivity. }
      intros brand fault [= <-] _ Hfault.
      rewrite Hanalysis in Hfault. discriminate Hfault.
  - cbn [fst snd].
    destruct (Hmissing (js "Brand/Product Name parameter is required"))
      as (H1 & H2 & H3 & H4).
    split; [exact H1 |]. split; [exact H2 |]. split; [exact H3 |].
    split; [exact H4 |].
    intros brand fault [=].
Qed.

(** X27.  With a brand but without [ANTHROPIC_API_KEY] the backup handler
    calls neither [complete] nor [fail]: the analysis throws, the [catch]
    block throws in turn while it builds the fallback outputs, and the
    handler ends with that error. *)
Theorem X27_backup_handler_without_key (given : Inputs) (brand : jsstring) :
  brand_or_product given = Some brand →
  truthy brand = true →
  falsy (env w (js "ANTHROPIC_API_KEY")) = true →
  App.functionHandler w s given = ([], thrown notDefined).
Proof.
  intros Hb Ht Hkey.
  rewrite functionHandler_cases. cbv zeta.
  rewrite Hb. destruct brand as [|c b]; [discriminate Ht |].
  rewrite (analyze_without_key w (c :: b) given Hkey). reflexivity.
Qed.

End HandlerFaults.

(** An event without inputs is answered by the fixed error, once. *)
Lemma X20_missing_brand_is_reported_witness :
  App.functionExecuted quietWorld acceptingSlack bareEvent =
  CompleteError (function_execution_id bareEvent)
    (js "Brand/Product Name parameter is required but was not provided")
  :: match completeError acceptingSlack (function_execution_id bareEvent)
             (js "Brand/Product Name parameter is required but was not provided")
     with
     | inr _ => []
     | inl e => [CompleteError (function_execution_id bareEvent) (failed e)]
     end.
Proof.
  exact (X20_missing_brand_is_reported quietWorld acceptingSlack bareEvent
           ltac:(vm_compute; reflexivity) ltac:(vm_compute; reflexivity)).
Defined.

(** In a world without the API key the event for Acme is answered by the
    error of the key. *)
Lemma X23_missing_api_key_is_reported_witness :
  App.functionExecuted quietWorld acceptingSlack acmeEvent =
  [CompleteError (function_execution_id acmeEvent)
     (js "Social listening analysis failed: ANTHROPIC_API_KEY environment variable is not set")].
Proof.
  exact (X23_missing_api_key_is_reported quietWorld acceptingSlack acmeEvent
           (js "Acme")
           ltac:(vm_compute; reflexivity) ltac:(vm_compute; reflexivity)
           ltac:(vm_compute; reflexivity) ltac:(vm_compute; reflexivity)).
Defined.

Lemma X24_analysis_ends_in_completeSuccess_witness :
  ∃ analysis,
    App.analyze partlyFailingWorld (js "Acme") (inputsOf acmeEvent) =
    returned analysis
    ∧ head (App.functionExecuted partlyFailingWorld acceptingSlack acmeEvent) =
      Some (CompleteSuccess (function_execution_id acmeEvent)
              (App.formatOutputs partlyFailingWorld acceptingSlack (js "Acme")
                 (inputsOf acmeEvent) analysis)).
Proof.
  destruct (X24_analysis_ends_in_completeSuccess partlyFailingWorld
              acceptingSlack acmeEvent (js "Acme") (js "secret")
              ltac:(vm_compute; reflexivity) ltac:(vm_compute; reflexivity)
              ltac:(vm_compute; reflexivity) ltac:(vm_compute; reflexivity)
              ltac:(vm_compute; reflexivity) ltac:(vm_compute; reflexivity))
    as (analysis & Hanalysis & Hcalls).
  exists analysis. split; [exact Hanalysis |].
  cbv zeta in Hcalls. rewrite Hcalls. reflexivity.
Defined.

Lemma X25_generation_fault_completes_with_error_outputs_witness :
  ∃ o rest,
    App.functionExecuted refusingWorld acceptingSlack acmeEvent =
    CompleteSuccess (function_execution_id acmeEvent) o :: rest
    ∧ has_critical_issues o = js "true".
Proof.
  destruct (X25_generation_fault_completes_with_error_outputs refusingWorld
              acceptingSlack acmeEvent (js "Acme") (js "secret")
              ltac:(vm_compute; reflexivity) ltac:(vm_compute; reflexivity)
              ltac:(vm_compute; reflexivity) ltac:(vm_compute; reflexivity)
              ltac:(vm_compute; reflexivity) ltac:(vm_compute; reflexivity)
              ltac:(intros prompt; eexists; reflexivity))
    as (prompt & e & o & rest & _ & Hcalls & _ & _ & _ & _ & _ & _ & Hflag & _).
  exists o, rest. split; [exact Hcalls | exact Hflag].
Defined.

Lemma X27_backup_handler_without_key_witness :
  App.functionHandler quietWorld acceptingSlack acmeInputs =
  ([], thrown notDefined).
Proof.
  exact (X27_backup_handler_without_key quietWorld acceptingSlack acmeInputs
           (js "Acme")
           ltac:(vm_compute; reflexivity) ltac:(vm_compute; reflexivity)
           ltac:(vm_compute; reflexivity)).
Defined.

(* ===================================================================== *)
(** ** The text for the model                                             *)
(* ===================================================================== *)

Section Cites.

Implicit Types (s p a b : jsstring).

Lemma cites_here p b : cites (p +++ b) p.
Proof. apply includes_spec. exists [], b. reflexivity. Qed.

Lemma cites_skip a s p : cites s p → cites (a +++ s) p.
Proof.
  unfold cites. rewrite !includes_spec. intros (before & after & ->).
  exists (a ++ before), after. rewrite <- app_assoc. reflexivity.
Qed.

Lemma cites_first s b p : cites s p → cites (s +++ b) p.
Proof.
  unfold cites. rewrite !includes_spec. intros (before & after & ->).
  exists before, (after ++ b). rewrite <- !app_assoc. reflexivity.
Qed.

Lemma cites_nil s : cites s [].
Proof. apply includes_spec. exists [], s. reflexivity. Qed.

Tactic Notation "skip" integer(n) := do n apply cites_skip.

Lemma listResults_cites (rs : list SearchResult) (r : SearchResult) :
  r ∈ rs → ∀ index,
  cites (DataAggregator.listResults index rs) (name r)
  ∧ cites (DataAggregator.listResults index rs) (url r)
  ∧ cites (DataAggregator.listResults index rs) (snippet r).
Proof.
  induction 1 as [r rs | r r' rs Hin IH]; intros index;
    cbn [DataAggregator.listResults].
  - split; [skip 2; apply cites_here |].
    split; [skip 5; apply cites_here |].
    skip 9; apply cites_here.
  - destruct (IH (S index)) as (H1 & H2 & H3).
    split; [skip 12; exact H1 |].
    split; [skip 12; exact H2 |].
    skip 12; exact H3.
Qed.

Lemma webSection_cites heading tail (bucket : WebBucket) (r : SearchResult) :
  totalResults bucket = length (results bucket) →
  r ∈ results bucket →
  cites (DataAggregator.webSection heading tail bucket) (name r)
  ∧ cites (DataAggregator.webSection heading tail bucket) (url r)
  ∧ cites (DataAggregator.webSection heading tail bucket) (snippet r).
Proof.
  intros Htotal Hin. unfold DataAggregator.webSection.
  rewrite Htotal.
  destruct (results bucket) as [|r0 rs] eqn:Hrs;
    [apply elem_of_nil in Hin; destruct Hin |].
  cbn [length Nat.ltb Nat.leb].
  destruct (listResults_cites (r0 :: rs) r Hin 0) as (H1 & H2 & H3).
  split; [skip 5; exact H1 |].
  split; [skip 5; exact H2 |].
  skip 5; exact H3.
Qed.

Lemma formatForClaudeAnalysis_cites (reddit : RedditBucket)
    (linkedin twitter reviews blogs : WebBucket)
    (brand timeRange : jsstring) (stats : AggregateStats) :
  let text :=
    DataAggregator.formatForClaudeAnalysis reddit linkedin twitter reviews
      blogs brand timeRange stats in
  cites text brand
  ∧ cites text timeRange
  ∧ cites text (formattedText reddit)
  ∧ (∀ section, cites (DataAggregator.webSection (js "LINKEDIN DATA")
                         (js " results):") linkedin) section
                → cites text section)
  ∧ (∀ section, cites (DataAggregator.webSection (js "TWITTER/X DATA")
                         (js " results):") twitter) section
                → cites text section)
  ∧ (∀ section, cites (DataAggregator.webSection (js "REVIEW SITES DATA")
                         (js " results from G2, Capterra, TrustRadius):")
                         reviews) section
                → cites text section)
  ∧ (∀ section, cites (DataAggregator.webSection (js "BLOGS & FORUMS DATA")
                         (js " results):") blogs) section
                → cites text section).
Proof.
  cbv zeta. unfold DataAggregator.formatForClaudeAnalysis.
  split; [skip 1; apply cites_here |].
  split; [skip 4; apply cites_here |].
  split.
  { skip 43. apply cites_first.
    destruct (formattedText reddit) as [|c text]; [apply cites_nil |].
    cbn [truthy length Nat.ltb Nat.leb andb]. apply cites_here. }
  split; [intros section H; skip 44; apply cites_first; exact H |].
  split; [intros section H; skip 45; apply cites_first; exact H |].
  split; [intros section H; skip 46; apply cites_first; exact H |].
  intros section H; skip 47; apply cites_first; exact H.
Qed.

End Cites.

Lemma formattedForClaude_deduplicateEntries (d : AggregatedData) :
  formattedForClaude (DataAggregator.deduplicateEntries d) =
  formattedForClaude d.
Proof. rewrite deduplicateEntries_unfold. reflexivity. Qed.

Lemma formattedForClaude_aggregateResults (redditData : RedditData)
    (bingData : BingData) (brand timeRange : jsstring) :
  ∃ stats,
    formattedForClaude (aggregateResults redditData bingData brand timeRange) =
    DataAggregator.formatForClaudeAnalysis
      {| posts := rd_posts redditData;
         totalMentions := length (rd_posts redditData);
         sentiment := rd_sentiment redditData;
         formattedText := rd_formattedText redditData |}
      {| results := bd_linkedin bingData;
         totalResults := length (bd_linkedin bingData) |}
      {| results := bd_twitter bingData;
         totalResults := length (bd_twitter bingData) |}
      {| results := bd_reviews bingData;
         totalResults := length (bd_reviews bingData) |}
      {| results := bd_blogs bingData;
         totalResults := length (bd_blogs bingData) |}
      brand timeRange stats.
Proof.
  eexists. unfold aggregateResults. cbv zeta.
  rewrite formattedForClaude_deduplicateEntries.
  reflexivity.
Qed.

(** X28.  The text that the aggregator prepares for the model cites the
    whole of what the adapters returned: the brand, the time range, the text
    of the Reddit adapter, and the name, the URL and the snippet of every
    result of the four lists of the web adapter — also of a result that the
    pass over the buckets drops afterwards as a duplicate. *)
Theorem X28_text_cites_every_adapter_result (redditData : RedditData)
    (bingData : BingData) (brand timeRange : jsstring) :
  let text :=
    formattedForClaude (aggregateResults redditData bingData brand timeRange) in
  cites text brand
  ∧ cites text timeRange
  ∧ cites text (rd_formattedText redditData)
  ∧ ∀ r, r ∈ adapterResults bingData →
      cites text (name r) ∧ cites text (url r) ∧ cites text (snippet r).
Proof.
  cbv zeta.
  destruct (formattedForClaude_aggregateResults redditData bingData brand
              timeRange) as [stats ->].
  destruct (formatForClaudeAnalysis_cites
              {| posts := rd_posts redditData;
                 totalMentions := length (rd_posts redditData);
                 sentiment := rd_sentiment redditData;
                 formattedText := rd_formattedText redditData |}
              {| results := bd_linkedin bingData;
                 totalResults := length (bd_linkedin bingData) |}
              {| results := bd_twitter bingData;
                 totalResults := length (bd_twitter bingData) |}
              {| results := bd_reviews bingData;
                 totalResults := length (bd_reviews bingData) |}
              {| results := bd_blogs bingData;
                 totalResults := length (bd_blogs bingData) |}
              brand timeRange stats)
    as (Hbrand & Hrange & Hreddit & Hl & Ht & Hr & Hb).
  split; [exact Hbrand |]. split; [exact Hrange |].
  split; [exact Hreddit |].
  intros r Hin. unfold adapterResults in Hin.
  rewrite !elem_of_app in Hin.
  destruct Hin as [Hin | [Hin | [Hin | Hin]]].
  - destruct (webSection_cites (js "LINKEDIN DATA") (js " results):")
                {| results := bd_linkedin bingData;
                   totalResults := length (bd_linkedin bingData) |} r
                eq_refl Hin) as (H1 & H2 & H3).
    split; [apply Hl, H1 |]. split; [apply Hl, H2 | apply Hl, H3].
  - destruct (webSection_cites (js "TWITTER/X DATA") (js " results):")
                {| results := bd_twitter bingData;
                   totalResults := length (bd_twitter bingData) |} r
                eq_refl Hin) as (H1 & H2 & H3).
    split; [apply Ht, H1 |]. split; [apply Ht, H2 | apply Ht, H3].
  - destruct (webSection_cites (js "REVIEW SITES DATA")
                (js " results from G2, Capterra, TrustRadius):")
                {| results := bd_reviews bingData;
                   totalResults := length (bd_reviews bingData) |} r
                eq_refl Hin) as (H1 & H2 & H3).
    split; [apply Hr, H1 |]. split; [apply Hr, H2 | apply Hr, H3].
  - destruct (webSection_cites (js "BLOGS & FORUMS DATA") (js " results):")
                {| results := bd_blogs bingData;
                   totalResults := length (bd_blogs bingData) |} r
                eq_refl Hin) as (H1 & H2 & H3).
    split; [apply Hb, H1 |]. split; [apply Hb, H2 | apply Hb, H3].
Qed.

(* ===================================================================== *)
(** ** The first occurrence of a header                                 *)
(* ===================================================================== *)

Section FirstHeader.

Implicit Types (emoji header text s : jsstring).

(** With a title that does not start with white space, the pattern of a
    header matches at the start of [s] exactly when a header is there. *)
Lemma headerAt_iff emoji header s :
  (∃ c h, header = c :: h ∧ isSpace c = false) →
  (∃ rest, Regex.headerAt emoji header s = Some rest)
  ↔ headerHere emoji header s.
Proof.
  intros (c & h & -> & Hc). split.
  - intros (rest & Hrest). apply headerAt_spec in Hrest as (spaces & -> & Hsp).
    exists spaces, rest. split; [exact Hsp | reflexivity].
  - intros (spaces & rest & Hsp & ->). exists rest.
    unfold Regex.headerAt, Regex.skipSpaces.
    rewrite (proj2 (dropPrefix_spec emoji _ _) eq_refl).
    rewrite trimStart_skip by exact Hsp.
    change ((c :: h) ++ rest) with (c :: (h ++ rest)).
    rewrite trimStart_fixed by exact Hc.
    apply (dropPrefix_spec (c :: h)). reflexivity.
Qed.

(** The match is the leftmost one. *)
Lemma matchSection_leftmost emoji header (stops : list jsstring) text group :
  Regex.matchSection emoji header stops text = Some group →
  ∃ before rest r,
    text = before ++ rest
    ∧ Regex.headerAt emoji header rest = Some r
    ∧ group = Regex.lazyUntil stops r
    ∧ ∀ i, i < length before →
        Regex.headerAt emoji header (drop i text) = None.
Proof.
  induction text as [|c text IH]; rewrite matchSection_unfold.
  - destruct (Regex.headerAt emoji header []) as [r|] eqn:Hh; [| discriminate].
    intros [= <-]. exists [], [], r.
    split; [reflexivity |]. split; [exact Hh |]. split; [reflexivity |].
    intros i Hi. simpl in Hi. lia.
  - destruct (Regex.headerAt emoji header (c :: text)) as [r|] eqn:Hh.
    + intros [= <-]. exists [], (c :: text), r.
      split; [reflexivity |]. split; [exact Hh |]. split; [reflexivity |].
      intros i Hi. simpl in Hi. lia.
    + intros (before & rest & r & -> & H1 & H2 & Hno)%IH.
      exists (c :: before), rest, r.
      split; [reflexivity |]. split; [exact H1 |]. split; [exact H2 |].
      intros [|i] Hi; [exact Hh |].
      change (drop (S i) ((c :: before) ++ rest)) with (drop i (before ++ rest)).
      apply Hno. simpl in Hi. lia.
Qed.

(** Without a match there is no header anywhere. *)
Lemma matchSection_none emoji header (stops : list jsstring) text :
  Regex.matchSection emoji header stops text = None →
  ∀ i, Regex.headerAt emoji header (drop i text) = None.
Proof.
  induction text as [|c text IH]; rewrite matchSection_unfold.
  - destruct (Regex.headerAt emoji header []) eqn:Hh; [discriminate |].
    intros _ i. rewrite drop_nil. exact Hh.
  - destruct (Regex.headerAt emoji header (c :: text)) eqn:Hh; [discriminate |].
    intros H [|i]; [exact Hh |]. apply (IH H).
Qed.

End FirstHeader.

(** X15: what a section pattern captures, for a title that does not start
    with white space.  The capture is the piece of the reply that follows
    the first occurrence of the header (its emoji, any white space, its
    title): no header stands at an earlier position.  It runs up to the
    next stop emoji or the end of the reply: no stop emoji starts inside the
    capture.  And the pattern fails only on a reply without any header. *)
Theorem X15_capture_runs_to_next_stop (emoji header : jsstring)
    (stops : list jsstring) (text : jsstring)
    (Hheader : ∃ c h, header = c :: h ∧ isSpace c = false) :
  match Regex.matchSection emoji header stops text with
  | Some group =>
    ∃ before spaces after,
      text = before ++ emoji ++ spaces ++ header ++ group ++ after
      ∧ forallb isSpace spaces = true
      ∧ (∀ i, i < length before → ¬ headerHere emoji header (drop i text))
      ∧ (after = [] ∨ ∃ stop, stop ∈ stops ∧ startsWith stop after = true)
      ∧ ∀ i stop, stop ∈ stops → i < length group →
          startsWith stop (drop i (group ++ after)) = false
  | None => ∀ i, ¬ headerHere emoji header (drop i text)
  end.
Proof.
  destruct (Regex.matchSection emoji header stops text) as [group|] eqn:Hmatch.
  - apply matchSection_leftmost in Hmatch
      as (before & rest & r & -> & Hh & -> & Hfirst).
    apply headerAt_spec in Hh as (spaces & -> & Hsp).
    destruct (lazyUntil_spec stops r) as (after & Hr & Hafter & Hno).
    exists before, spaces, after.
    split; [now rewrite <- Hr |]. split; [exact Hsp |].
    split.
    { intros i Hi Hhere.
      apply (headerAt_iff emoji header _ Hheader) in Hhere as (rest' & Hrest').
      rewrite (Hfirst i Hi) in Hrest'. discriminate Hrest'. }
    split; [exact Hafter |].
    rewrite <- Hr. exact Hno.
  - intros i Hhere.
    apply (headerAt_iff emoji header _ Hheader) in Hhere as (rest' & Hrest').
    rewrite (matchSection_none emoji header stops text Hmatch i) in Hrest'.
    discriminate Hrest'.
Qed.

(** X15 on the concerns section of the reply with a pricing backlash. *)
Lemma X15_capture_runs_to_next_stop_witness :
  ∃ before spaces after,
    replyConcern
    = before ++ warningSign ++ spaces ++ js "**CRITICAL CONCERNS**"
      ++ ([10%N] +++ js "• CRITICAL: pricing backlash (source: g2.com)"
          +++ [10%N; 10%N]) ++ after
    ∧ ∀ i, i < length before →
        ¬ headerHere warningSign (js "**CRITICAL CONCERNS**")
            (drop i replyConcern).
Proof.
  pose proof (X15_capture_runs_to_next_stop warningSign
                (js "**CRITICAL CONCERNS**")
                [fire; target; lightBulb; barChart; checkMark] replyConcern
                ltac:(exists 42%N, (js "*CRITICAL CONCERNS**");
                      split; vm_compute; reflexivity)) as H.
  assert (Hmatch :
    Regex.matchSection warningSign (js "**CRITICAL CONCERNS**")
      [fire; target; lightBulb; barChart; checkMark] replyConcern
    = Some ([10%N] +++ js "• CRITICAL: pricing backlash (source: g2.com)"
            +++ [10%N; 10%N])) by (vm_compute; reflexivity).
  rewrite Hmatch in H.
  destruct H as (before & spaces & after & H & _ & Hfirst & _).
  exists before, spaces, after. split; [exact H | exact Hfirst].
Defined.

(* ===================================================================== *)
(** ** The sentiment of the forum posts                                   *)
(* ===================================================================== *)

Section Sentiment.

Implicit Types (posts : list RedditPost) (key : RedditPost → Z).

Lemma roundDouble_exact (z : Z) :
  (Z.abs z < 2 ^ 53)%Z → roundDouble z = Finite z.
Proof.
  intros Hz. unfold roundDouble. cbv zeta.
  destruct (Z.ltb_spec (Z.abs z) (2 ^ 53)) as [_ | Hge]; [reflexivity | lia].
Qed.

Lemma total_cons key p posts :
  total key (p :: posts) = (key p + total key posts)%Z.
Proof. reflexivity. Qed.

Lemma magnitude_cons key p posts :
  magnitude key (p :: posts) = (Z.abs (key p) + magnitude key posts)%Z.
Proof. reflexivity. Qed.

Lemma magnitude_nonneg key posts : (0 ≤ magnitude key posts)%Z.
Proof.
  induction posts as [|p posts IH]; [reflexivity |].
  rewrite magnitude_cons. lia.
Qed.

Lemma total_Permutation key posts posts' :
  posts ≡ₚ posts' → total key posts = total key posts'.
Proof.
  induction 1 as [| p l l' _ IH | p q l | l l' l'' _ IH1 _ IH2].
  - reflexivity.
  - rewrite !total_cons, IH. reflexivity.
  - rewrite !total_cons. lia.
  - rewrite IH1. exact IH2.
Qed.

Lemma total_abs key posts : (Z.abs (total key posts) ≤ magnitude key posts)%Z.
Proof.
  induction posts as [|p posts IH]; [reflexivity |].
  rewrite total_cons, magnitude_cons. lia.
Qed.

(** Below 2^53 the additions of [reduce] are exact. *)
Lemma reduceSum_exact key posts :
  (magnitude key posts < 2 ^ 53)%Z →
  RedditService.reduceSum key posts = Finite (total key posts).
Proof.
  unfold RedditService.reduceSum.
  assert (H : ∀ a, (Z.abs a + magnitude key posts < 2 ^ 53)%Z →
    foldl (fun sum post => plus sum (Finite (key post))) (Finite a) posts
    = Finite (a + total key posts)).
  { induction posts as [|p posts IH]; intros a Ha.
    - cbn [foldl total foldr]. f_equal. lia.
    - rewrite magnitude_cons in Ha. cbn [foldl plus].
      pose proof (magnitude_nonneg key posts).
      rewrite roundDouble_exact by lia.
      rewrite IH by lia. rewrite total_cons. f_equal. lia. }
  intros Hsmall. rewrite (H 0%Z) by (cbn [Z.abs]; lia). reflexivity.
Qed.

(** Bounds on every score are bounds on the total. *)
Lemma total_lower (lo : Z) posts :
  scores (fun x => (lo ≤ x)%Z) posts →
  (lo * Z.of_nat (length posts) ≤ total score posts)%Z.
Proof.
  induction posts as [|p posts IH]; intros Hall.
  - cbn. lia.
  - rewrite total_cons. cbn [length].
    pose proof (Hall p ltac:(left)) as Hp. cbv beta in Hp.
    assert (scores (fun x => (lo ≤ x)%Z) posts)
      by (intros q Hq; apply Hall; now right).
    specialize (IH ltac:(assumption)). lia.
Qed.

Lemma total_upper (hi : Z) posts :
  scores (fun x => (x ≤ hi)%Z) posts →
  (total score posts ≤ hi * Z.of_nat (length posts))%Z.
Proof.
  induction posts as [|p posts IH]; intros Hall.
  - cbn. lia.
  - rewrite total_cons. cbn [length].
    pose proof (Hall p ltac:(left)) as Hp. cbv beta in Hp.
    assert (scores (fun x => (x ≤ hi)%Z) posts)
      by (intros q Hq; apply Hall; now right).
    specialize (IH ltac:(assumption)). lia.
Qed.

Lemma scores_weaken (ok ok' : Z → Prop) posts :
  (∀ x, ok x → ok' x) → scores ok posts → scores ok' posts.
Proof. intros Himp H p Hp. apply Himp, H, Hp. Qed.

Lemma labels_differ :
  js "positive" ≠ js "negative" ∧ js "positive" ≠ js "neutral"
  ∧ js "negative" ≠ js "neutral".
Proof. split; [| split]; vm_compute; discriminate. Qed.

(** With exact sums, the result by the totals. *)
Lemma extractSentiment_exact posts :
  posts ≠ [] → exactSums posts →
  RedditService.extractSentiment posts =
  {| avgScore := AverageOf (Finite (total score posts)) (length posts);
     totalEngagement := Finite (total numComments posts);
     label :=
       if (10 * Z.of_nat (length posts) <? total score posts)%Z
       then js "positive"
       else if (total score posts <? 0)%Z then js "negative"
       else js "neutral" |}.
Proof.
  intros Hposts [Hs Hc]. unfold RedditService.extractSentiment.
  destruct posts as [|p posts]; [congruence |].
  cbn [length Nat.eqb]. cbv zeta.
  rewrite !reduceSum_exact by assumption. reflexivity.
Qed.

Lemma exactSums_Permutation posts posts' :
  posts ≡ₚ posts' → exactSums posts → exactSums posts'.
Proof.
  intros Hperm [Hs Hc]. unfold exactSums, magnitude in *.
  rewrite <- !(total_Permutation _ posts posts' Hperm). split; assumption.
Qed.

End Sentiment.

(** X29.  The label that [extractSentiment] gives to a non-empty list of
    posts whose scores and numbers of comments are small enough for the sums
    to be exact (magnitudes adding up to less than 2^53).  If every post
    scores above 10 it is ['positive'], if every post scores below 0 it is
    ['negative'], and if every score lies between 0 and 10 it is
    ['neutral'].  Conversely a ['positive'] label needs a post that scores
    above 10 and a ['negative'] one a post that scores below 0.  The result
    then does not depend on the order of the posts.  Beyond the bound it
    does: the additions are those of doubles, and four posts that score
    2^53, 1, -2^53 and -1 are labelled ['negative'] in this order and
    ['neutral'] with the second and third swapped. *)
Theorem X29_extractSentiment_label (posts : list RedditPost) :
  posts ≠ [] → exactSums posts →
  let r := RedditService.extractSentiment posts in
  (scores (fun x => (10 < x)%Z) posts → label r = js "positive")
  ∧ (scores (fun x => (x < 0)%Z) posts → label r = js "negative")
  ∧ (scores (fun x => (0 <= x <= 10)%Z) posts → label r = js "neutral")
  ∧ (label r = js "positive" → ∃ p, p ∈ posts ∧ (10 < score p)%Z)
  ∧ (label r = js "negative" → ∃ p, p ∈ posts ∧ (score p < 0)%Z)
  ∧ totalEngagement r = Finite (total numComments posts)
  ∧ (∀ posts', posts ≡ₚ posts' → RedditService.extractSentiment posts' = r)
  ∧ (cancelling ≡ₚ cancellingSwapped
     ∧ label (RedditService.extractSentiment cancelling) = js "negative"
     ∧ label (RedditService.extractSentiment cancellingSwapped)
       = js "neutral").
Proof.
  intros Hposts Hexact r. subst r.
  destruct labels_differ as (D1 & D2 & D3).
  rewrite (extractSentiment_exact posts Hposts Hexact). cbn [label totalEngagement].
  assert (Hn : (0 < Z.of_nat (length posts))%Z)
    by (destruct posts; [congruence | cbn [length]; lia]).
  set (n := Z.of_nat (length posts)) in *.
  set (t := total score posts).
  assert (Hlow : ∀ lo, scores (fun x => (lo ≤ x)%Z) posts → (lo * n ≤ t)%Z)
    by (intros lo; apply total_lower).
  assert (Hup : ∀ hi, scores (fun x => (x ≤ hi)%Z) posts → (t ≤ hi * n)%Z)
    by (intros hi; apply total_upper).
  split.
  { intros Hall.
    pose proof (Hlow 11%Z (scores_weaken (fun x => (10 < x)%Z)
      (fun x => (11 ≤ x)%Z) posts ltac:(intros x Hx; cbv beta in Hx |- *; lia) Hall)).
    destruct (Z.ltb_spec (10 * n) t); [reflexivity | lia]. }
  split.
  { intros Hall.
    pose proof (Hup (-1)%Z (scores_weaken (fun x => (x < 0)%Z)
      (fun x => (x ≤ -1)%Z) posts ltac:(intros x Hx; cbv beta in Hx |- *; lia) Hall)).
    destruct (Z.ltb_spec (10 * n) t); [lia |].
    destruct (Z.ltb_spec t 0); [reflexivity | lia]. }
  split.
  { intros Hall.
    pose proof (Hlow 0%Z (scores_weaken (fun x => (0 <= x <= 10)%Z)
      (fun x => (0 ≤ x)%Z) posts ltac:(intros x Hx; cbv beta in Hx |- *; lia) Hall)).
    pose proof (Hup 10%Z (scores_weaken (fun x => (0 <= x <= 10)%Z)
      (fun x => (x ≤ 10)%Z) posts ltac:(intros x Hx; cbv beta in Hx |- *; lia) Hall)).
    destruct (Z.ltb_spec (10 * n) t); [lia |].
    destruct (Z.ltb_spec t 0); [lia | reflexivity]. }
  split.
  { intros Hlabel.
    destruct (Z.ltb_spec (10 * n) t) as [Hhigh | Hhigh].
    2: { destruct (Z.ltb_spec t 0); exfalso;
           [apply D1 | apply D2]; symmetry; exact Hlabel. }
    destruct (decide (Exists (fun p => (10 < score p)%Z) posts)) as [He | Hne].
    - apply Exists_exists in He. exact He.
    - exfalso. apply not_Exists_Forall in Hne; [| intros p; apply _].
      rewrite Forall_forall in Hne.
      pose proof (Hup 10%Z ltac:(intros p Hp; specialize (Hne p Hp);
                                  simpl in Hne; cbv beta; lia)).
      lia. }
  split.
  { intros Hlabel.
    destruct (Z.ltb_spec (10 * n) t) as [Hhigh | Hhigh];
      [exfalso; apply D1; exact Hlabel |].
    destruct (Z.ltb_spec t 0) as [Hneg | Hneg];
      [| exfalso; apply D3; symmetry; exact Hlabel].
    destruct (decide (Exists (fun p => (score p < 0)%Z) posts)) as [He | Hne].
    - apply Exists_exists in He. exact He.
    - exfalso. apply not_Exists_Forall in Hne; [| intros p; apply _].
      rewrite Forall_forall in Hne.
      pose proof (Hlow 0%Z ltac:(intros p Hp; specialize (Hne p Hp);
                                  simpl in Hne; cbv beta; lia)).
      lia. }
  split; [reflexivity |].
  split.
  { intros posts' Hperm.
    rewrite (extractSentiment_exact posts').
    - subst n t. rewrite <- (Permutation_length Hperm).
      rewrite <- !(total_Permutation _ posts posts' Hperm). reflexivity.
    - intros ->. apply Permutation_nil_r in Hperm. contradiction.
    - exact (exactSums_Permutation posts posts' Hperm Hexact). }
  split; [apply perm_skip, perm_swap |].
  split; vm_compute; reflexivity.
Qed.

(** One post that scores 42 makes the label positive. *)
Lemma X29_extractSentiment_label_witness :
  label (RedditService.extractSentiment [forumPost sampleUrl 42 3]) =
  js "positive".
Proof.
  apply (X29_extractSentiment_label [forumPost sampleUrl 42 3]
           ltac:(discriminate) ltac:(split; vm_compute; reflexivity)).
  intros p Hp. apply list_elem_of_singleton in Hp. subst p.
  vm_compute. reflexivity.
Defined.
